(** * The tool-call pipeline of the MCP server template

    A shallow embedding of [internal/handlers] (tool_handler.go,
    http_client.go, jsonrpc_handler.go) and of the configuration types of
    [internal/config/types.go] they consume, followed by the properties
    of the parameter validator, the request builder, the retrying
    executor, the response validator and the JSON-RPC dispatcher.

    Conventions.
    - A Go [error] is its message; a function returning [(T, error)]
      returns [Res T], which also records a run-time panic, because one
      panic (a write into a nil map) is reachable from [tools/call].
    - [map[string]interface{}] is [option (gmap string Value)]: [None] is
      the nil map, which reads like the empty map and panics on a write.
    - What the handlers delegate to the Go standard library (templates,
      URL and JSON codecs, regular expressions, float parsing and
      printing, the environment, map iteration order) is a field of the
      class [GoRuntime]; every theorem holds for every runtime.
    - The HTTP transport is an explicit upstream oracle and every send
      is logged, so that "no network call" and "r+1 attempts" are
      statements about that log.  Logging, the back-off sleep between
      attempts and the deadline have no effect on a result other than
      through the outcomes of that oracle. *)

From Stdlib Require Import ZArith String Ascii List Bool Lia DecimalString.
From stdpp Require Import base option gmap strings list fin_maps.

Set Warnings "-register-all".
Set Default Proof Using "Type".

(** ** Results of fallible Go code *)

Inductive Res (A : Type) : Type :=
| OK (a : A)
| Err (msg : string)
| Panic (msg : string).
Arguments OK {A} a.
Arguments Err {A} msg.
Arguments Panic {A} msg.

#[global] Instance Res_ret : MRet Res := fun A a => OK a.
#[global] Instance Res_bind : MBind Res := fun A B f r =>
  match r with
  | OK a => f a
  | Err e => Err e
  | Panic p => Panic p
  end.

(** The result of a library function of type [(T, error)]: such a call
    returns, it does not panic. *)
Inductive Checked (A : Type) : Type :=
| Val (a : A)
| Fail (msg : string).
Arguments Val {A} a.
Arguments Fail {A} msg.

Definition call {A} (c : Checked A) : Res A :=
  match c with
  | Val a => OK a
  | Fail e => Err e
  end.

(** [fmt.Errorf(prefix + "%w", err)]: the error is wrapped, a value or a
    panic passes through. *)
Definition wrap {A} (prefix : string) (r : Res A) : Res A :=
  match r with
  | Err e => Err (prefix +:+ e)
  | other => other
  end.

(** [if cond { return fmt.Errorf(msg) }] *)
Definition failIf (cond : bool) (msg : string) : Res unit :=
  if cond then Err msg else OK tt.

Definition isOK {A} (r : Res A) : bool :=
  match r with OK _ => true | _ => false end.

(** ** Dynamic values ([interface{}]) *)

Inductive Value (F : Type) : Type :=
| VNil
| VBool (b : bool)
| VFloat (f : F)
| VInt (z : Z)
| VStr (s : string)
| VArr (l : list (Value F))
| VObj (m : gmap string (Value F)).
Arguments VNil {F}.
Arguments VBool {F} b.
Arguments VFloat {F} f.
Arguments VInt {F} z.
Arguments VStr {F} s.
Arguments VArr {F} l.
Arguments VObj {F} m.

(** [value != nil] *)
Definition notNil {F} (v : Value F) : bool :=
  match v with VNil => false | _ => true end.

(** The [%T] verb. *)
Definition goTypeName {F} (v : Value F) : string :=
  match v with
  | VNil => "<nil>"
  | VBool _ => "bool"
  | VFloat _ => "float64"
  | VInt _ => "int"
  | VStr _ => "string"
  | VArr _ => "[]interface {}"
  | VObj _ => "map[string]interface {}"
  end.

(** The [%d] verb on an [int]. *)
Definition fmt_d (z : Z) : string := NilZero.string_of_int (Z.to_int z).

(** The [%v] verb on a [[]string]. *)
Definition fmt_strings (l : list string) : string :=
  "[" +:+ String.concat " " l +:+ "]".

(** [strings.Contains(s, sub)], used with non-empty [sub] only. *)
Definition strings_Contains (s sub : string) : bool :=
  match String.index 0 sub s with Some _ => true | None => false end.

(** [strings.ToUpper] on the ASCII letters; the configuration admits
    only GET POST PUT PATCH DELETE HEAD OPTIONS as a method, and no
    non-ASCII letter has an upper case among the letters of "GET". *)
Definition upper_ascii (c : ascii) : ascii :=
  let n := nat_of_ascii c in
  if (97 <=? n)%nat && (n <=? 122)%nat then ascii_of_nat (n - 32) else c.

Fixpoint strings_ToUpper (s : string) : string :=
  match s with
  | EmptyString => EmptyString
  | String c r => String (upper_ascii c) (strings_ToUpper r)
  end.

(** Reads and length of a possibly nil Go map. *)
Definition mget {V} (m : option (gmap string V)) (k : string) : option V :=
  match m with Some g => g !! k | None => None end.

Definition mlen {V} (m : option (gmap string V)) : nat :=
  match m with Some g => size g | None => 0%nat end.

(** [m[k] = v]: assignment to an entry of a nil map panics. *)
Definition mset {V} (m : option (gmap string V)) (k : string) (v : V)
  : Res (option (gmap string V)) :=
  match m with
  | Some g => OK (Some (<[k := v]> g))
  | None => Panic "assignment to entry in nil map"
  end.

(** [url.Values] and [http.Header]: a list of values per key. *)
Abbreviation Values := (gmap string (list string)).

(** [url.URL], the fields the builder reads or writes. *)
Record URL := {
  url_Scheme : string;
  url_Host : string;
  url_Path : string;
  url_RawQuery : string;
  url_Fragment : string
}.

Definition withRawQuery (u : URL) (q : string) : URL :=
  {| url_Scheme := url_Scheme u; url_Host := url_Host u;
     url_Path := url_Path u; url_RawQuery := q;
     url_Fragment := url_Fragment u |}.

(** ** The Go runtime the handlers call into *)

Class GoRuntime := {
  float64 : Type;
  (** [a < b] on float64 *)
  float64_lt : float64 -> float64 -> bool;
  (** [float64(v)] for an [int] *)
  float64_of_int : Z -> float64;
  strconv_ParseFloat : string -> Checked float64;
  regexp_MatchString : string -> string -> Checked bool;
  (** the [%f] verb *)
  fmt_f : float64 -> string;
  (** the [%v] verb on an [interface{}] *)
  fmt_v : Value float64 -> string;
  (** text/template *)
  Template : Type;
  template_Parse : string -> Checked Template;
  template_Execute :
    Template -> option (gmap string (Value float64)) -> Checked string;
  (** net/url *)
  url_Parse : string -> Checked URL;
  url_String : URL -> string;
  url_ParseQuery : string -> Values;
  url_Encode : Values -> string;
  (** encoding/json *)
  json_Marshal : option (gmap string (Value float64)) -> Checked string;
  json_MarshalIndent : Value float64 -> Checked string;
  json_Unmarshal : string -> Checked (Value float64);
  (** net/http and net/textproto *)
  http_validMethod : string -> bool;
  http_CanonicalHeaderKey : string -> string;
  base64_EncodeToString : string -> string;
  os_Getenv : string -> string;
  strings_ReplaceAll : string -> string -> string -> string;
  (** [json.NewDecoder(r.Body).Decode(&req)]: the fields JSONRPC, ID,
      Method and Params of the decoded request *)
  json_DecodeRequest :
    string -> Checked (string * Value float64 * string * Value float64);
  (** [json.Marshal(req.Params)] then [json.Unmarshal] into the
      anonymous parameter struct of each method *)
  json_DecodeToolsCallParams :
    Value float64 -> Checked (string * option (gmap string (Value float64)));
  json_DecodePromptsGetParams : Value float64 -> string * gmap string string;
  json_DecodeResourcesReadParams : Value float64 -> string;
  (** The order in which a [range] over a [map[string]string] visits
      its entries: some enumeration of the entries. *)
  range_map : gmap string string -> list (string * string);
  range_map_perm : forall m, range_map m ≡ₚ map_to_list m
}.

Section Handlers.
Context `{rt : GoRuntime}.

Local Abbreviation value := (Value float64).
Local Abbreviation GoMap := (option (gmap string (Value float64))).

(** ** Configuration (internal/config/types.go) *)

Record ParameterValidation := {
  MinLength : option Z;
  MaxLength : option Z;
  Pattern : option string;
  MinValue : option float64;
  MaxValue : option float64;
  Enum : list string
}.

Record ParameterConfig := {
  param_Name : string;
  param_Type : string;
  param_Description : string;
  param_Required : bool;
  param_Default : value;
  param_Validation : option ParameterValidation
}.

Record AuthConfig := {
  auth_Type : string;
  auth_Token : string;
  auth_Username : string;
  auth_Password : string;
  auth_Headers : gmap string string;
  auth_EnvVar : string
}.

Record ValidationConfig := {
  val_Schema : string;
  val_StatusCodes : list Z;
  val_RequiredFields : list string
}.

Record ToolConfig := {
  tool_Name : string;
  tool_Description : string;
  tool_Endpoint : string;
  tool_Method : string;
  tool_Headers : gmap string string;
  tool_QueryParams : gmap string string;
  tool_BodyTemplate : string;
  tool_ContentType : string;
  tool_Parameters : list ParameterConfig;
  tool_ReturnType : string;
  tool_Timeout : Z;
  tool_Retries : Z;
  tool_Auth : option AuthConfig;
  tool_Validation : option ValidationConfig
}.

Record ServerConfig := {
  server_Name : string;
  server_Version : string
}.

Record ArgumentConfig := {
  arg_Name : string;
  arg_Description : string;
  arg_Required : bool
}.

Record PromptConfig := {
  prompt_Name : string;
  prompt_Description : string;
  prompt_Content : string;
  prompt_Arguments : list ArgumentConfig
}.

Record ResourceConfig := {
  res_URI : string;
  res_Name : string;
  res_Description : string;
  res_MimeType : string;
  res_Content : string;
  res_FilePath : string;
  res_URL : string
}.

Record Config := {
  cfg_Server : ServerConfig;
  cfg_Tools : list ToolConfig;
  cfg_Prompts : list PromptConfig;
  cfg_Resources : list ResourceConfig
}.

(** ** Parameter validation (tool_handler.go) *)

(** The constraints of a string parameter, in source order. *)
Definition validateString (pv : ParameterValidation) (str : string) : Res unit :=
  let len := Z.of_nat (String.length str) in
  _ ← match MinLength pv with
      | Some n => failIf (len <? n)%Z
                    ("string too short, minimum length is " +:+ fmt_d n)
      | None => OK tt
      end;
  _ ← match MaxLength pv with
      | Some n => failIf (n <? len)%Z
                    ("string too long, maximum length is " +:+ fmt_d n)
      | None => OK tt
      end;
  _ ← match Pattern pv with
      | Some pat =>
          matched ← wrap "invalid pattern: " (call (regexp_MatchString pat str));
          failIf (negb matched) ("string does not match pattern " +:+ pat)
      | None => OK tt
      end;
  match Enum pv with
  | [] => OK tt
  | enum => failIf (negb (existsb (String.eqb str) enum))
              ("value must be one of: " +:+ fmt_strings enum)
  end.

(** The bounds of a number parameter. *)
Definition validateNumber (pv : ParameterValidation) (num : float64) : Res unit :=
  _ ← match MinValue pv with
      | Some lo => failIf (float64_lt num lo)
                     ("number too small, minimum value is " +:+ fmt_f lo)
      | None => OK tt
      end;
  match MaxValue pv with
  | Some hi => failIf (float64_lt hi num)
                 ("number too large, maximum value is " +:+ fmt_f hi)
  | None => OK tt
  end.

Definition validateParameterValue (param : ParameterConfig) (v : value) : Res unit :=
  let ty := param_Type param in
  if String.eqb ty "string" then
    match v with
    | VStr str =>
        match param_Validation param with
        | Some pv => validateString pv str
        | None => OK tt
        end
    | _ => Err ("expected string, got " +:+ goTypeName v)
    end
  else if String.eqb ty "number" then
    num ← match v with
          | VFloat f => OK f
          | VInt z => OK (float64_of_int z)
          | VStr s => wrap "cannot convert string to number: " (call (strconv_ParseFloat s))
          | _ => Err ("expected number, got " +:+ goTypeName v)
          end;
    match param_Validation param with
    | Some pv => validateNumber pv num
    | None => OK tt
    end
  else if String.eqb ty "boolean" then
    match v with
    | VBool _ => OK tt
    | _ => Err ("expected boolean, got " +:+ goTypeName v)
    end
  else if String.eqb ty "object" then
    match v with
    | VObj _ => OK tt
    | _ => Err ("expected object, got " +:+ goTypeName v)
    end
  else if String.eqb ty "array" then
    match v with
    | VArr _ => OK tt
    | _ => Err ("expected array, got " +:+ goTypeName v)
    end
  else OK tt.

(** [validateParameters] mutates [arguments] in place: the map as the
    function leaves it is returned next to the outcome, also when the
    outcome is an error. *)
Fixpoint validateParameters_range (params : list ParameterConfig) (arguments : GoMap)
  : GoMap * Res unit :=
  match params with
  | [] => (arguments, OK tt)
  | param :: rest =>
      match mget arguments (param_Name param) with
      | None =>
          if param_Required param then
            (arguments,
             Err ("required parameter " +:+ param_Name param +:+ " is missing"))
          else if notNil (param_Default param) then
            match mset arguments (param_Name param) (param_Default param) with
            | OK arguments' => validateParameters_range rest arguments'
            | Err e => (arguments, Err e)
            | Panic p => (arguments, Panic p)
            end
          else validateParameters_range rest arguments
      | Some v =>
          match validateParameterValue param v with
          | OK _ => validateParameters_range rest arguments
          | Err e =>
              (arguments,
               Err ("parameter " +:+ param_Name param +:+ " validation failed: " +:+ e))
          | Panic p => (arguments, Panic p)
          end
      end
  end.

Definition validateParameters (tool : ToolConfig) (arguments : GoMap)
  : GoMap * Res unit :=
  validateParameters_range (tool_Parameters tool) arguments.

(** ** Requests and responses of the outbound HTTP leg *)

Record Request := {
  req_Method : string;
  req_URL : URL;
  req_Body : option string;
  req_Header : Values
}.

(** [req.Header.Set(key, value)] *)
Definition header_Set (req : Request) (key val : string) : Request :=
  {| req_Method := req_Method req; req_URL := req_URL req;
     req_Body := req_Body req;
     req_Header := <[http_CanonicalHeaderKey key := [val]]> (req_Header req) |}.

Definition dquote : string := String (ascii_of_nat 34) EmptyString.

(** [http.NewRequestWithContext(ctx, method, url, body)] with a non-nil
    context: an empty method means GET, the method must be a token, and
    the URL text is parsed again. *)
Definition http_NewRequestWithContext (method url : string) (body : option string)
  : Res Request :=
  let method := if String.eqb method "" then "GET" else method in
  if negb (http_validMethod method) then
    Err ("net/http: invalid method " +:+ dquote +:+ method +:+ dquote)
  else
    u ← call (url_Parse url);
    OK {| req_Method := method; req_URL := u; req_Body := body; req_Header := ∅ |}.

(** A response body is either [http.NoBody], which reads as empty even
    after [Close], or a stream that delivers its content (or a read
    error) while open and fails every read once closed. *)
Inductive ResponseBody :=
| NoBody
| Stream (content : Checked string) (closed : bool).

Definition body_Close (b : ResponseBody) : ResponseBody :=
  match b with
  | NoBody => NoBody
  | Stream content _ => Stream content true
  end.

Definition io_ReadAll (b : ResponseBody) : Res string :=
  match b with
  | NoBody => OK ""
  | Stream content false => call content
  | Stream _ true => Err "http: read on closed response body"
  end.

Record Response := {
  resp_StatusCode : Z;
  resp_Header : Values;
  resp_Body : ResponseBody
}.

Definition resp_Close (r : Response) : Response :=
  {| resp_StatusCode := resp_StatusCode r; resp_Header := resp_Header r;
     resp_Body := body_Close (resp_Body r) |}.

(** [resp.Header.Get(key)] *)
Definition header_Get (h : Values) (key : string) : string :=
  match h !! http_CanonicalHeaderKey key with
  | Some (v :: _) => v
  | _ => ""
  end.

(** What [client.Do] returns: the response and the error. *)
Definition DoResult : Type := option Response * option string.

(** The upstream as seen through [h.client.Do]: the outcome of the
    [n]-th send of a call (counting from 0) of a given request.
    Deadlines and cancellation are outcomes of this oracle. *)
Definition Upstream : Type := nat -> Request -> DoResult.

Record APIResponse := {
  api_StatusCode : Z;
  api_Headers : gmap string string;
  api_Body : string;
  api_Data : value
}.

(** ** The request builder (http_client.go) *)

Definition expandTemplate (templateStr : string) (params : GoMap) : Res string :=
  tmpl ← wrap "invalid template: " (call (template_Parse templateStr));
  wrap "template execution failed: " (call (template_Execute tmpl params)).

(** [strings.ToUpper(tool.Method) == "GET"] *)
Definition isGET (tool : ToolConfig) : bool :=
  String.eqb (strings_ToUpper (tool_Method tool)) "GET".

(** The loop over [tool.QueryParams]. *)
Fixpoint buildRequest_queryParams (entries : list (string * string)) (params : GoMap)
    (query : Values) : Res Values :=
  match entries with
  | [] => OK query
  | (key, val) :: rest =>
      expandedValue ← wrap ("failed to expand query param " +:+ key +:+ ": ")
                        (expandTemplate val params);
      buildRequest_queryParams rest params (<[key := [expandedValue]]> query)
  end.

(** The loop over [tool.Parameters] of a GET request. *)
Fixpoint buildRequest_getParams (declared : list ParameterConfig) (params : GoMap)
    (query : Values) : Values :=
  match declared with
  | [] => query
  | param :: rest =>
      match mget params (param_Name param) with
      | Some v =>
          buildRequest_getParams rest params (<[param_Name param := [fmt_v v]]> query)
      | None => buildRequest_getParams rest params query
      end
  end.

(** The loop over [tool.Headers]. *)
Fixpoint buildRequest_headers (entries : list (string * string)) (params : GoMap)
    (req : Request) : Res Request :=
  match entries with
  | [] => OK req
  | (key, val) :: rest =>
      expandedValue ← wrap ("failed to expand header " +:+ key +:+ ": ")
                        (expandTemplate val params);
      buildRequest_headers rest params (header_Set req key expandedValue)
  end.

(** [if auth.EnvVar != "" { if v := os.Getenv(auth.EnvVar); v != "" { x = v } }] *)
Definition envOverride (auth : AuthConfig) (x : string) : string :=
  if negb (String.eqb (auth_EnvVar auth) "") then
    let v := os_Getenv (auth_EnvVar auth) in
    if negb (String.eqb v "") then v else x
  else x.

Definition applyAuthentication (req : Request) (auth : AuthConfig) : Res Request :=
  let ty := auth_Type auth in
  if String.eqb ty "bearer" then
    let token := envOverride auth (auth_Token auth) in
    if String.eqb token "" then Err "bearer token not found"
    else OK (header_Set req "Authorization" ("Bearer " +:+ token))
  else if String.eqb ty "basic" then
    let username := auth_Username auth in
    let password := envOverride auth (auth_Password auth) in
    if String.eqb username "" || String.eqb password "" then
      Err "basic auth credentials not found"
    else
      OK (header_Set req "Authorization"
            ("Basic " +:+ base64_EncodeToString (username +:+ ":" +:+ password)))
  else if String.eqb ty "api_key" then
    OK (fold_left (fun r kv => header_Set r kv.1 (envOverride auth kv.2))
          (range_map (auth_Headers auth)) req)
  else if String.eqb ty "custom" then
    OK (fold_left (fun r kv => header_Set r kv.1 kv.2)
          (range_map (auth_Headers auth)) req)
  else OK req.

(** The body of the request under construction. *)
Definition buildRequest_body (tool : ToolConfig) (params : GoMap) : Res (option string) :=
  if negb (String.eqb (tool_BodyTemplate tool) "") && negb (isGET tool) then
    bodyContent ← wrap "failed to expand body template: "
                    (expandTemplate (tool_BodyTemplate tool) params);
    OK (Some bodyContent)
  else if negb (isGET tool) && (0 <? mlen params)%nat then
    jsonBody ← wrap "failed to marshal parameters to JSON: "
                 (call (json_Marshal params));
    OK (Some jsonBody)
  else OK None.

(** The query of the request under construction, from the query the
    endpoint already carries. *)
Definition buildRequest_query (tool : ToolConfig) (params : GoMap) (parsedURL : URL)
  : Res Values :=
  query ← buildRequest_queryParams (range_map (tool_QueryParams tool)) params
            (url_ParseQuery (url_RawQuery parsedURL));
  OK (if isGET tool
      then buildRequest_getParams (tool_Parameters tool) params query
      else query).

Definition buildRequest_endpoint (tool : ToolConfig) (params : GoMap) : Res URL :=
  expandedEndpoint ←
    (if strings_Contains (tool_Endpoint tool) "{{"
     then wrap "failed to expand endpoint template: "
            (expandTemplate (tool_Endpoint tool) params)
     else OK (tool_Endpoint tool));
  wrap "invalid endpoint URL: " (call (url_Parse expandedEndpoint)).

Definition buildRequest (tool : ToolConfig) (params : GoMap) : Res Request :=
  parsedURL ← buildRequest_endpoint tool params;
  query ← buildRequest_query tool params parsedURL;
  let parsedURL := withRawQuery parsedURL (url_Encode query) in
  body ← buildRequest_body tool params;
  req ← wrap "failed to create request: "
          (http_NewRequestWithContext (strings_ToUpper (tool_Method tool))
             (url_String parsedURL) body);
  let req := if negb (String.eqb (tool_ContentType tool) "") && bool_decide (is_Some body)
             then header_Set req "Content-Type" (tool_ContentType tool)
             else req in
  let req := header_Set req "User-Agent" "MCP-Server/1.0.0" in
  let req := header_Set req "Accept" "application/json, text/plain, */*" in
  req ← buildRequest_headers (range_map (tool_Headers tool)) params req;
  match tool_Auth tool with
  | Some auth => wrap "failed to apply authentication: " (applyAuthentication req auth)
  | None => OK req
  end.

(** ** The response processor and the retrying executor (http_client.go) *)

Definition isSuccessStatusCode (statusCode : Z) (validation : option ValidationConfig)
  : bool :=
  match validation with
  | Some v =>
      match val_StatusCodes v with
      | [] => (200 <=? statusCode)%Z && (statusCode <? 300)%Z
      | codes => existsb (Z.eqb statusCode) codes
      end
  | None => (200 <=? statusCode)%Z && (statusCode <? 300)%Z
  end.

(** The loop over [validation.RequiredFields]. *)
Fixpoint validateResponse_fields (fields : list string) (data : gmap string value)
  : Res unit :=
  match fields with
  | [] => OK tt
  | field :: rest =>
      match data !! field with
      | None => Err ("required field " +:+ field +:+ " missing from response")
      | Some _ => validateResponse_fields rest data
      end
  end.

Definition validateResponse (resp : APIResponse) (validation : ValidationConfig)
  : Res unit :=
  _ ← match val_StatusCodes validation with
      | [] => OK tt
      | codes =>
          failIf (negb (existsb (Z.eqb (api_StatusCode resp)) codes))
            ("unexpected status code " +:+ fmt_d (api_StatusCode resp))
      end;
  match val_RequiredFields validation with
  | [] => OK tt
  | fields =>
      if notNil (api_Data resp) then
        match api_Data resp with
        | VObj data => validateResponse_fields fields data
        | _ => Err "response is not a JSON object"
        end
      else OK tt
  end.

(** The structured payload: parsed when the content type indicates
    JSON and the body is not empty, absent when it does not parse. *)
Definition processResponse_data (contentType bodyBytes : string) : value :=
  if strings_Contains contentType "application/json"
     && (0 <? String.length bodyBytes)%nat
  then match json_Unmarshal bodyBytes with
       | Val jsonData => jsonData
       | Fail _ => VNil
       end
  else VNil.

(** [processResponse] dereferences [resp] at once ([defer
    resp.Body.Close()]): a nil response is a nil-pointer panic. *)
Definition processResponse (resp : option Response) (tool : ToolConfig)
  : Res APIResponse :=
  match resp with
  | None => Panic "invalid memory address or nil pointer dereference"
  | Some resp =>
      bodyBytes ← wrap "failed to read response body: " (io_ReadAll (resp_Body resp));
      let contentType := header_Get (resp_Header resp) "Content-Type" in
      let data := processResponse_data contentType bodyBytes in
      let apiResp :=
        {| api_StatusCode := resp_StatusCode resp;
           api_Headers := omap head (resp_Header resp);
           api_Body := bodyBytes;
           api_Data := data |} in
      match tool_Validation tool with
      | Some validation =>
          _ ← wrap "response validation failed: " (validateResponse apiResp validation);
          OK apiResp
      | None => OK apiResp
      end
  end.

(** The variables of the retry loop, and the log of the requests handed
    to the transport so far. *)
Record LoopState := {
  ls_resp : option Response;
  ls_lastErr : option string;
  ls_sent : list Request
}.

(** One pass of the loop body after the request is built: send, then
    either [break] ([true]) or close the body and go on ([false]). *)
Definition ExecuteRequest_attempt (upstream : Upstream) (tool : ToolConfig)
    (req : Request) (st : LoopState) : Res (bool * LoopState) :=
  let '(resp, lastErr) := upstream (length (ls_sent st)) req in
  let sent := ls_sent st ++ [req] in
  match lastErr, resp with
  | None, None => Panic "invalid memory address or nil pointer dereference"
  | None, Some r =>
      if isSuccessStatusCode (resp_StatusCode r) (tool_Validation tool)
      then OK (true, {| ls_resp := resp; ls_lastErr := lastErr; ls_sent := sent |})
      else OK (false, {| ls_resp := Some (resp_Close r); ls_lastErr := lastErr;
                         ls_sent := sent |})
  | Some _, _ =>
      OK (false, {| ls_resp := resp_Close <$> resp; ls_lastErr := lastErr;
                    ls_sent := sent |})
  end.

(** [for attempt := 0; attempt <= tool.Retries; attempt++], with
    [remaining] the number of passes still to run.  An early [return]
    is an [Err] next to the log so far. *)
Fixpoint ExecuteRequest_loop (remaining : nat) (upstream : Upstream) (tool : ToolConfig)
    (params : GoMap) (st : LoopState) : Res LoopState * list Request :=
  match remaining with
  | O => (OK st, ls_sent st)
  | S remaining' =>
      match wrap "failed to build request: " (buildRequest tool params) with
      | OK req =>
          match ExecuteRequest_attempt upstream tool req st with
          | OK (true, st') => (OK st', ls_sent st')
          | OK (false, st') => ExecuteRequest_loop remaining' upstream tool params st'
          | Err e => (Err e, ls_sent st ++ [req])
          | Panic p => (Panic p, ls_sent st ++ [req])
          end
      | Err e => (Err e, ls_sent st)
      | Panic p => (Panic p, ls_sent st)
      end
  end.

(** The result of the call and the requests it sent, in order. *)
Definition ExecuteRequest (upstream : Upstream) (tool : ToolConfig) (params : GoMap)
  : Res APIResponse * list Request :=
  let st0 := {| ls_resp := None; ls_lastErr := None; ls_sent := [] |} in
  let passes := Z.to_nat (tool_Retries tool + 1) in
  match ExecuteRequest_loop passes upstream tool params st0 with
  | (OK st, sent) =>
      match ls_lastErr st with
      | Some lastErr =>
          (Err ("request failed after " +:+ fmt_d (tool_Retries tool + 1)
                +:+ " attempts: " +:+ lastErr), sent)
      | None =>
          (wrap "failed to process response: " (processResponse (ls_resp st) tool), sent)
      end
  | (Err e, sent) => (Err e, sent)
  | (Panic p, sent) => (Panic p, sent)
  end.

(** ** The tool handler (tool_handler.go) *)

(** The SDK's content blocks, in the forms the dispatcher tells apart. *)
Inductive Content :=
| TextContentPtr (text : string)
| TextContentVal (text : string)
| ContentMap (m : gmap string value)
| ContentOther (printed : string).

Record CallToolResult := {
  Content_ : list Content;
  IsError : bool
}.

(** The SDK's constructors [mcp.NewToolResultText] and
    [mcp.NewToolResultError]: one text block by value, and the error
    flag. *)
Definition NewToolResultText (text : string) : CallToolResult :=
  {| Content_ := [TextContentVal text]; IsError := false |}.

Definition NewToolResultError (text : string) : CallToolResult :=
  {| Content_ := [TextContentVal text]; IsError := true |}.

Record ToolHandler := {
  th_tools : gmap string ToolConfig;
  th_upstream : Upstream
}.

(** [json.MarshalIndent(response.Data, "", "  ")] when there is parsed
    data and it encodes, else the raw body. *)
Definition dataOrBody (response : APIResponse) : CallToolResult :=
  if notNil (api_Data response) then
    match json_MarshalIndent (api_Data response) with
    | Val jsonBytes => NewToolResultText jsonBytes
    | Fail _ => NewToolResultText (api_Body response)
    end
  else NewToolResultText (api_Body response).

Definition convertResponseToMCPResult (response : APIResponse) (tool : ToolConfig)
  : CallToolResult :=
  if (400 <=? api_StatusCode response)%Z then
    NewToolResultError ("HTTP Error " +:+ fmt_d (api_StatusCode response) +:+ ": "
                        +:+ api_Body response)
  else if String.eqb (tool_ReturnType tool) "string" then
    NewToolResultText (api_Body response)
  else if String.eqb (tool_ReturnType tool) "object"
          || String.eqb (tool_ReturnType tool) "array" then
    dataOrBody response
  else dataOrBody response.

(** The result, and the requests sent on the way. *)
Definition ExecuteTool (h : ToolHandler) (toolName : string) (arguments : GoMap)
  : Res CallToolResult * list Request :=
  match th_tools h !! toolName with
  | None => (Err ("tool " +:+ toolName +:+ " not found"), [])
  | Some tool =>
      match validateParameters tool arguments with
      | (_, Err e) => (Err ("parameter validation failed: " +:+ e), [])
      | (_, Panic p) => (Panic p, [])
      | (arguments', OK _) =>
          match ExecuteRequest (th_upstream h) tool arguments' with
          | (Err e, sent) =>
              (OK (NewToolResultError
                     (tool_Method tool +:+ " " +:+ tool_Endpoint tool
                      +:+ " failed: " +:+ e)), sent)
          | (Panic p, sent) => (Panic p, sent)
          | (OK response, sent) => (OK (convertResponseToMCPResult response tool), sent)
          end
      end
  end.

(** ** The JSON-RPC dispatcher (jsonrpc_handler.go) *)

Record JSONRPCRequest := {
  rpc_JSONRPC : string;
  rpc_ID : value;
  rpc_Method : string;
  rpc_Params : value
}.

Record JSONRPCError := {
  err_Code : Z;
  err_Message : string;
  err_Data : value
}.

Record JSONRPCResponse := {
  rsp_JSONRPC : string;
  rsp_ID : value;
  rsp_Result : value;
  rsp_Error : option JSONRPCError
}.

Record JSONRPCHandler := {
  jh_config : Config;
  jh_toolHandler : ToolHandler
}.

(** The inbound HTTP request, as far as the handler reads it. *)
Record HTTPRequest := {
  http_Method : string;
  http_Body : string
}.

(** [http.ResponseWriter]: the header map, the status line once it is
    written, and the envelopes encoded into the body. *)
Record ResponseWriter := {
  w_Header : gmap string string;
  w_Status : option Z;
  w_Body : list JSONRPCResponse
}.

Definition newResponseWriter : ResponseWriter :=
  {| w_Header := ∅; w_Status := None; w_Body := [] |}.

(** [w.Header().Set(key, value)] *)
Definition w_HeaderSet (w : ResponseWriter) (key val : string) : ResponseWriter :=
  {| w_Header := <[http_CanonicalHeaderKey key := val]> (w_Header w);
     w_Status := w_Status w; w_Body := w_Body w |}.

(** [w.WriteHeader(code)]: only the first call sets the status. *)
Definition w_WriteHeader (w : ResponseWriter) (code : Z) : ResponseWriter :=
  match w_Status w with
  | Some _ => w
  | None => {| w_Header := w_Header w; w_Status := Some code; w_Body := w_Body w |}
  end.

(** [json.NewEncoder(w).Encode(response)]: a write before any
    [WriteHeader] sends status 200. *)
Definition w_Encode (w : ResponseWriter) (response : JSONRPCResponse) : ResponseWriter :=
  let w := w_WriteHeader w 200 in
  {| w_Header := w_Header w; w_Status := w_Status w;
     w_Body := w_Body w ++ [response] |}.

Definition writeSuccess (w : ResponseWriter) (id result : value) : ResponseWriter :=
  let response :=
    {| rsp_JSONRPC := "2.0"; rsp_ID := id; rsp_Result := result; rsp_Error := None |} in
  let w := w_HeaderSet w "Content-Type" "application/json" in
  let w := w_WriteHeader w 200 in
  w_Encode w response.

Definition writeError (w : ResponseWriter) (id : value) (code : Z) (message : string)
    (data : value) : ResponseWriter :=
  let response :=
    {| rsp_JSONRPC := "2.0"; rsp_ID := id; rsp_Result := VNil;
       rsp_Error := Some {| err_Code := code; err_Message := message;
                            err_Data := data |} |} in
  let w := w_HeaderSet w "Content-Type" "application/json" in
  let w := w_WriteHeader w 200 in
  w_Encode w response.

Definition obj (m : gmap string value) : value := VObj m.
Definition strs (l : list string) : value := VArr (VStr <$> l).

Definition handleInitialize (h : JSONRPCHandler) (w : ResponseWriter)
    (req : JSONRPCRequest) : ResponseWriter :=
  let listChanged := obj {[ "listChanged" := VBool true ]} in
  let result := obj
    (<["protocolVersion" := VStr "2024-11-05"]>
     (<["capabilities" := obj (<["tools" := listChanged]>
                               (<["prompts" := listChanged]>
                                {[ "resources" := listChanged ]}))]>
      (<["serverInfo" := obj (<["name" := VStr (server_Name (cfg_Server (jh_config h)))]>
                              {[ "version" :=
                                   VStr (server_Version (cfg_Server (jh_config h))) ]})]>
       {[ "instructions" :=
            VStr "MCP Server ready for tool, prompt, and resource operations" ]}))) in
  writeSuccess w (rpc_ID req) result.

Definition handleInitialized (w : ResponseWriter) (req : JSONRPCRequest)
  : ResponseWriter :=
  writeSuccess w (rpc_ID req) (obj ∅).

(** [if p != nil { m[key] = *p }] *)
Definition setOpt (key : string) (o : option value) (m : gmap string value)
  : gmap string value :=
  match o with Some v => <[key := v]> m | None => m end.

Definition toolsList_propSchema (param : ParameterConfig) : gmap string value :=
  let propSchema : gmap string value :=
    <["type" := VStr (param_Type param)]>
      {[ "description" := VStr (param_Description param) ]} in
  let propSchema :=
    if notNil (param_Default param)
    then <["default" := param_Default param]> propSchema else propSchema in
  match param_Validation param with
  | Some pv =>
      if String.eqb (param_Type param) "string" then
        let s := setOpt "minLength" (VInt <$> MinLength pv) propSchema in
        let s := setOpt "maxLength" (VInt <$> MaxLength pv) s in
        let s := setOpt "pattern" (VStr <$> Pattern pv) s in
        match Enum pv with
        | [] => s
        | enum => <["enum" := strs enum]> s
        end
      else if String.eqb (param_Type param) "number" then
        let s := setOpt "minimum" (VFloat <$> MinValue pv) propSchema in
        setOpt "maximum" (VFloat <$> MaxValue pv) s
      else propSchema
  | None => propSchema
  end.

Definition toolsList_toolDef (tool : ToolConfig) : value :=
  let properties : gmap string value :=
    fold_left (fun props param =>
                 <[param_Name param := obj (toolsList_propSchema param)]> props)
      (tool_Parameters tool) ∅ in
  let required := param_Name <$> filter (fun p => param_Required p = true)
                                   (tool_Parameters tool) in
  let inputSchema : gmap string value :=
    <["type" := VStr "object"]> {[ "properties" := obj properties ]} in
  let inputSchema :=
    match required with
    | [] => inputSchema
    | _ => <["required" := strs required]> inputSchema
    end in
  obj (<["name" := VStr (tool_Name tool)]>
       (<["description" := VStr (tool_Description tool)]>
        {[ "inputSchema" := obj inputSchema ]})).

Definition handleToolsList (h : JSONRPCHandler) (w : ResponseWriter)
    (req : JSONRPCRequest) : ResponseWriter :=
  let tools := toolsList_toolDef <$> cfg_Tools (jh_config h) in
  writeSuccess w (rpc_ID req) (obj {[ "tools" := VArr tools ]}).

(** A JSON-RPC text content object. *)
Definition textContent (text : string) : value :=
  obj (<["type" := VStr "text"]> {[ "text" := VStr text ]}).

(** The error text taken from the first content block of an error
    result. *)
Definition toolsCall_errorMsg (result : CallToolResult) : string :=
  match Content_ result with
  | TextContentPtr text :: _ => text
  | TextContentVal text :: _ => text
  | ContentMap m :: _ =>
      match m !! "text" with
      | Some (VStr t) => t
      | _ => "Tool execution failed"
      end
  | _ => "Tool execution failed"
  end.

(** The normalisation of one content block of a successful result. *)
Definition toolsCall_content (c : Content) : value :=
  match c with
  | TextContentPtr text => textContent text
  | TextContentVal text => textContent text
  | ContentMap m =>
      match m !! "type", m !! "text" with
      | Some (VStr "text"), Some (VStr t) => textContent t
      | _, _ => textContent (fmt_v (VObj m))
      end
  | ContentOther printed => textContent printed
  end.

(** The decoding of [req.Params] into [{name, arguments}]; without
    params the struct keeps its zero value. *)
Definition toolsCall_decode (req : JSONRPCRequest) : Checked (string * GoMap) :=
  if notNil (rpc_Params req)
  then json_DecodeToolsCallParams (rpc_Params req)
  else Val ("", None).

(** The writer after the call, and the requests sent upstream. *)
Definition handleToolsCall (h : JSONRPCHandler) (w : ResponseWriter)
    (req : JSONRPCRequest) : Res ResponseWriter * list Request :=
  match toolsCall_decode req with
  | Fail e => (OK (writeError w (rpc_ID req) (-32602) "Invalid params" (VStr e)), [])
  | Val (name, arguments) =>
      match ExecuteTool (jh_toolHandler h) name arguments with
      | (Err e, sent) =>
          (OK (writeError w (rpc_ID req) (-32000) "Tool execution error"
                 (VStr ("Failed to execute tool '" +:+ name +:+ "': " +:+ e))), sent)
      | (Panic p, sent) => (Panic p, sent)
      | (OK result, sent) =>
          if IsError result then
            (OK (writeError w (rpc_ID req) (-32000) "Tool execution error"
                   (VStr (toolsCall_errorMsg result))), sent)
          else
            let content := toolsCall_content <$> Content_ result in
            (OK (writeSuccess w (rpc_ID req) (obj {[ "content" := VArr content ]})),
             sent)
      end
  end.

Definition handlePromptsList (h : JSONRPCHandler) (w : ResponseWriter)
    (req : JSONRPCRequest) : ResponseWriter :=
  let argDef (arg : ArgumentConfig) : value :=
    obj (<["name" := VStr (arg_Name arg)]>
         (<["description" := VStr (arg_Description arg)]>
          {[ "required" := VBool (arg_Required arg) ]})) in
  let promptDef (prompt : PromptConfig) : value :=
    obj (<["name" := VStr (prompt_Name prompt)]>
         (<["description" := VStr (prompt_Description prompt)]>
          {[ "arguments" := VArr (argDef <$> prompt_Arguments prompt) ]})) in
  writeSuccess w (rpc_ID req)
    (obj {[ "prompts" := VArr (promptDef <$> cfg_Prompts (jh_config h)) ]}).

Definition handlePromptsGet (h : JSONRPCHandler) (w : ResponseWriter)
    (req : JSONRPCRequest) : ResponseWriter :=
  let '(name, arguments) :=
    if notNil (rpc_Params req)
    then json_DecodePromptsGetParams (rpc_Params req)
    else ("", ∅) in
  match find (fun p => String.eqb (prompt_Name p) name) (cfg_Prompts (jh_config h)) with
  | None =>
      writeError w (rpc_ID req) (-32602) "Invalid params"
        (VStr ("Prompt '" +:+ name +:+ "' not found"))
  | Some promptConfig =>
      let content :=
        fold_left (fun content kv =>
                     strings_ReplaceAll content ("{" +:+ kv.1 +:+ "}") kv.2)
          (range_map arguments) (prompt_Content promptConfig) in
      let message :=
        obj (<["role" := VStr "user"]> {[ "content" := textContent content ]}) in
      writeSuccess w (rpc_ID req)
        (obj (<["description" := VStr (prompt_Description promptConfig)]>
              {[ "messages" := VArr [message] ]}))
  end.

Definition handleResourcesList (h : JSONRPCHandler) (w : ResponseWriter)
    (req : JSONRPCRequest) : ResponseWriter :=
  let resourceDef (resource : ResourceConfig) : value :=
    obj (<["uri" := VStr (res_URI resource)]>
         (<["name" := VStr (res_Name resource)]>
          (<["description" := VStr (res_Description resource)]>
           {[ "mimeType" := VStr (res_MimeType resource) ]}))) in
  writeSuccess w (rpc_ID req)
    (obj {[ "resources" := VArr (resourceDef <$> cfg_Resources (jh_config h)) ]}).

Definition handleResourcesRead (h : JSONRPCHandler) (w : ResponseWriter)
    (req : JSONRPCRequest) : ResponseWriter :=
  let uri :=
    if notNil (rpc_Params req)
    then json_DecodeResourcesReadParams (rpc_Params req)
    else "" in
  match find (fun r => String.eqb (res_URI r) uri) (cfg_Resources (jh_config h)) with
  | None =>
      writeError w (rpc_ID req) (-32602) "Invalid params"
        (VStr ("Resource '" +:+ uri +:+ "' not found"))
  | Some resourceConfig =>
      let content := res_Content resourceConfig in
      let content :=
        if String.eqb content "" && negb (String.eqb (res_FilePath resourceConfig) "")
        then "File content would be loaded here" else content in
      let content :=
        if String.eqb content "" && negb (String.eqb (res_URL resourceConfig) "")
        then "URL content would be fetched here" else content in
      let entry :=
        obj (<["uri" := VStr (res_URI resourceConfig)]>
             (<["mimeType" := VStr (res_MimeType resourceConfig)]>
              {[ "text" := VStr content ]})) in
      writeSuccess w (rpc_ID req) (obj {[ "contents" := VArr [entry] ]})
  end.

Definition handlePing (w : ResponseWriter) (req : JSONRPCRequest) : ResponseWriter :=
  writeSuccess w (rpc_ID req) (obj ∅).

(** The routing by method name. *)
Definition dispatch (h : JSONRPCHandler) (w : ResponseWriter) (req : JSONRPCRequest)
  : Res ResponseWriter * list Request :=
  let m := rpc_Method req in
  if String.eqb m "initialize" then (OK (handleInitialize h w req), [])
  else if String.eqb m "initialized" then (OK (handleInitialized w req), [])
  else if String.eqb m "tools/list" then (OK (handleToolsList h w req), [])
  else if String.eqb m "tools/call" then handleToolsCall h w req
  else if String.eqb m "prompts/list" then (OK (handlePromptsList h w req), [])
  else if String.eqb m "prompts/get" then (OK (handlePromptsGet h w req), [])
  else if String.eqb m "resources/list" then (OK (handleResourcesList h w req), [])
  else if String.eqb m "resources/read" then (OK (handleResourcesRead h w req), [])
  else if String.eqb m "ping" then (OK (handlePing w req), [])
  else (OK (writeError w (rpc_ID req) (-32601) "Method not found"
              (VStr ("Unknown method: " +:+ m))), []).

Definition ServeHTTP (h : JSONRPCHandler) (w : ResponseWriter) (r : HTTPRequest)
  : Res ResponseWriter * list Request :=
  let w := w_HeaderSet w "Access-Control-Allow-Origin" "*" in
  let w := w_HeaderSet w "Access-Control-Allow-Methods" "POST, OPTIONS" in
  let w := w_HeaderSet w "Access-Control-Allow-Headers" "Content-Type, Authorization" in
  let w := w_HeaderSet w "Access-Control-Max-Age" "86400" in
  if String.eqb (http_Method r) "OPTIONS" then (OK (w_WriteHeader w 204), [])
  else if negb (String.eqb (http_Method r) "POST") then
    (OK (writeError w VNil (-32600) "Invalid Request"
           (VStr "Only POST method is allowed")), [])
  else
    match json_DecodeRequest (http_Body r) with
    | Fail e => (OK (writeError w VNil (-32700) "Parse error" (VStr e)), [])
    | Val (jsonrpc, id, method, params) =>
        dispatch h w {| rpc_JSONRPC := jsonrpc; rpc_ID := id; rpc_Method := method;
                        rpc_Params := params |}
    end.

End Handlers.

(** ** Configuration loading (internal/config/loader.go) *)

Section Loader.
Context `{rt : GoRuntime}.

Record OAuthConfig := {
  oauth_Enabled : bool;
  oauth_AuthorizationServers : list string;
  oauth_AcceptedAudiences : list string;
  oauth_RequiredScopes : list string;
  oauth_JWKSCacheTTL : Z;
  oauth_AllowInsecureHTTP : bool
}.

Record SecurityConfig := {
  sec_EnableCORS : bool;
  sec_AllowedOrigins : list string;
  sec_EnableRateLimit : bool;
  sec_RateLimit : Z;
  sec_EnableAuth : bool;
  sec_APIKeys : list string;
  sec_TLSCertPath : string;
  sec_TLSKeyPath : string;
  sec_OAuth : OAuthConfig
}.

Record RuntimeConfig := {
  run_MaxConcurrentRequests : Z;
  run_DefaultTimeout : Z;
  run_HealthCheckInterval : Z;
  run_MetricsEnabled : bool;
  run_LogLevel : string;
  run_Environment : string
}.

(** The [Config] struct in full: the four sections the handlers read,
    and the security and runtime sections. *)
Record FullConfig := {
  full_Config : Config;
  full_Security : SecurityConfig;
  full_Runtime : RuntimeConfig
}.

(** [time.Second] and [time.Minute], in nanoseconds. *)
Definition time_Second : Z := 1000000000.
Definition time_Minute : Z := 60 * time_Second.

(** The parameter loop of [setDefaults]. *)
Definition setDefaults_param (param : ParameterConfig) : ParameterConfig :=
  {| param_Name := param_Name param;
     param_Type := if String.eqb (param_Type param) "" then "string"
                   else param_Type param;
     param_Description := param_Description param;
     param_Required := param_Required param;
     param_Default := param_Default param;
     param_Validation := param_Validation param |}.

(** The body of the tool loop of [setDefaults]; the content type is
    decided on the method as defaulted just before. *)
Definition setDefaults_tool (tool : ToolConfig) : ToolConfig :=
  let method := if String.eqb (tool_Method tool) "" then "GET" else tool_Method tool in
  let contentType :=
    if String.eqb (tool_ContentType tool) ""
       && (String.eqb method "POST" || String.eqb method "PUT"
           || String.eqb method "PATCH")
    then "application/json" else tool_ContentType tool in
  {| tool_Name := tool_Name tool;
     tool_Description := tool_Description tool;
     tool_Endpoint := tool_Endpoint tool;
     tool_Method := method;
     tool_Headers := tool_Headers tool;
     tool_QueryParams := tool_QueryParams tool;
     tool_BodyTemplate := tool_BodyTemplate tool;
     tool_ContentType := contentType;
     tool_Parameters := setDefaults_param <$> tool_Parameters tool;
     tool_ReturnType := tool_ReturnType tool;
     tool_Timeout := if (tool_Timeout tool =? 0)%Z then (30 * time_Second)%Z
                     else tool_Timeout tool;
     tool_Retries := if (tool_Retries tool =? 0)%Z then 3%Z else tool_Retries tool;
     tool_Auth := tool_Auth tool;
     tool_Validation := tool_Validation tool |}.

Definition setDefaults (cfg : FullConfig) : FullConfig :=
  let base := full_Config cfg in
  let sec := full_Security cfg in
  let run := full_Runtime cfg in
  {| full_Config :=
       {| cfg_Server :=
            {| server_Name := server_Name (cfg_Server base);
               server_Version :=
                 if String.eqb (server_Version (cfg_Server base)) "" then "1.0.0"
                 else server_Version (cfg_Server base) |};
          cfg_Tools := setDefaults_tool <$> cfg_Tools base;
          cfg_Prompts := cfg_Prompts base;
          cfg_Resources := cfg_Resources base |};
     full_Security :=
       {| sec_EnableCORS := sec_EnableCORS sec;
          sec_AllowedOrigins := sec_AllowedOrigins sec;
          sec_EnableRateLimit := sec_EnableRateLimit sec;
          sec_RateLimit := if (sec_RateLimit sec =? 0)%Z then 100%Z
                           else sec_RateLimit sec;
          sec_EnableAuth := sec_EnableAuth sec;
          sec_APIKeys := sec_APIKeys sec;
          sec_TLSCertPath := sec_TLSCertPath sec;
          sec_TLSKeyPath := sec_TLSKeyPath sec;
          sec_OAuth := sec_OAuth sec |};
     full_Runtime :=
       {| run_MaxConcurrentRequests :=
            if (run_MaxConcurrentRequests run =? 0)%Z then 100%Z
            else run_MaxConcurrentRequests run;
          run_DefaultTimeout :=
            if (run_DefaultTimeout run =? 0)%Z then (30 * time_Second)%Z
            else run_DefaultTimeout run;
          run_HealthCheckInterval :=
            if (run_HealthCheckInterval run =? 0)%Z then time_Minute
            else run_HealthCheckInterval run;
          run_MetricsEnabled := run_MetricsEnabled run;
          run_LogLevel := if String.eqb (run_LogLevel run) "" then "info"
                          else run_LogLevel run;
          run_Environment := if String.eqb (run_Environment run) "" then "development"
                             else run_Environment run |} |}.

Definition validateAuthConfig (auth : AuthConfig) : Res unit :=
  let ty := auth_Type auth in
  if String.eqb ty "bearer" then
    failIf (String.eqb (auth_Token auth) "" && String.eqb (auth_EnvVar auth) "")
      "bearer auth requires either token or env_var"
  else if String.eqb ty "basic" then
    failIf (String.eqb (auth_Username auth) ""
            || (String.eqb (auth_Password auth) "" && String.eqb (auth_EnvVar auth) ""))
      "basic auth requires username and either password or env_var"
  else if String.eqb ty "api_key" then
    failIf ((size (auth_Headers auth) =? 0)%nat && String.eqb (auth_EnvVar auth) "")
      "api_key auth requires headers or env_var"
  else if String.eqb ty "custom" then
    failIf (size (auth_Headers auth) =? 0)%nat "custom auth requires headers"
  else OK tt.

(** A uniqueness loop: [seen] is the map of the names met so far. *)
Fixpoint checkUnique (what : string) (seen : gset string) (names : list string)
  : Res unit :=
  match names with
  | [] => OK tt
  | name :: rest =>
      if bool_decide (name ∈ seen) then Err ("duplicate " +:+ what +:+ ": " +:+ name)
      else checkUnique what ({[ name ]} ∪ seen) rest
  end.

(** The number of content sources of a resource. *)
Definition contentSources (resource : ResourceConfig) : nat :=
  (if String.eqb (res_Content resource) "" then 0 else 1)
  + (if String.eqb (res_FilePath resource) "" then 0 else 1)
  + (if String.eqb (res_URL resource) "" then 0 else 1).

(** The resource loop: uniqueness of the URI, then exactly one content
    source, resource by resource. *)
Fixpoint validateBusinessRules_resources (seen : gset string)
    (resources : list ResourceConfig) : Res unit :=
  match resources with
  | [] => OK tt
  | resource :: rest =>
      if bool_decide (res_URI resource ∈ seen) then
        Err ("duplicate resource URI: " +:+ res_URI resource)
      else if (contentSources resource =? 0)%nat then
        Err ("resource " +:+ res_URI resource
             +:+ " must have at least one content source (content, file_path, or url)")
      else if (1 <? contentSources resource)%nat then
        Err ("resource " +:+ res_URI resource +:+ " can only have one content source")
      else validateBusinessRules_resources ({[ res_URI resource ]} ∪ seen) rest
  end.

(** The authentication loop over the tools. *)
Fixpoint validateBusinessRules_auth (tools : list ToolConfig) : Res unit :=
  match tools with
  | [] => OK tt
  | tool :: rest =>
      _ ← match tool_Auth tool with
          | Some auth =>
              wrap ("invalid auth config for tool " +:+ tool_Name tool +:+ ": ")
                (validateAuthConfig auth)
          | None => OK tt
          end;
      validateBusinessRules_auth rest
  end.

Definition validateBusinessRules (cfg : Config) : Res unit :=
  _ ← checkUnique "tool name" ∅ (tool_Name <$> cfg_Tools cfg);
  _ ← checkUnique "prompt name" ∅ (prompt_Name <$> cfg_Prompts cfg);
  _ ← validateBusinessRules_resources ∅ (cfg_Resources cfg);
  validateBusinessRules_auth (cfg_Tools cfg).

(** ** The validator helpers (internal/validation/validator.go) *)


(** The [%v] verb on a [[]int]. *)
Definition fmt_ints (l : list Z) : string :=
  "[" +:+ String.concat " " (fmt_d <$> l) +:+ "]".

Definition ValidateHTTPStatusCode (statusCode : Z) (expectedCodes : list Z) : Res unit :=
  match expectedCodes with
  | [] =>
      if (200 <=? statusCode)%Z && (statusCode <? 300)%Z then OK tt
      else Err ("unexpected status code " +:+ fmt_d statusCode +:+ ", expected 2xx")
  | _ =>
      if existsb (Z.eqb statusCode) expectedCodes then OK tt
      else Err ("unexpected status code " +:+ fmt_d statusCode
                +:+ ", expected one of " +:+ fmt_ints expectedCodes)
  end.

(** ** The bearer gate in front of the dispatcher (internal/server/server.go) *)

(** The inbound request as the gate reads it: the Authorization header,
    what decides the scheme and the host of the canonical URL, and the
    request handed on. *)
Record InboundRequest := {
  in_Authorization : string;
  in_TLS : bool;
  in_ForwardedProto : string;
  in_Host : string;
  in_Request : HTTPRequest
}.

Definition lower_ascii (c : ascii) : ascii :=
  let n := nat_of_ascii c in
  if (65 <=? n)%nat && (n <=? 90)%nat then ascii_of_nat (n + 32) else c.

(** [strings.ToLower] on the ASCII letters; no other letter has a lower
    case among the letters of "bearer ". *)
Fixpoint strings_ToLower (s : string) : string :=
  match s with
  | EmptyString => EmptyString
  | String c r => String (lower_ascii c) (strings_ToLower r)
  end.

Definition canonicalBaseURL (r : InboundRequest) (port : Z) : string :=
  let scheme :=
    if negb (in_TLS r) && String.eqb (in_ForwardedProto r) "" then "http" else "https" in
  let host := if String.eqb (in_Host r) "" then "localhost:" +:+ fmt_d port
              else in_Host r in
  scheme +:+ "://" +:+ host.

Definition writeWWWAuthenticate (w : ResponseWriter) (r : InboundRequest) (port : Z)
    (errCode errDesc : string) : ResponseWriter :=
  let resourceMeta := canonicalBaseURL r port +:+ "/.well-known/oauth-protected-resource" in
  let val := "Bearer, error=" +:+ dquote +:+ errCode +:+ dquote
             +:+ ", error_description=" +:+ dquote +:+ errDesc +:+ dquote
             +:+ ", resource_metadata=" +:+ dquote +:+ resourceMeta +:+ dquote in
  w_HeaderSet w "WWW-Authenticate" val.

(** [wrapWithAuth(next, port)], with [next] the wrapped handler. *)
Definition wrapWithAuth
    (next : ResponseWriter -> HTTPRequest -> Res ResponseWriter * list Request)
    (port : Z) (w : ResponseWriter) (r : InboundRequest)
  : Res ResponseWriter * list Request :=
  let authz := in_Authorization r in
  if String.eqb authz "" || negb (String.prefix "bearer " (strings_ToLower authz)) then
    let w := writeWWWAuthenticate w r port "invalid_token" "Missing bearer token" in
    (OK (w_WriteHeader w 401), [])
  else next w (in_Request r).

(** The handler mounted on [/mcp] by [Start]. *)
Definition mcpEndpoint (cfg : FullConfig) (toolHandler : ToolHandler) (port : Z)
    (w : ResponseWriter) (r : InboundRequest) : Res ResponseWriter * list Request :=
  let jsonrpcHandler :=
    {| jh_config := full_Config cfg; jh_toolHandler := toolHandler |} in
  if oauth_Enabled (sec_OAuth (full_Security cfg))
  then wrapWithAuth (ServeHTTP jsonrpcHandler) port w r
  else ServeHTTP jsonrpcHandler w (in_Request r).

End Loader.

(** ** Vocabulary of the statements *)

Section Vocabulary.
Context `{rt : GoRuntime}.

(** An outcome of [client.Do] honours the transport's contract when it
    carries a response or an error. *)
Definition doWellFormed (d : DoResult) : Prop :=
  match d with
  | (None, None) => False
  | _ => True
  end.

(** The test of the retry loop's [break]. *)
Definition classifiedSuccessful (tool : ToolConfig) (d : DoResult) : bool :=
  match d with
  | (Some resp, None) => isSuccessStatusCode (resp_StatusCode resp) (tool_Validation tool)
  | _ => false
  end.

(** The [n]-th send of the request is not classified successful. *)
Definition attemptFails (upstream : Upstream) (tool : ToolConfig) (req : Request)
    (n : nat) : Prop :=
  doWellFormed (upstream n req) /\ classifiedSuccessful tool (upstream n req) = false.

(** None of the first [attempts] sends of the request is classified
    successful. *)
Definition neverSucceeds (upstream : Upstream) (tool : ToolConfig) (req : Request)
    (attempts : nat) : Prop :=
  forall n, (n < attempts)%nat -> attemptFails upstream tool req n.

(** A parameter of that name is declared. *)
Definition declared (tool : ToolConfig) (k : string) : Prop :=
  exists param, param ∈ tool_Parameters tool /\ param_Name param = k.

(** The envelope is an error envelope with that code. *)
Definition isErrorEnvelope (response : JSONRPCResponse) (code : Z) : Prop :=
  rsp_Result response = VNil /\
  exists e, rsp_Error response = Some e /\ err_Code e = code.

(** The envelope is a success envelope. *)
Definition isSuccessEnvelope (response : JSONRPCResponse) : Prop :=
  rsp_Error response = None /\ notNil (rsp_Result response) = true.

(** The tool-level error text of a failed execution: the executor's
    error, or a final outcome with status 400 or more. *)
Definition toolFailureText (tool : ToolConfig) (r : Res APIResponse) : option string :=
  match r with
  | Err e =>
      Some (tool_Method tool +:+ " " +:+ tool_Endpoint tool +:+ " failed: " +:+ e)
  | OK response =>
      if (400 <=? api_StatusCode response)%Z
      then Some ("HTTP Error " +:+ fmt_d (api_StatusCode response) +:+ ": "
                 +:+ api_Body response)
      else None
  | Panic _ => None
  end.

(** The computation does not panic. *)
Definition noPanic {A} (r : Res A) : Prop := forall p, r <> Panic p.

(** The status check of [validateResponse]. *)
Definition statusAllowed (validation : ValidationConfig) (statusCode : Z) : bool :=
  match val_StatusCodes validation with
  | [] => true
  | codes => existsb (Z.eqb statusCode) codes
  end.

(** The payload is a JSON object holding every field of the list. *)
Definition objectWith (fields : list string) (data : Value float64) : Prop :=
  exists m, data = VObj m /\ forall field, field ∈ fields -> is_Some (m !! field).

(** Nothing has been written to the writer yet. *)
Definition fresh (w : ResponseWriter) : Prop :=
  w_Status w = None /\ w_Body w = [].

(** The handler answered with one envelope through [writeSuccess] or
    [writeError]. *)
Definition replied (w w' : ResponseWriter) : Prop :=
  (exists id m, w' = writeSuccess w id (obj m)) \/
  (exists id code message data, w' = writeError w id code message data).

(** What the loop variables hold after an attempt that did not break:
    the outcome of the send, its response body closed. *)
Definition afterAttempt (d : DoResult) : option Response * option string :=
  (resp_Close <$> d.1, d.2).

(** Method, URL and body are fixed by [http.NewRequestWithContext];
    headers and authentication only touch the header map. *)
Definition sameLine (r1 r2 : Request) : Prop :=
  req_Method r1 = req_Method r2 /\ req_URL r1 = req_URL r2 /\
  req_Body r1 = req_Body r2.

End Vocabulary.

(** ** A small runtime and configuration for closed examples

    Numbers are integers, templates and patterns are literal text,
    URLs have the plain shape scheme://host/path?query, header keys
    are already canonical, the environment is empty and inbound bodies
    do not decode.  The examples only use it where it agrees with Go on
    the inputs at hand. *)

Definition demo_ParseFloat (s : string) : Checked Z :=
  match NilZero.int_of_string s with
  | Some i => Val (Z.of_int i)
  | None => Fail ("strconv.ParseFloat: parsing " +:+ dquote +:+ s +:+ dquote
                  +:+ ": invalid syntax")
  end.

Definition demo_fmt_v (v : Value Z) : string :=
  match v with
  | VNil => "<nil>"
  | VBool true => "true"
  | VBool false => "false"
  | VFloat f => fmt_d f
  | VInt z => fmt_d z
  | VStr s => s
  | VArr _ => "[...]"
  | VObj _ => "map[...]"
  end.

Definition demo_template_Parse (s : string) : Checked string :=
  if strings_Contains s "{{" then Fail "template: expand: actions are not supported"
  else Val s.

(** Text after the first occurrence of [sep], if any. *)
Definition after (sep s : string) : option (string * string) :=
  match String.index 0 sep s with
  | Some i =>
      Some (String.substring 0 i s,
            String.substring (i + String.length sep)
              (String.length s - (i + String.length sep)) s)
  | None => None
  end.

(** [scheme://host/path?query], without escapes, user info or
    fragment. *)
Definition demo_url_Parse (s : string) : Checked URL :=
  let '(rest, query) := default (s, "") (after "?" s) in
  let '(scheme, rest) := default ("", rest) (after "://" rest) in
  let '(host, path) :=
    if String.eqb scheme "" then ("", rest)
    else match String.index 0 "/" rest with
         | Some i => (String.substring 0 i rest,
                      String.substring i (String.length rest - i) rest)
         | None => (rest, "")
         end in
  Val {| url_Scheme := scheme; url_Host := host; url_Path := path;
         url_RawQuery := query; url_Fragment := "" |}.

Definition demo_url_String (u : URL) : string :=
  (if String.eqb (url_Scheme u) "" then "" else url_Scheme u +:+ "://")
  +:+ url_Host u +:+ url_Path u
  +:+ (if String.eqb (url_RawQuery u) "" then "" else "?" +:+ url_RawQuery u).

Definition demo_url_Encode (q : Values) : string :=
  String.concat "&"
    ((fun kv : string * list string => kv.1 +:+ "=" +:+ String.concat "," kv.2)
       <$> map_to_list q).

Definition demo_json_scalar (v : Value Z) : string :=
  match v with
  | VNil => "null"
  | VStr s => dquote +:+ s +:+ dquote
  | VArr _ => "[]"
  | VObj _ => "{}"
  | other => demo_fmt_v other
  end.

Definition demo_json_Marshal (m : option (gmap string (Value Z))) : Checked string :=
  match m with
  | None => Val "null"
  | Some g =>
      Val ("{" +:+ String.concat ","
             ((fun kv : string * Value Z =>
                 dquote +:+ kv.1 +:+ dquote +:+ ":" +:+ demo_json_scalar kv.2)
                <$> map_to_list g) +:+ "}")
  end.

Definition demo_json_Unmarshal (s : string) : Checked (Value Z) :=
  if String.eqb s "null" then Val VNil
  else if String.eqb s "{}" then Val (VObj ∅)
  else if String.eqb s "[]" then Val (VArr [])
  else Fail "invalid character looking for beginning of value".

Definition demo_DecodeToolsCallParams (v : Value Z)
  : Checked (string * option (gmap string (Value Z))) :=
  match v with
  | VObj m =>
      match m !! "name", m !! "arguments" with
      | Some (VStr name), Some (VObj arguments) => Val (name, Some arguments)
      | Some (VStr name), None => Val (name, None)
      | None, Some (VObj arguments) => Val ("", Some arguments)
      | None, None => Val ("", None)
      | _, _ => Fail "json: cannot unmarshal value into Go struct field"
      end
  | _ => Fail "json: cannot unmarshal value into Go value of type struct"
  end.

Definition demo_DecodePromptsGetParams (v : Value Z) : string * gmap string string :=
  match v with
  | VObj m =>
      (match m !! "name" with Some (VStr name) => name | _ => "" end,
       match m !! "arguments" with
       | Some (VObj arguments) =>
           omap (fun a => match a with VStr s => Some s | _ => None end) arguments
       | _ => ∅
       end)
  | _ => ("", ∅)
  end.

Definition demo_DecodeResourcesReadParams (v : Value Z) : string :=
  match v with
  | VObj m => match m !! "uri" with Some (VStr uri) => uri | _ => "" end
  | _ => ""
  end.

Definition demo_validMethod (m : string) : bool :=
  negb (String.eqb m "")
  && forallb (fun c => (65 <=? nat_of_ascii c)%nat && (nat_of_ascii c <=? 90)%nat)
       (list_ascii_of_string m).

(** [strings.ReplaceAll] for a non-empty [old]. *)
Fixpoint demo_ReplaceAll_fuel (fuel : nat) (s old new : string) : string :=
  match fuel with
  | O => s
  | S fuel' =>
      if String.prefix old s then
        new +:+ demo_ReplaceAll_fuel fuel'
                  (String.substring (String.length old)
                     (String.length s - String.length old) s) old new
      else match s with
           | EmptyString => EmptyString
           | String c rest => String c (demo_ReplaceAll_fuel fuel' rest old new)
           end
  end.

Definition demo_ReplaceAll (s old new : string) : string :=
  if String.eqb old "" then s else demo_ReplaceAll_fuel (String.length s) s old new.

#[global] Instance demoRuntime : GoRuntime := {|
  float64 := Z;
  float64_lt := Z.ltb;
  float64_of_int := fun z => z;
  strconv_ParseFloat := demo_ParseFloat;
  regexp_MatchString := fun pat s => Val (strings_Contains s pat);
  fmt_f := fun f => fmt_d f +:+ ".000000";
  fmt_v := demo_fmt_v;
  Template := string;
  template_Parse := demo_template_Parse;
  template_Execute := fun tmpl _ => Val tmpl;
  url_Parse := demo_url_Parse;
  url_String := demo_url_String;
  url_ParseQuery := fun _ => ∅;
  url_Encode := demo_url_Encode;
  json_Marshal := demo_json_Marshal;
  json_MarshalIndent := fun v => Val (demo_json_scalar v);
  json_Unmarshal := demo_json_Unmarshal;
  http_validMethod := demo_validMethod;
  http_CanonicalHeaderKey := fun key => key;
  base64_EncodeToString := fun s => s;
  os_Getenv := fun _ => "";
  strings_ReplaceAll := demo_ReplaceAll;
  json_DecodeRequest := fun _ => Fail "unexpected end of JSON input";
  json_DecodeToolsCallParams := demo_DecodeToolsCallParams;
  json_DecodePromptsGetParams := demo_DecodePromptsGetParams;
  json_DecodeResourcesReadParams := demo_DecodeResourcesReadParams;
  range_map := map_to_list;
  range_map_perm := fun m => Permutation_refl (map_to_list m)
|}.

(** A GET tool with one required string parameter. *)
Definition idParam : ParameterConfig :=
  {| param_Name := "id"; param_Type := "string"; param_Description := "item id";
     param_Required := true; param_Default := VNil; param_Validation := None |}.

Definition getItem : ToolConfig :=
  {| tool_Name := "get_item"; tool_Description := "fetch one item";
     tool_Endpoint := "http://upstream.test/items"; tool_Method := "GET";
     tool_Headers := ∅; tool_QueryParams := {[ "limit" := "10" ]};
     tool_BodyTemplate := ""; tool_ContentType := "";
     tool_Parameters := [idParam]; tool_ReturnType := "object";
     tool_Timeout := 0; tool_Retries := 2; tool_Auth := None;
     tool_Validation := None |}.

(** A POST tool with a number parameter and an optional one with a
    default, and no body template. *)
Definition countParam : ParameterConfig :=
  {| param_Name := "count"; param_Type := "number"; param_Description := "how many";
     param_Required := true; param_Default := VNil; param_Validation := None |}.

Definition unitParam : ParameterConfig :=
  {| param_Name := "unit"; param_Type := "string"; param_Description := "unit";
     param_Required := false; param_Default := VStr "kg"; param_Validation := None |}.

Definition postOrder : ToolConfig :=
  {| tool_Name := "post_order"; tool_Description := "place an order";
     tool_Endpoint := "http://upstream.test/orders"; tool_Method := "POST";
     tool_Headers := ∅; tool_QueryParams := ∅;
     tool_BodyTemplate := ""; tool_ContentType := "application/json";
     tool_Parameters := [countParam; unitParam]; tool_ReturnType := "object";
     tool_Timeout := 0; tool_Retries := 0; tool_Auth := None;
     tool_Validation :=
       Some {| val_Schema := ""; val_StatusCodes := [];
               val_RequiredFields := ["id"] |} |}.

(** A POST tool with a literal body template. *)
Definition postNote : ToolConfig :=
  {| tool_Name := "post_note"; tool_Description := "store a note";
     tool_Endpoint := "http://upstream.test/notes"; tool_Method := "POST";
     tool_Headers := ∅; tool_QueryParams := ∅;
     tool_BodyTemplate := "note"; tool_ContentType := "text/plain";
     tool_Parameters := []; tool_ReturnType := "string";
     tool_Timeout := 0; tool_Retries := 0; tool_Auth := None;
     tool_Validation := None |}.

Definition demoTools : gmap string ToolConfig :=
  <["get_item" := getItem]> (<["post_order" := postOrder]> {[ "post_note" := postNote ]}).

(** Upstreams: one that refuses every connection, one that answers
    every request with status 500 and a body, one that answers 200 with
    a plain-text body. *)
Definition refusing : Upstream :=
  fun _ _ => (None, Some "dial tcp: connection refused").

Definition response500 : Response :=
  {| resp_StatusCode := 500; resp_Header := {[ "Content-Type" := ["text/plain"] ]};
     resp_Body := Stream (Val "oops") false |}.

Definition failing500 : Upstream := fun _ _ => (Some response500, None).

Definition responsePlain : Response :=
  {| resp_StatusCode := 200; resp_Header := {[ "Content-Type" := ["text/plain"] ]};
     resp_Body := Stream (Val "hello") false |}.

Definition demoConfig : Config :=
  {| cfg_Server := {| server_Name := "demo"; server_Version := "1.0.0" |};
     cfg_Tools := [getItem; postOrder; postNote];
     cfg_Prompts := []; cfg_Resources := [] |}.

Definition handlerOver (upstream : Upstream) : JSONRPCHandler :=
  {| jh_config := demoConfig;
     jh_toolHandler := {| th_tools := demoTools; th_upstream := upstream |} |}.

(** [tools/call] of a tool with the given arguments, request id 1. *)
Definition callTool (name : string) (arguments : gmap string (Value Z)) : JSONRPCRequest :=
  {| rpc_JSONRPC := "2.0"; rpc_ID := VInt 1; rpc_Method := "tools/call";
     rpc_Params := VObj (<["name" := VStr name]> {[ "arguments" := VObj arguments ]}) |}.

(** Argument maps of the examples. *)
Definition idArgs : gmap string (Value Z) := {[ "id" := VStr "42" ]}.
Definition countArgs : gmap string (Value Z) := {[ "count" := VStr "3" ]}.

(** The request [getItem] builds for the argument [id = "42"]. *)
Definition getItemRequest : Request :=
  {| req_Method := "GET";
     req_URL := {| url_Scheme := "http"; url_Host := "upstream.test";
                   url_Path := "/items";
                   url_RawQuery := "id=42&limit=10"; url_Fragment := "" |};
     req_Body := None;
     req_Header := <["User-Agent" := ["MCP-Server/1.0.0"] ]>
                     {[ "Accept" := ["application/json, text/plain, */*"] ]} |}.

(** The answer to a request that is not a POST. *)
Definition invalidRequestReply : ResponseWriter :=
  {| w_Header :=
       <["Access-Control-Allow-Origin" := "*"]>
       (<["Access-Control-Allow-Methods" := "POST, OPTIONS"]>
        (<["Access-Control-Allow-Headers" := "Content-Type, Authorization"]>
         (<["Access-Control-Max-Age" := "86400"]>
          {[ "Content-Type" := "application/json" ]})));
     w_Status := Some 200%Z;
     w_Body := [{| rsp_JSONRPC := "2.0"; rsp_ID := VNil; rsp_Result := VNil;
                   rsp_Error := Some {| err_Code := -32600;
                                        err_Message := "Invalid Request";
                                        err_Data := VStr "Only POST method is allowed" |}
                |}] |}.

(** The answer to [get_item] when every connection is refused. *)
Definition refusedReply : ResponseWriter :=
  {| w_Header := {[ "Content-Type" := "application/json" ]};
     w_Status := Some 200%Z;
     w_Body := [{| rsp_JSONRPC := "2.0"; rsp_ID := VInt 1; rsp_Result := VNil;
                   rsp_Error :=
                     Some {| err_Code := -32000;
                             err_Message := "Tool execution error";
                             err_Data :=
                               VStr ("GET http://upstream.test/items failed: "
                                     +:+ "request failed after 3 attempts: "
                                     +:+ "dial tcp: connection refused") |} |}] |}.

(** The answer to [get_item] without its required [id]. *)
Definition missingIdReply : ResponseWriter :=
  {| w_Header := {[ "Content-Type" := "application/json" ]};
     w_Status := Some 200%Z;
     w_Body := [{| rsp_JSONRPC := "2.0"; rsp_ID := VInt 1; rsp_Result := VNil;
                   rsp_Error :=
                     Some {| err_Code := -32000;
                             err_Message := "Tool execution error";
                             err_Data :=
                               VStr ("Failed to execute tool 'get_item': "
                                     +:+ "parameter validation failed: "
                                     +:+ "required parameter id is missing") |} |}] |}.

(** The outcome of a 200 with the empty JSON object, and a call that
    names no registered tool or no routed method. *)
Definition apiOK : APIResponse :=
  {| api_StatusCode := 200; api_Headers := {[ "Content-Type" := "application/json" ]};
     api_Body := "{}"; api_Data := VObj ∅ |}.

Definition pingRequest : JSONRPCRequest :=
  {| rpc_JSONRPC := "2.0"; rpc_ID := VStr "abc"; rpc_Method := "ping";
     rpc_Params := VNil |}.

Definition unroutedRequest : JSONRPCRequest :=
  {| rpc_JSONRPC := "2.0"; rpc_ID := VInt 7; rpc_Method := "tools/run";
     rpc_Params := VNil |}.

(** A string parameter with length bounds and an enum, a number
    parameter with bounds, and a boolean parameter. *)
Definition sizeParam : ParameterConfig :=
  {| param_Name := "size"; param_Type := "string"; param_Description := "size";
     param_Required := false; param_Default := VNil;
     param_Validation :=
       Some {| MinLength := Some 3%Z; MaxLength := Some 6%Z; Pattern := None;
               MinValue := None; MaxValue := None;
               Enum := ["small"; "medium"; "large"] |} |}.

Definition limitParam : ParameterConfig :=
  {| param_Name := "limit"; param_Type := "number"; param_Description := "limit";
     param_Required := false; param_Default := VNil;
     param_Validation :=
       Some {| MinLength := None; MaxLength := None; Pattern := None;
               MinValue := Some 1%Z; MaxValue := Some 10%Z; Enum := [] |} |}.

Definition flagParam : ParameterConfig :=
  {| param_Name := "dry_run"; param_Type := "boolean"; param_Description := "flag";
     param_Required := false; param_Default := VNil; param_Validation := None |}.

(** Variants of a tool, an authentication block without environment
    variable, the security and runtime sections of the examples, an
    inbound request without credentials, and a file-backed resource. *)
Definition withHeaders (tool : ToolConfig) (headers : gmap string string) : ToolConfig :=
  {| tool_Name := tool_Name tool; tool_Description := tool_Description tool;
     tool_Endpoint := tool_Endpoint tool; tool_Method := tool_Method tool;
     tool_Headers := headers; tool_QueryParams := tool_QueryParams tool;
     tool_BodyTemplate := tool_BodyTemplate tool;
     tool_ContentType := tool_ContentType tool;
     tool_Parameters := tool_Parameters tool; tool_ReturnType := tool_ReturnType tool;
     tool_Timeout := tool_Timeout tool; tool_Retries := tool_Retries tool;
     tool_Auth := tool_Auth tool; tool_Validation := tool_Validation tool |}.

Definition withMethod (tool : ToolConfig) (method : string) : ToolConfig :=
  {| tool_Name := tool_Name tool; tool_Description := tool_Description tool;
     tool_Endpoint := tool_Endpoint tool; tool_Method := method;
     tool_Headers := tool_Headers tool; tool_QueryParams := tool_QueryParams tool;
     tool_BodyTemplate := tool_BodyTemplate tool;
     tool_ContentType := tool_ContentType tool;
     tool_Parameters := tool_Parameters tool; tool_ReturnType := tool_ReturnType tool;
     tool_Timeout := tool_Timeout tool; tool_Retries := tool_Retries tool;
     tool_Auth := tool_Auth tool; tool_Validation := tool_Validation tool |}.

Definition tokenAuth : AuthConfig :=
  {| auth_Type := "bearer"; auth_Token := "s3cret"; auth_Username := "";
     auth_Password := ""; auth_Headers := ∅; auth_EnvVar := "" |}.

Definition demoSecurity (oauth : bool) : SecurityConfig :=
  {| sec_EnableCORS := true; sec_AllowedOrigins := []; sec_EnableRateLimit := false;
     sec_RateLimit := 100; sec_EnableAuth := false; sec_APIKeys := [];
     sec_TLSCertPath := ""; sec_TLSKeyPath := "";
     sec_OAuth := {| oauth_Enabled := oauth; oauth_AuthorizationServers := [];
                     oauth_AcceptedAudiences := []; oauth_RequiredScopes := [];
                     oauth_JWKSCacheTTL := 0; oauth_AllowInsecureHTTP := false |} |}.

Definition demoRuntimeConfig : RuntimeConfig :=
  {| run_MaxConcurrentRequests := 100; run_DefaultTimeout := 30 * time_Second;
     run_HealthCheckInterval := time_Minute; run_MetricsEnabled := false;
     run_LogLevel := "info"; run_Environment := "development" |}.

Definition anonymousRequest : InboundRequest :=
  {| in_Authorization := ""; in_TLS := false; in_ForwardedProto := "";
     in_Host := "mcp.test"; in_Request := {| http_Method := "POST"; http_Body := "" |} |}.

Definition manualResource : ResourceConfig :=
  {| res_URI := "file:///manual"; res_Name := "manual"; res_Description := "";
     res_MimeType := "text/plain"; res_Content := ""; res_FilePath := "docs/manual.txt";
     res_URL := "" |}.

Definition readManual : JSONRPCRequest :=
  {| rpc_JSONRPC := "2.0"; rpc_ID := VInt 2; rpc_Method := "resources/read";
     rpc_Params := VObj {[ "uri" := VStr "file:///manual" ]} |}.

Section MoreVocabulary.
Context `{rt : GoRuntime}.

(** The method names [ServeHTTP] routes. *)
Definition knownMethods : list string :=
  ["initialize"; "initialized"; "tools/list"; "tools/call"; "prompts/list";
   "prompts/get"; "resources/list"; "resources/read"; "ping"].

(** The handler answered the request with one envelope bearing the
    request's id: a result, or an error whose code is among [codes]. *)
Definition answers (w : ResponseWriter) (req : JSONRPCRequest) (codes : list Z)
    (w' : ResponseWriter) : Prop :=
  (exists m, w' = writeSuccess w (rpc_ID req) (obj m)) \/
  (exists code message data,
     w' = writeError w (rpc_ID req) code message data /\ code ∈ codes).

(** The Authorization header carries a bearer token, as the gate
    sees it. *)
Definition hasBearer (r : InboundRequest) : bool :=
  negb (String.eqb (in_Authorization r) "")
  && String.prefix "bearer " (strings_ToLower (in_Authorization r)).

(** The conditions [validateAuthConfig] puts on an authentication
    block. *)
Definition authWellFormed (auth : AuthConfig) : Prop :=
  (auth_Type auth = "bearer" -> auth_Token auth <> "" \/ auth_EnvVar auth <> "") /\
  (auth_Type auth = "basic" ->
     auth_Username auth <> "" /\ (auth_Password auth <> "" \/ auth_EnvVar auth <> "")) /\
  (auth_Type auth = "api_key" -> auth_Headers auth <> ∅ \/ auth_EnvVar auth <> "") /\
  (auth_Type auth = "custom" -> auth_Headers auth <> ∅).

(** The tool is as [setDefaults] leaves a tool. *)
Definition defaulted (tool : ToolConfig) : Prop :=
  tool_Method tool <> "" /\ tool_Timeout tool <> 0%Z /\ tool_Retries tool <> 0%Z /\
  Forall (fun param => param_Type param <> "") (tool_Parameters tool).

End MoreVocabulary.

(** Further upstreams and tools of the examples. *)
Definition responseOK : Response :=
  {| resp_StatusCode := 200;
     resp_Header := {[ "Content-Type" := ["application/json"] ]};
     resp_Body := Stream (Val "{}") false |}.

(** Two timeouts, then a 200. *)
Definition flaky : Upstream :=
  fun n _ => if (n <? 2)%nat then (None, Some "context deadline exceeded")
             else (Some responseOK, None).

Definition healthy : Upstream := fun _ _ => (Some responseOK, None).

(** [get_item] behind a bearer token that is neither configured nor in
    the environment, and with an explicit token. *)
Definition bearerAuth (token : string) : AuthConfig :=
  {| auth_Type := "bearer"; auth_Token := token; auth_Username := "";
     auth_Password := ""; auth_Headers := ∅; auth_EnvVar := "API_TOKEN" |}.

Definition withAuth (tool : ToolConfig) (auth : AuthConfig) : ToolConfig :=
  {| tool_Name := tool_Name tool; tool_Description := tool_Description tool;
     tool_Endpoint := tool_Endpoint tool; tool_Method := tool_Method tool;
     tool_Headers := tool_Headers tool; tool_QueryParams := tool_QueryParams tool;
     tool_BodyTemplate := tool_BodyTemplate tool;
     tool_ContentType := tool_ContentType tool;
     tool_Parameters := tool_Parameters tool; tool_ReturnType := tool_ReturnType tool;
     tool_Timeout := tool_Timeout tool; tool_Retries := tool_Retries tool;
     tool_Auth := Some auth; tool_Validation := tool_Validation tool |}.

Definition withRetries (tool : ToolConfig) (retries : Z) : ToolConfig :=
  {| tool_Name := tool_Name tool; tool_Description := tool_Description tool;
     tool_Endpoint := tool_Endpoint tool; tool_Method := tool_Method tool;
     tool_Headers := tool_Headers tool; tool_QueryParams := tool_QueryParams tool;
     tool_BodyTemplate := tool_BodyTemplate tool;
     tool_ContentType := tool_ContentType tool;
     tool_Parameters := tool_Parameters tool; tool_ReturnType := tool_ReturnType tool;
     tool_Timeout := tool_Timeout tool; tool_Retries := retries;
     tool_Auth := tool_Auth tool; tool_Validation := tool_Validation tool |}.

(** ** Properties *)

Section Properties.
Context `{rt : GoRuntime}.

Local Abbreviation value := (Value float64).
Local Abbreviation GoMap := (option (gmap string (Value float64))).

(** *** Parameter validation *)

Lemma mget_mset_ne (g : gmap string value) (k k' : string) (d : value) :
  k <> k' -> mget (Some (<[k := d]> g)) k' = mget (Some g) k'.
Proof. intros Hne. simpl. by rewrite lookup_insert_ne. Qed.

Lemma validateParameters_range_keeps (params : list ParameterConfig) :
  forall (arguments arguments' : GoMap) (r : Res unit),
    validateParameters_range params arguments = (arguments', r) ->
    forall k v, mget arguments k = Some v -> mget arguments' k = Some v.
Proof.
  induction params as [|param rest IH]; intros arguments arguments' r Hrun k v Hk.
  - simpl in Hrun. by inversion Hrun; subst.
  - simpl in Hrun.
    destruct (mget arguments (param_Name param)) as [present|] eqn:Hget.
    + destruct (validateParameterValue param present);
        [eapply IH; eauto | by inversion Hrun; subst ..].
    + destruct (param_Required param); [by inversion Hrun; subst|].
      destruct (notNil (param_Default param)); [|eapply IH; eauto].
      destruct arguments as [g|]; simpl in Hrun; [|by inversion Hrun; subst].
      eapply IH; [exact Hrun|].
      rewrite mget_mset_ne; [done|]. intros Heq. rewrite Heq in Hget. congruence.
Qed.

Lemma validateParameters_range_writes (params : list ParameterConfig) :
  forall (arguments arguments' : GoMap) (r : Res unit),
    validateParameters_range params arguments = (arguments', r) ->
    forall k v, mget arguments k = None -> mget arguments' k = Some v ->
      exists param, param ∈ params /\ param_Name param = k /\
                    param_Required param = false /\
                    param_Default param = v /\ notNil v = true.
Proof.
  induction params as [|param rest IH]; intros arguments arguments' r Hrun k v Hk Hk'.
  - simpl in Hrun. inversion Hrun; subst. congruence.
  - simpl in Hrun.
    assert (Hrest : forall args0, validateParameters_range rest args0 = (arguments', r) ->
              mget args0 k = None ->
              exists p, p ∈ param :: rest /\ param_Name p = k /\
                        param_Required p = false /\ param_Default p = v /\
                        notNil v = true).
    { intros args0 H0 Hnone.
      destruct (IH _ _ _ H0 k v Hnone Hk') as (p & Hp & Hrest).
      exists p. split; [by right | done]. }
    destruct (mget arguments (param_Name param)) as [present|] eqn:Hget.
    + destruct (validateParameterValue param present);
        [by apply (Hrest arguments) | inversion Hrun; subst; congruence ..].
    + destruct (param_Required param) eqn:Hreq; [inversion Hrun; subst; congruence|].
      destruct (notNil (param_Default param)) eqn:Hdef; [|by apply (Hrest arguments)].
      destruct arguments as [g|]; simpl in Hrun; [|inversion Hrun; subst; congruence].
      destruct (decide (param_Name param = k)) as [Heq|Hne].
      * exists param. split; [by left|].
        assert (Hmid : mget (Some (<[param_Name param := param_Default param]> g)) k
                       = Some (param_Default param)).
        { simpl. rewrite Heq. apply lookup_insert_eq. }
        pose proof (validateParameters_range_keeps _ _ _ _ Hrun _ _ Hmid) as Hfin.
        rewrite Hfin in Hk'. inversion Hk'; subst v. done.
      * apply (Hrest _ Hrun). by rewrite mget_mset_ne.
Qed.

Lemma validateParameters_range_undeclared (params : list ParameterConfig)
    (k : string) (v : value) :
  (forall param, param ∈ params -> param_Name param <> k) ->
  forall g : gmap string value,
    validateParameters_range params (Some (<[k := v]> g)) =
      (insert k v <$> (validateParameters_range params (Some g)).1,
       (validateParameters_range params (Some g)).2).
Proof.
  induction params as [|param rest IH]; intros Hundecl g; [done|].
  assert (Hne : param_Name param <> k) by (apply Hundecl; by left).
  assert (Hrest : forall p, p ∈ rest -> param_Name p <> k)
    by (intros p Hp; apply Hundecl; by right).
  cbn [validateParameters_range mget].
  rewrite lookup_insert_ne by congruence.
  destruct (g !! param_Name param) as [present|].
  - destruct (validateParameterValue param present); [by apply IH | done ..].
  - destruct (param_Required param); [done|].
    destruct (notNil (param_Default param)); [|by apply IH].
    cbn [mset]. rewrite insert_insert_ne by congruence. by apply IH.
Qed.

Lemma validateParameters_range_accepts (params : list ParameterConfig) :
  forall (arguments arguments' : GoMap),
    validateParameters_range params arguments = (arguments', OK tt) ->
    forall param v, param ∈ params -> mget arguments (param_Name param) = Some v ->
      validateParameterValue param v = OK tt.
Proof.
  induction params as [|param0 rest IH]; intros arguments arguments' Hrun param v Hin Hv.
  - by apply elem_of_nil in Hin.
  - simpl in Hrun. apply elem_of_cons in Hin as [->|Hin].
    + rewrite Hv in Hrun.
      by destruct (validateParameterValue param0 v) as [[]| |]; [|inversion Hrun ..].
    + destruct (mget arguments (param_Name param0)) as [present|] eqn:Hget.
      * destruct (validateParameterValue param0 present);
          [by eapply IH | inversion Hrun ..].
      * destruct (param_Required param0); [inversion Hrun|].
        destruct (notNil (param_Default param0)); [|by eapply IH].
        destruct arguments as [g|]; simpl in Hrun; [|inversion Hrun].
        eapply IH; [exact Hrun | exact Hin |].
        rewrite mget_mset_ne; [done|]. intros Heq. rewrite Heq in Hget. congruence.
Qed.

(** *** Inversion of the error monad *)

Lemma bind_OK {A B} (r : Res A) (f : A -> Res B) (b : B) :
  r ≫= f = OK b -> exists a, r = OK a /\ f a = OK b.
Proof. destruct r; [eauto | done ..]. Qed.

Lemma wrap_OK {A} (prefix : string) (r : Res A) (a : A) :
  wrap prefix r = OK a -> r = OK a.
Proof. by destruct r. Qed.

Lemma call_OK {A} (c : Checked A) (a : A) : call c = OK a -> c = Val a.
Proof. destruct c; [by intros [= ->] | done]. Qed.

(** *** The request builder *)

Lemma sameLine_refl r : sameLine r r.
Proof. by repeat split. Qed.

Lemma sameLine_trans r1 r2 r3 : sameLine r1 r2 -> sameLine r2 r3 -> sameLine r1 r3.
Proof. intros (?&?&?) (?&?&?). repeat split; congruence. Qed.

Lemma header_Set_sameLine r key val : sameLine r (header_Set r key val).
Proof. by repeat split. Qed.

Lemma fold_header_Set_sameLine {A} (f : A -> string) (g : A -> string) (l : list A) :
  forall r, sameLine r (fold_left (fun r kv => header_Set r (f kv) (g kv)) l r).
Proof.
  induction l as [|x l IH]; intros r; [apply sameLine_refl|].
  simpl. eapply sameLine_trans; [apply header_Set_sameLine | apply IH].
Qed.

Lemma buildRequest_headers_sameLine entries params :
  forall r r', buildRequest_headers entries params r = OK r' -> sameLine r r'.
Proof.
  induction entries as [|[key val] rest IH]; intros r r' H.
  - inversion H. apply sameLine_refl.
  - simpl in H. apply bind_OK in H as (expanded & _ & H).
    eapply sameLine_trans; [apply header_Set_sameLine | by apply IH].
Qed.

Lemma applyAuthentication_sameLine r auth r' :
  applyAuthentication r auth = OK r' -> sameLine r r'.
Proof.
  unfold applyAuthentication. intros H.
  repeat match type of H with
         | (if ?b then _ else _) = _ => destruct b
         end; inversion H; subst;
    first [ apply sameLine_refl | apply header_Set_sameLine
          | apply (fold_header_Set_sameLine (fun kv => kv.1) (fun kv => envOverride auth kv.2))
          | apply (fold_header_Set_sameLine (fun kv => kv.1) (fun kv => kv.2)) ].
Qed.

(** What a successful build fixes: the endpoint, the query, the body
    and the request line. *)
Lemma buildRequest_OK tool (params : GoMap) req :
  buildRequest tool params = OK req ->
  exists parsedURL query body,
    buildRequest_endpoint tool params = OK parsedURL /\
    buildRequest_query tool params parsedURL = OK query /\
    buildRequest_body tool params = OK body /\
    url_Parse (url_String (withRawQuery parsedURL (url_Encode query))) = Val (req_URL req) /\
    req_Body req = body.
Proof.
  unfold buildRequest. intros H.
  apply bind_OK in H as (parsedURL & Hurl & H).
  apply bind_OK in H as (query & Hquery & H).
  apply bind_OK in H as (body & Hbody & H).
  apply bind_OK in H as (req0 & Hnew & H).
  apply bind_OK in H as (req1 & Hhdr & H).
  exists parsedURL, query, body. repeat split; try done.
  - apply wrap_OK in Hnew. unfold http_NewRequestWithContext in Hnew.
    destruct (negb _); [done|].
    apply bind_OK in Hnew as (u & Hu & Hnew). inversion Hnew; subst req0; clear Hnew.
    apply call_OK in Hu.
    apply buildRequest_headers_sameLine in Hhdr as (_ & Hh & _).
    assert (Hauth : sameLine req1 req).
    { destruct (tool_Auth tool) as [auth|].
      - apply wrap_OK in H. by eapply applyAuthentication_sameLine.
      - inversion H. apply sameLine_refl. }
    destruct Hauth as (_ & Ha & _). rewrite <- Ha, <- Hh.
    by destruct (negb _ && _).
  - apply wrap_OK in Hnew. unfold http_NewRequestWithContext in Hnew.
    destruct (negb _); [done|].
    apply bind_OK in Hnew as (u & Hu & Hnew). inversion Hnew; subst req0; clear Hnew.
    apply buildRequest_headers_sameLine in Hhdr as (_ & _ & Hh).
    assert (Hauth : sameLine req1 req).
    { destruct (tool_Auth tool) as [auth|].
      - apply wrap_OK in H. by eapply applyAuthentication_sameLine.
      - inversion H. apply sameLine_refl. }
    destruct Hauth as (_ & _ & Ha). rewrite <- Ha, <- Hh.
    by destruct (negb _ && _).
Qed.

Lemma buildRequest_getParams_lookup (declared : list ParameterConfig) (params : GoMap)
    (k : string) :
  forall query : Values,
    buildRequest_getParams declared params query !! k =
      match mget params k with
      | Some v => if decide (k ∈ param_Name <$> declared)
                  then Some [fmt_v v] else query !! k
      | None => query !! k
      end.
Proof.
  induction declared as [|param rest IH]; intros query.
  - cbn [buildRequest_getParams]. destruct (mget params k); [|done].
    case_decide as Hin; [|done]. by apply elem_of_nil in Hin.
  - cbn [buildRequest_getParams].
    destruct (decide (param_Name param = k)) as [Heq|Hne].
    + subst k. destruct (mget params (param_Name param)) as [v|] eqn:Hget.
      * rewrite IH, lookup_insert_eq.
        assert (Hhead : param_Name param ∈ param_Name <$> param :: rest)
          by (apply list_elem_of_fmap; exists param; split; [done | by left]).
        case_decide; case_decide; done.
      * by rewrite IH.
    +       assert (Hmem : k ∈ param_Name <$> param :: rest <-> k ∈ param_Name <$> rest).
      { rewrite fmap_cons, elem_of_cons.
        split; [intros [Heq|Hin]; [congruence | done] | by right]. }
      destruct (mget params (param_Name param)) as [v0|]; rewrite IH;
        destruct (mget params k) as [v|]; rewrite ?lookup_insert_ne by done;
        try done; repeat case_decide; tauto.
Qed.

Lemma buildRequest_queryParams_lookup (entries : list (string * string)) (params : GoMap) :
  NoDup entries.*1 ->
  forall query q : Values,
    buildRequest_queryParams entries params query = OK q ->
    (forall key tmpl, (key, tmpl) ∈ entries ->
       exists expanded, expandTemplate tmpl params = OK expanded /\
                        q !! key = Some [expanded]) /\
    (forall k, k ∉ entries.*1 -> q !! k = query !! k).
Proof.
  induction entries as [|[key0 tmpl0] rest IH]; intros Hnd query q Hrun.
  - inversion Hrun; subst. split; [|done]. intros ?? Hin. by apply elem_of_nil in Hin.
  - simpl in Hrun. apply bind_OK in Hrun as (expanded0 & Hexp & Hrun).
    apply wrap_OK in Hexp.
    apply NoDup_cons in Hnd as [Hfresh Hnd].
    destruct (IH Hnd _ _ Hrun) as [Hin Hout]. split.
    + intros key tmpl Hmem. apply elem_of_cons in Hmem as [Heq|Hmem].
      * inversion Heq; subst. exists expanded0. split; [done|].
        rewrite Hout by done. apply lookup_insert_eq.
      * by apply Hin.
    + intros k Hk. simpl in Hk. apply not_elem_of_cons in Hk as [Hne Hk].
      rewrite Hout by done. by rewrite lookup_insert_ne.
Qed.

Lemma range_map_NoDup (m : gmap string string) : NoDup (range_map m).*1.
Proof. rewrite range_map_perm. apply NoDup_fst_map_to_list. Qed.

Lemma range_map_elem (m : gmap string string) key tmpl :
  (key, tmpl) ∈ range_map m <-> m !! key = Some tmpl.
Proof. rewrite range_map_perm. apply elem_of_map_to_list. Qed.

(** C6. For a GET tool whose request builds, the query encoded into the
    request URL holds, for every declared parameter present in the
    arguments, exactly the printed argument (also when a configured
    query parameter has the same name: the configured ones are set
    first and the argument overwrites them), and for every other
    configured query parameter exactly its expanded template. *)
Theorem buildRequest_GET_query tool (params : GoMap) req :
  isGET tool = true ->
  buildRequest tool params = OK req ->
  exists parsedURL (query : Values),
    buildRequest_endpoint tool params = OK parsedURL /\
    url_Parse (url_String (withRawQuery parsedURL (url_Encode query))) = Val (req_URL req) /\
    (forall param v,
       param ∈ tool_Parameters tool ->
       mget params (param_Name param) = Some v ->
       query !! param_Name param = Some [fmt_v v]) /\
    (forall key tmpl,
       tool_QueryParams tool !! key = Some tmpl ->
       exists expanded,
         expandTemplate tmpl params = OK expanded /\
         (~ (declared tool key /\ is_Some (mget params key)) ->
          query !! key = Some [expanded])).
Proof.
  intros Hget Hbuild.
  apply buildRequest_OK in Hbuild as (parsedURL & query & body & Hurl & Hq & _ & Hreq & _).
  exists parsedURL, query. split; [done|]. split; [done|].
  unfold buildRequest_query in Hq. rewrite Hget in Hq.
  apply bind_OK in Hq as (q0 & Hq0 & Hq). inversion Hq; subst query; clear Hq.
  apply buildRequest_queryParams_lookup in Hq0 as [Hin _]; [|apply range_map_NoDup].
  split.
  - intros param v Hparam Hv.
    rewrite buildRequest_getParams_lookup, Hv.
    rewrite decide_True; [done|]. apply list_elem_of_fmap. eauto.
  - intros key tmpl Hkey.
    apply range_map_elem in Hkey. destruct (Hin _ _ Hkey) as (expanded & Hexp & Hq0).
    exists expanded. split; [done|]. intros Hnot.
    rewrite buildRequest_getParams_lookup, Hq0.
    destruct (mget params key) as [v|]; [|done].
    case_decide as Hmem; [|done]. exfalso. apply Hnot. split; [|by eexists].
    apply list_elem_of_fmap in Hmem as (param & -> & Hparam). by exists param.
Qed.

(** The three outcomes of the body step. *)
Lemma buildRequest_body_OK tool (params : GoMap) (body : option string) :
  buildRequest_body tool params = OK body ->
  (tool_BodyTemplate tool <> "" -> isGET tool = false ->
     exists expanded, expandTemplate (tool_BodyTemplate tool) params = OK expanded /\
                      body = Some expanded) /\
  (tool_BodyTemplate tool = "" -> isGET tool = false -> (0 < mlen params)%nat ->
     exists jsonBody, json_Marshal params = Val jsonBody /\ body = Some jsonBody) /\
  (isGET tool = true -> body = None).
Proof.
  unfold buildRequest_body. intros Hbody. repeat split.
  - intros Htmpl Hget. rewrite Hget in Hbody.
    apply String.eqb_neq in Htmpl. rewrite Htmpl in Hbody. simpl in Hbody.
    apply bind_OK in Hbody as (expanded & Hexp & Hbody). apply wrap_OK in Hexp.
    inversion Hbody. eauto.
  - intros Htmpl Hget Hlen. rewrite Hget, Htmpl in Hbody. simpl in Hbody.
    apply Nat.ltb_lt in Hlen. rewrite Hlen in Hbody.
    apply bind_OK in Hbody as (jsonBody & Hjson & Hbody).
    apply wrap_OK, call_OK in Hjson. inversion Hbody. eauto.
  - intros Hget. rewrite Hget in Hbody. rewrite !andb_false_r in Hbody.
    simpl in Hbody. by inversion Hbody.
Qed.

(** C7. The body of every built request: the expanded body template
    when one is configured and the method is not GET; the JSON encoding
    of the whole argument map when the method is not GET, no template
    is configured and the map is not empty; no body for GET. *)
Theorem buildRequest_body_cases tool (params : GoMap) req :
  buildRequest tool params = OK req ->
  (tool_BodyTemplate tool <> "" -> isGET tool = false ->
     exists expanded, expandTemplate (tool_BodyTemplate tool) params = OK expanded /\
                      req_Body req = Some expanded) /\
  (tool_BodyTemplate tool = "" -> isGET tool = false -> (0 < mlen params)%nat ->
     exists jsonBody, json_Marshal params = Val jsonBody /\
                      req_Body req = Some jsonBody) /\
  (isGET tool = true -> req_Body req = None).
Proof.
  intros Hbuild.
  apply buildRequest_OK in Hbuild as (_ & _ & body & _ & _ & Hbody & _ & ->).
  by apply buildRequest_body_OK.
Qed.

(** C9. An argument whose key no declared parameter bears is invisible
    to validation: the outcome is the one for the map without it and
    the entry is still there afterwards.  A non-GET request without
    body template then carries it in the JSON encoding of the whole
    map, and a GET request does not map it into the query: at that key
    the query is the one the configured query parameters produced. *)
Theorem undeclared_argument tool (g : gmap string value) (k : string) (v : value) :
  ~ declared tool k ->
  validateParameters tool (Some (<[k := v]> g)) =
    (insert k v <$> (validateParameters tool (Some g)).1,
     (validateParameters tool (Some g)).2) /\
  (forall arguments' r,
     validateParameters tool (Some (<[k := v]> g)) = (arguments', r) ->
     mget arguments' k = Some v) /\
  (forall (params : GoMap) req,
     mget params k = Some v ->
     isGET tool = false -> tool_BodyTemplate tool = "" ->
     buildRequest tool params = OK req ->
     exists jsonBody, json_Marshal params = Val jsonBody /\
                      req_Body req = Some jsonBody) /\
  (forall (params : GoMap) req,
     mget params k = Some v ->
     isGET tool = true ->
     buildRequest tool params = OK req ->
     exists parsedURL (configured query : Values),
       buildRequest_endpoint tool params = OK parsedURL /\
       buildRequest_queryParams (range_map (tool_QueryParams tool)) params
         (url_ParseQuery (url_RawQuery parsedURL)) = OK configured /\
       url_Parse (url_String (withRawQuery parsedURL (url_Encode query)))
         = Val (req_URL req) /\
       query !! k = configured !! k).
Proof.
  intros Hundecl.
  assert (Hnames : forall param, param ∈ tool_Parameters tool -> param_Name param <> k).
  { intros param Hin Heq. apply Hundecl. by exists param. }
  split; [by apply validateParameters_range_undeclared|].
  split.
  { intros arguments' r Hrun.
    eapply validateParameters_range_keeps; [exact Hrun|].
    simpl. apply lookup_insert_eq. }
  split.
  - intros params req Hk Hget Htmpl Hbuild.
    apply buildRequest_OK in Hbuild as (_ & _ & body & _ & _ & Hbody & _ & ->).
    apply (buildRequest_body_OK tool params body Hbody); try done.
    destruct params as [m|]; [|done]. simpl in *.
    destruct (decide (size m = 0)%nat) as [Hz|Hnz]; [|lia].
    apply map_size_empty_inv in Hz. subst m. by rewrite lookup_empty in Hk.
  - intros params req Hk Hget Hbuild.
    apply buildRequest_OK in Hbuild
      as (parsedURL & query & body & Hurl & Hq & _ & Hreq & _).
    unfold buildRequest_query in Hq. rewrite Hget in Hq.
    apply bind_OK in Hq as (configured & Hconf & Hq). inversion Hq; subst query.
    exists parsedURL, configured,
      (buildRequest_getParams (tool_Parameters tool) params configured).
    repeat split; try done.
    rewrite buildRequest_getParams_lookup, Hk.
    case_decide as Hmem; [|done]. exfalso.
    apply list_elem_of_fmap in Hmem as (param & Heq & Hparam). by eapply Hnames.
Qed.

(** C10. Validation leaves every entry of the caller in place with its
    value, and whatever key it adds is an absent, non-required declared
    parameter that receives its configured non-nil default.  So a
    numeric string accepted for a number parameter is still that string
    afterwards. *)
Theorem validateParameters_frame tool (arguments arguments' : GoMap) (r : Res unit) :
  validateParameters tool arguments = (arguments', r) ->
  (forall k v, mget arguments k = Some v -> mget arguments' k = Some v) /\
  (forall k v, mget arguments k = None -> mget arguments' k = Some v ->
     exists param, param ∈ tool_Parameters tool /\ param_Name param = k /\
                   param_Required param = false /\
                   param_Default param = v /\ notNil v = true) /\
  (forall param s, param ∈ tool_Parameters tool -> param_Type param = "number" ->
     mget arguments (param_Name param) = Some (VStr s) -> r = OK tt ->
     (exists num, strconv_ParseFloat s = Val num) /\
     mget arguments' (param_Name param) = Some (VStr s)).
Proof.
  intros Hrun. split; [|split].
  - by eapply validateParameters_range_keeps.
  - by eapply validateParameters_range_writes.
  - intros param s Hin Hty Hs Hr. subst r. split.
    + pose proof (validateParameters_range_accepts _ _ _ Hrun _ _ Hin Hs) as Hok.
      unfold validateParameterValue in Hok. rewrite Hty in Hok. simpl in Hok.
      destruct (strconv_ParseFloat s) as [num|]; [by exists num | done].
    + eapply validateParameters_range_keeps; eauto.
Qed.

(** *** The retrying executor *)

Lemma ExecuteRequest_attempt_fails upstream tool req st :
  attemptFails upstream tool req (length (ls_sent st)) ->
  ExecuteRequest_attempt upstream tool req st =
    OK (false,
        {| ls_resp := (afterAttempt (upstream (length (ls_sent st)) req)).1;
           ls_lastErr := (afterAttempt (upstream (length (ls_sent st)) req)).2;
           ls_sent := ls_sent st ++ [req] |}).
Proof.
  intros [Hwf Hcls].
  unfold ExecuteRequest_attempt, afterAttempt.
  destruct (upstream (length (ls_sent st)) req) as [[resp|] [e|]];
    simpl in *; try done.
  by rewrite Hcls.
Qed.

(** With a request that builds and sends that never succeed, the loop
    runs all its passes: each sends the request once. *)
Lemma ExecuteRequest_loop_exhausts upstream tool (params : GoMap) req :
  buildRequest tool params = OK req ->
  forall n st,
    (forall i, (length (ls_sent st) <= i < length (ls_sent st) + n)%nat ->
               attemptFails upstream tool req i) ->
    exists st',
      ExecuteRequest_loop n upstream tool params st = (OK st', ls_sent st') /\
      ls_sent st' = ls_sent st ++ replicate n req /\
      (n = 0%nat -> st' = st) /\
      (forall m, n = S m ->
         (ls_resp st', ls_lastErr st') =
           afterAttempt (upstream (length (ls_sent st) + m)%nat req)).
Proof.
  intros Hbuild. induction n as [|n IH]; intros st Hfail.
  - exists st. simpl. rewrite app_nil_r. split; [done|]. split; [done|].
    split; [done|]. intros m Hm. lia.
  - cbn [ExecuteRequest_loop]. rewrite Hbuild. cbn [wrap].
    rewrite ExecuteRequest_attempt_fails by (apply Hfail; lia).
    set (st1 := {| ls_resp := _; ls_lastErr := _; ls_sent := _ |}).
    destruct (IH st1) as (st' & Hloop & Hsent & Hzero & Hlast).
    { intros i Hi. apply Hfail. subst st1. simpl in Hi. rewrite length_app in Hi.
      simpl in Hi. lia. }
    exists st'. split; [done|]. split; [|split; [lia|]].
    + rewrite Hsent. subst st1. simpl. by rewrite <- app_assoc.
    + intros m Hm. injection Hm as <-. destruct n as [|n'].
      * rewrite (Hzero eq_refl). subst st1. rewrite Nat.add_0_r.
        unfold afterAttempt. by destruct (upstream _ _).
      * rewrite (Hlast n' eq_refl). subst st1. simpl. rewrite length_app. simpl.
        do 2 f_equal. lia.
Qed.

(** C3. With [retries = r], a request that builds (the executor's
    contract is to execute a built request) and an upstream none of
    whose [r + 1] outcomes is classified successful, the call returns
    after exactly [r + 1] sends, each of the built request. *)
Theorem ExecuteRequest_attempts upstream tool (params : GoMap) req (r : Z) :
  tool_Retries tool = r ->
  (0 <= r)%Z ->
  buildRequest tool params = OK req ->
  neverSucceeds upstream tool req (Z.to_nat (r + 1)) ->
  (ExecuteRequest upstream tool params).2 = replicate (Z.to_nat (r + 1)) req /\
  Z.of_nat (length (ExecuteRequest upstream tool params).2) = (r + 1)%Z.
Proof.
  intros Hr Hpos Hbuild Hnever.
  assert (Hsent : (ExecuteRequest upstream tool params).2
                  = replicate (Z.to_nat (r + 1)) req).
  { unfold ExecuteRequest. rewrite Hr.
    destruct (ExecuteRequest_loop_exhausts upstream tool params req Hbuild
                (Z.to_nat (r + 1))
                {| ls_resp := None; ls_lastErr := None; ls_sent := [] |})
      as (st' & Hloop & Hsent & _).
    { intros i Hi. apply Hnever. simpl in Hi. lia. }
    rewrite Hloop. simpl in Hsent. by destruct (ls_lastErr st'). }
  split; [done|]. rewrite Hsent, length_replicate. lia.
Qed.

(** A request that cannot be built is never sent. *)
Lemma ExecuteRequest_unbuilt upstream tool (params : GoMap) :
  isOK (buildRequest tool params) = false ->
  (0 <= tool_Retries tool)%Z ->
  (ExecuteRequest upstream tool params).2 = [] /\
  isOK (ExecuteRequest upstream tool params).1 = false.
Proof.
  intros Hbuild Hpos. unfold ExecuteRequest.
  destruct (Z.to_nat (tool_Retries tool + 1)) as [|n] eqn:Hn; [lia|].
  cbn [ExecuteRequest_loop].
  by destruct (buildRequest tool params).
Qed.

(** What exhaustion returns: the attempt count and the last transport
    error when the last send failed in the transport, and otherwise the
    processing of the last response, whose body the loop has closed. *)
Lemma ExecuteRequest_exhausted upstream tool (params : GoMap) req (r : Z) :
  tool_Retries tool = r ->
  (0 <= r)%Z ->
  buildRequest tool params = OK req ->
  neverSucceeds upstream tool req (Z.to_nat (r + 1)) ->
  (ExecuteRequest upstream tool params).1 =
    match upstream (Z.to_nat r) req with
    | (_, Some lastErr) =>
        Err ("request failed after " +:+ fmt_d (r + 1) +:+ " attempts: " +:+ lastErr)
    | (resp, None) =>
        wrap "failed to process response: " (processResponse (resp_Close <$> resp) tool)
    end.
Proof.
  intros Hr Hpos Hbuild Hnever. unfold ExecuteRequest. rewrite Hr.
  destruct (ExecuteRequest_loop_exhausts upstream tool params req Hbuild
              (Z.to_nat (r + 1))
              {| ls_resp := None; ls_lastErr := None; ls_sent := [] |})
    as (st' & Hloop & _ & _ & Hlast).
  { intros i Hi. apply Hnever. simpl in Hi. lia. }
  rewrite Hloop.
  specialize (Hlast (Z.to_nat r)). simpl in Hlast.
  assert (Hs : Z.to_nat (r + 1) = S (Z.to_nat r)) by lia.
  specialize (Hlast Hs). unfold afterAttempt in Hlast.
  destruct (upstream (Z.to_nat r) req) as [resp lastErr]. simpl in Hlast.
  inversion Hlast as [[Hresp Herr]]. by destruct (ls_lastErr st').
Qed.

(** Reading a closed stream fails, so the last unsuccessful response is
    lost to processing unless its body is [http.NoBody]. *)
Lemma processResponse_closed_stream resp tool content closed :
  resp_Body resp = Stream content closed ->
  processResponse (Some (resp_Close resp)) tool =
    Err "failed to read response body: http: read on closed response body".
Proof. intros Hbody. unfold processResponse, resp_Close. simpl. by rewrite Hbody. Qed.

(** *** The response validator *)

Lemma validateResponse_fields_OK (fields : list string) (data : gmap string value) :
  validateResponse_fields fields data = OK tt <->
  forall field, field ∈ fields -> is_Some (data !! field).
Proof.
  induction fields as [|field rest IH]; simpl.
  - split; [|done]. intros _ f Hf. by apply elem_of_nil in Hf.
  - destruct (data !! field) as [present|] eqn:Hfield.
    + rewrite IH. split.
      * intros Hrest f Hf. apply elem_of_cons in Hf as [->|Hf]; [by eexists | eauto].
      * intros Hall f Hf. apply Hall. by right.
    + split; [done|]. intros Hall.
      destruct (Hall field) as [x Hx]; [by left | congruence].
Qed.

Lemma validateResponse_fields_first (before after : list string) (field : string)
    (data : gmap string value) :
  (forall b, b ∈ before -> is_Some (data !! b)) ->
  data !! field = None ->
  validateResponse_fields (before ++ field :: after) data =
    Err ("required field " +:+ field +:+ " missing from response").
Proof.
  induction before as [|b before IH]; intros Hbefore Hfield; simpl.
  - by rewrite Hfield.
  - destruct (Hbefore b) as [x Hx]; [by left|]. rewrite Hx.
    apply IH; [|done]. intros b' Hb'. apply Hbefore. by right.
Qed.

(** The outcome of [validateResponse] once the status check passes and
    required fields are configured, by the shape of the payload. *)
Lemma validateResponse_payload (api : APIResponse) (validation : ValidationConfig) :
  val_RequiredFields validation <> [] ->
  statusAllowed validation (api_StatusCode api) = true ->
  validateResponse api validation =
    match api_Data api with
    | VNil => OK tt
    | VObj data => validateResponse_fields (val_RequiredFields validation) data
    | _ => Err "response is not a JSON object"
    end.
Proof.
  intros Hfields Hstatus. unfold validateResponse, statusAllowed in *.
  assert (Hpayload : forall x : Res unit, x = OK tt ->
            x ≫= (fun _ => match val_RequiredFields validation with
                           | [] => OK tt
                           | f :: fs =>
                               if notNil (api_Data api)
                               then match api_Data api with
                                    | VObj data => validateResponse_fields (f :: fs) data
                                    | _ => Err "response is not a JSON object"
                                    end
                               else OK tt
                           end) =
            match api_Data api with
            | VNil => OK tt
            | VObj data => validateResponse_fields (val_RequiredFields validation) data
            | _ => Err "response is not a JSON object"
            end).
  { intros x ->. simpl. destruct (val_RequiredFields validation); [done|].
    by destruct (api_Data api). }
  destruct (val_StatusCodes validation) as [|c cs].
  - by apply Hpayload.
  - apply Hpayload. by rewrite Hstatus.
Qed.

(** C5, as the code has it.  Under a validation descriptor with
    required fields, a response is processed successfully only if it
    has no structured payload at all or its payload is a JSON object
    holding every required field.  When the body reads and the status
    passes the allow-list: without a payload processing succeeds; a
    payload that is not an object is rejected as such; an object is
    rejected with the first missing field named. *)
Theorem processResponse_required_fields tool validation resp :
  tool_Validation tool = Some validation ->
  val_RequiredFields validation <> [] ->
  (forall api, processResponse (Some resp) tool = OK api ->
     api_Data api = VNil \/ objectWith (val_RequiredFields validation) (api_Data api)) /\
  (forall bodyBytes,
     io_ReadAll (resp_Body resp) = OK bodyBytes ->
     statusAllowed validation (resp_StatusCode resp) = true ->
     match processResponse_data (header_Get (resp_Header resp) "Content-Type") bodyBytes
     with
     | VNil => isOK (processResponse (Some resp) tool) = true
     | VObj data =>
         (forall before field after,
            val_RequiredFields validation = before ++ field :: after ->
            (forall b, b ∈ before -> is_Some (data !! b)) ->
            data !! field = None ->
            processResponse (Some resp) tool =
              Err ("response validation failed: required field " +:+ field
                   +:+ " missing from response")) /\
         ((forall field, field ∈ val_RequiredFields validation ->
                         is_Some (data !! field)) ->
          isOK (processResponse (Some resp) tool) = true)
     | _ => processResponse (Some resp) tool =
              Err "response validation failed: response is not a JSON object"
     end).
Proof.
  intros Hval Hfields. split.
  - intros api Hrun. unfold processResponse in Hrun. rewrite Hval in Hrun.
    apply bind_OK in Hrun as (bodyBytes & Hread & Hrun).
    apply bind_OK in Hrun as ([] & Hcheck & Hrun). inversion Hrun; subst api; clear Hrun.
    apply wrap_OK in Hcheck. simpl.
    unfold validateResponse in Hcheck.
    apply bind_OK in Hcheck as ([] & _ & Hcheck). simpl in Hcheck.
    destruct (val_RequiredFields validation) as [|f fs] eqn:Hfs; [done|].
    destruct (processResponse_data _ bodyBytes) as [| | | | | |data];
      simpl in Hcheck; try done; [by left|].
    right. exists data. split; [done|]. by apply validateResponse_fields_OK.
  - intros bodyBytes Hread Hstatus.
    unfold processResponse. rewrite Hval, Hread. cbn [wrap mbind Res_bind].
    set (api := {| api_StatusCode := _; api_Headers := _; api_Body := _;
                   api_Data := _ |}).
    rewrite (validateResponse_payload api validation Hfields Hstatus).
    subst api. cbn [api_Data].
    destruct (processResponse_data _ bodyBytes) as [| | | | | |data]; try done.
    split.
    + intros before field after Hsplit Hbefore Hfield.
      rewrite Hsplit. by rewrite validateResponse_fields_first.
    + intros Hall. apply validateResponse_fields_OK in Hall. by rewrite Hall.
Qed.

(** *** The dispatcher *)

Lemma w_HeaderSet_fresh w key val : fresh w -> fresh (w_HeaderSet w key val).
Proof. by intros [??]. Qed.

Lemma writeSuccess_fresh w id result :
  fresh w ->
  w_Status (writeSuccess w id result) = Some 200%Z /\
  w_Body (writeSuccess w id result) =
    [{| rsp_JSONRPC := "2.0"; rsp_ID := id; rsp_Result := result; rsp_Error := None |}].
Proof.
  intros [Hs Hb]. unfold writeSuccess, w_Encode, w_WriteHeader, w_HeaderSet. simpl.
  rewrite Hs. simpl. by rewrite Hb.
Qed.

Lemma writeError_fresh w id code message data :
  fresh w ->
  w_Status (writeError w id code message data) = Some 200%Z /\
  w_Body (writeError w id code message data) =
    [{| rsp_JSONRPC := "2.0"; rsp_ID := id; rsp_Result := VNil;
        rsp_Error := Some {| err_Code := code; err_Message := message;
                             err_Data := data |} |}].
Proof.
  intros [Hs Hb]. unfold writeError, w_Encode, w_WriteHeader, w_HeaderSet. simpl.
  rewrite Hs. simpl. by rewrite Hb.
Qed.

Lemma writeError_body w id code message data :
  exists response,
    w_Body (writeError w id code message data) = w_Body w ++ [response] /\
    isErrorEnvelope response code.
Proof.
  eexists. split.
  - unfold writeError, w_Encode, w_WriteHeader, w_HeaderSet. simpl.
    by destruct (w_Status w).
  - split; [done|]. by eexists.
Qed.

Lemma replied_fresh w w' :
  fresh w -> replied w w' ->
  w_Status w' = Some 200%Z /\
  exists response, w_Body w' = [response] /\
    (isSuccessEnvelope response \/ exists code, isErrorEnvelope response code).
Proof.
  intros Hfresh [(id & m & ->)|(id & code & message & data & ->)].
  - destruct (writeSuccess_fresh w id (obj m) Hfresh) as [Hs Hb].
    split; [done|]. eexists. split; [exact Hb|]. by left.
  - destruct (writeError_fresh w id code message data Hfresh) as [Hs Hb].
    split; [done|]. eexists. split; [exact Hb|]. right. exists code.
    split; [done|]. by eexists.
Qed.

Lemma handleToolsCall_replied h w req w' sent :
  handleToolsCall h w req = (OK w', sent) -> replied w w'.
Proof.
  unfold handleToolsCall. intros H.
  destruct (toolsCall_decode req) as [[name arguments]|e].
  - destruct (ExecuteTool _ name arguments) as [[result| |] sent0].
    + destruct (IsError result); inversion H; subst.
      * right. by repeat eexists.
      * left. by repeat eexists.
    + inversion H; subst. right. by repeat eexists.
    + inversion H.
  - inversion H; subst. right. by repeat eexists.
Qed.

Lemma dispatch_replied h w req w' sent :
  dispatch h w req = (OK w', sent) -> replied w w'.
Proof.
  unfold dispatch. intros H.
  repeat match type of H with
         | (if ?b then _ else _) = _ => destruct b
         end;
    try (by eapply handleToolsCall_replied);
    inversion H; subst;
    try (left; by repeat eexists); try (right; by repeat eexists).
  - unfold handlePromptsGet.
    destruct (if notNil (rpc_Params req) then _ else _) as [name arguments].
    destruct (find _ _); [left | right]; by repeat eexists.
  - unfold handleResourcesRead. destruct (find _ _); [left | right]; by repeat eexists.
Qed.

(** C8. Whatever the HTTP verb, the body and the method name, once the
    handler has written a JSON-RPC envelope the transport status is
    200, and the envelope is either a result without error or an error
    without result.  (The only other status is the 204 of the CORS
    preflight, which writes no envelope.) *)
Theorem ServeHTTP_status_200 h w r w' sent :
  fresh w ->
  ServeHTTP h w r = (OK w', sent) ->
  forall response, response ∈ w_Body w' ->
    w_Status w' = Some 200%Z /\
    w_Body w' = [response] /\
    (isSuccessEnvelope response \/ exists code, isErrorEnvelope response code).
Proof.
  intros Hfresh Hrun response Hin. unfold ServeHTTP in Hrun.
  set (w4 := w_HeaderSet _ "Access-Control-Max-Age" _) in Hrun.
  assert (Hfresh4 : fresh w4) by (subst w4; by repeat apply w_HeaderSet_fresh).
  assert (Hreplied : replied w4 w' \/ w_Body w' = []).
  { destruct (String.eqb (http_Method r) "OPTIONS").
    - right. inversion Hrun; subst. destruct Hfresh4 as [Hs Hb].
      unfold w_WriteHeader. by rewrite Hs.
    - left. destruct (negb _).
      + inversion Hrun; subst. right. by repeat eexists.
      + destruct (json_DecodeRequest _) as [[[[jsonrpc id] method] params]|e].
        * by eapply dispatch_replied.
        * inversion Hrun; subst. right. by repeat eexists. }
  destruct Hreplied as [Hreplied|Hempty].
  - destruct (replied_fresh _ _ Hfresh4 Hreplied) as (Hs & resp0 & Hb & Hshape).
    rewrite Hb in Hin. apply list_elem_of_singleton in Hin. subst resp0. by rewrite Hb.
  - rewrite Hempty in Hin. by apply elem_of_nil in Hin.
Qed.

(** C1, as the code has it.  When the parameters validate and the
    execution fails, or ends in an outcome with status 400 or more, the
    tool handler does produce a tool-level error result, but the
    dispatcher turns every such result into a JSON-RPC error: code
    -32000, message "Tool execution error", the tool-level error text
    as data.  No success envelope is written. *)
Theorem toolsCall_failure_is_error h w req name (arguments arguments' : GoMap)
    tool result sent text :
  toolsCall_decode req = Val (name, arguments) ->
  th_tools (jh_toolHandler h) !! name = Some tool ->
  validateParameters tool arguments = (arguments', OK tt) ->
  ExecuteRequest (th_upstream (jh_toolHandler h)) tool arguments' = (result, sent) ->
  toolFailureText tool result = Some text ->
  ExecuteTool (jh_toolHandler h) name arguments = (OK (NewToolResultError text), sent) /\
  handleToolsCall h w req =
    (OK (writeError w (rpc_ID req) (-32000) "Tool execution error" (VStr text)), sent) /\
  exists response,
    w_Body (writeError w (rpc_ID req) (-32000) "Tool execution error" (VStr text))
      = w_Body w ++ [response] /\
    isErrorEnvelope response (-32000) /\ ~ isSuccessEnvelope response.
Proof.
  intros Hdec Htool Hvalid Hexec Htext.
  assert (Htoolres : ExecuteTool (jh_toolHandler h) name arguments
                     = (OK (NewToolResultError text), sent)).
  { unfold ExecuteTool. rewrite Htool, Hvalid, Hexec.
    destruct result as [response|e|p]; simpl in Htext.
    - unfold convertResponseToMCPResult.
      destruct (400 <=? api_StatusCode response)%Z; [|done]. by inversion Htext.
    - by inversion Htext.
    - done. }
  split; [done|]. split.
  - unfold handleToolsCall. by rewrite Hdec, Htoolres.
  - destruct (writeError_body w (rpc_ID req) (-32000) "Tool execution error" (VStr text))
      as (response & Hbody & Henv).
    exists response. split; [done|]. split; [done|].
    destruct Henv as (_ & e & He & _). intros [Hnone _]. congruence.
Qed.

Lemma validateParameters_range_app (l1 l2 : list ParameterConfig) :
  forall arguments : GoMap,
    validateParameters_range (l1 ++ l2) arguments =
      match validateParameters_range l1 arguments with
      | (arguments1, OK _) => validateParameters_range l2 arguments1
      | failed => failed
      end.
Proof.
  induction l1 as [|param rest IH]; intros arguments; [done|].
  cbn [app validateParameters_range].
  destruct (mget arguments (param_Name param)) as [present|].
  - by destruct (validateParameterValue param present).
  - destruct (param_Required param); [done|].
    destruct (notNil (param_Default param)); [|done].
    by destruct (mset arguments _ _).
Qed.

Lemma noPanic_bind {A B} (r : Res A) (f : A -> Res B) :
  noPanic r -> (forall a, noPanic (f a)) -> noPanic (r ≫= f).
Proof. intros Hr Hf. destruct r; [apply Hf | done | by destruct (Hr msg)]. Qed.

Lemma noPanic_wrap {A} prefix (r : Res A) : noPanic r -> noPanic (wrap prefix r).
Proof. intros Hr. by destruct r. Qed.

Lemma noPanic_call {A} (c : Checked A) : noPanic (call c).
Proof. by destruct c. Qed.

Lemma noPanic_failIf cond msg : noPanic (failIf cond msg).
Proof. by destruct cond. Qed.

Lemma validateParameterValue_noPanic param (v : value) :
  noPanic (validateParameterValue param v).
Proof.
  assert (Hstr : forall pv str, noPanic (validateString pv str)).
  { intros pv str. unfold validateString.
    repeat (apply noPanic_bind; [|intros _]).
    - destruct (MinLength pv); [apply noPanic_failIf | done].
    - destruct (MaxLength pv); [apply noPanic_failIf | done].
    - destruct (Pattern pv); [|done].
      apply noPanic_bind; [apply noPanic_wrap, noPanic_call | intros ?].
      apply noPanic_failIf.
    - destruct (Enum pv); [done | apply noPanic_failIf]. }
  assert (Hnum : forall pv num, noPanic (validateNumber pv num)).
  { intros pv num. unfold validateNumber.
    apply noPanic_bind; [|intros _].
    - destruct (MinValue pv); [apply noPanic_failIf | done].
    - destruct (MaxValue pv); [apply noPanic_failIf | done]. }
  unfold validateParameterValue.
  destruct (String.eqb (param_Type param) "string").
  { destruct v; try done. destruct (param_Validation param); [apply Hstr | done]. }
  destruct (String.eqb (param_Type param) "number").
  { apply noPanic_bind.
    - destruct v; try done. apply noPanic_wrap, noPanic_call.
    - intros num. destruct (param_Validation param); [apply Hnum | done]. }
  repeat match goal with
         | |- noPanic (if ?b then _ else _) => destruct b
         end; by destruct v.
Qed.

(** With distinct parameter names, a required parameter missing from
    the arguments is still missing when the loop reaches it, so the
    loop cannot complete: it returns an error, or panics on the nil
    map before. *)
Lemma validateParameters_range_missing (params : list ParameterConfig) :
  NoDup (param_Name <$> params) ->
  forall (arguments : GoMap) param,
    param ∈ params -> param_Required param = true ->
    mget arguments (param_Name param) = None ->
    (exists e, (validateParameters_range params arguments).2 = Err e) \/
    (arguments = None /\ exists p, (validateParameters_range params arguments).2 = Panic p).
Proof.
  induction params as [|param0 rest IH]; intros Hnd arguments param Hin Hreq Hmiss.
  - by apply elem_of_nil in Hin.
  - rewrite fmap_cons in Hnd. apply NoDup_cons in Hnd as [Hfresh Hnd].
    cbn [validateParameters_range].
    apply elem_of_cons in Hin as [->|Hin].
    + rewrite Hmiss, Hreq. left. by eexists.
    + assert (Hne : param_Name param0 <> param_Name param).
      { intros Heq. apply Hfresh. rewrite Heq. apply list_elem_of_fmap. eauto. }
      destruct (mget arguments (param_Name param0)) as [present|] eqn:Hget.
      * destruct (validateParameterValue param0 present) as [[]|e|p] eqn:Hval.
        -- by apply (IH Hnd arguments param).
        -- left. by eexists.
        -- by destruct (validateParameterValue_noPanic param0 present p).
      * destruct (param_Required param0); [left; by eexists|].
        destruct (notNil (param_Default param0)); [|by apply (IH Hnd arguments param)].
        destruct arguments as [g|]; cbn [mset].
        -- destruct (IH Hnd (Some (<[param_Name param0 := param_Default param0]> g))
                      param Hin Hreq) as [Herr|[Hnil _]]; [| by left | done].
           by rewrite mget_mset_ne.
        -- right. split; [done|]. by eexists.
Qed.

(** C2, as the code has it.  For a registered tool with distinct
    parameter names and arguments that lack a required parameter,
    nothing is sent upstream and no success is written: the answer is a
    JSON-RPC error with code -32000 and message "Tool execution error"
    (not the invalid-params code), or, for a nil argument map, a panic
    at a default injection.  The error data names the missing parameter
    whenever the parameters declared before it pass validation. *)
Theorem toolsCall_missing_required h w req name (arguments : GoMap) tool param :
  toolsCall_decode req = Val (name, arguments) ->
  th_tools (jh_toolHandler h) !! name = Some tool ->
  NoDup (param_Name <$> tool_Parameters tool) ->
  param ∈ tool_Parameters tool ->
  param_Required param = true ->
  mget arguments (param_Name param) = None ->
  (handleToolsCall h w req).2 = [] /\
  ((exists e,
      (handleToolsCall h w req).1 =
        OK (writeError w (rpc_ID req) (-32000) "Tool execution error"
              (VStr ("Failed to execute tool '" +:+ name
                     +:+ "': parameter validation failed: " +:+ e)))) \/
   (arguments = None /\ exists p, (handleToolsCall h w req).1 = Panic p)) /\
  (forall before after arguments1,
     tool_Parameters tool = before ++ param :: after ->
     validateParameters_range before arguments = (arguments1, OK tt) ->
     (handleToolsCall h w req).1 =
       OK (writeError w (rpc_ID req) (-32000) "Tool execution error"
             (VStr ("Failed to execute tool '" +:+ name
                    +:+ "': parameter validation failed: required parameter "
                    +:+ param_Name param +:+ " is missing")))).
Proof.
  intros Hdec Htool Hnd Hin Hreq Hmiss.
  unfold handleToolsCall, ExecuteTool. rewrite Hdec, Htool. unfold validateParameters.
  pose proof (validateParameters_range_missing _ Hnd arguments param Hin Hreq Hmiss)
    as Hfails.
  split; [|split].
  - destruct (validateParameters_range _ arguments) as [args1 [[]|e|p]]; simpl in *;
      [destruct Hfails as [[e He]|[_ [p Hp]]]; done | done ..].
  - destruct (validateParameters_range _ arguments) as [args1 [[]|e|p]]; simpl in *.
    + destruct Hfails as [[e He]|[_ [p Hp]]]; done.
    + left. by eexists.
    + right. destruct Hfails as [[e' He]|[Hnil _]]; [done|]. split; [done|by eexists].
  - intros before after arguments1 Hsplit Hbefore.
    rewrite Hsplit, validateParameters_range_app, Hbefore.
    cbn [validateParameters_range].
    assert (Hstill : mget arguments1 (param_Name param) = None).
    { destruct (mget arguments1 (param_Name param)) as [v|] eqn:Hv; [exfalso|done].
      destruct (validateParameters_range_writes _ _ _ _ Hbefore _ _ Hmiss Hv)
        as (q & Hq & Hname & _).
      rewrite Hsplit, fmap_app, fmap_cons in Hnd.
      apply NoDup_app in Hnd as (_ & Hdisj & _).
      apply (Hdisj (param_Name param)); [|by left].
      apply list_elem_of_fmap. eauto. }
    by rewrite Hstill, Hreq.
Qed.

End Properties.


(** ** The statements at concrete calls *)

(** [get_item] with [id = "42"] against an upstream that always
    answers 500: three sends for [retries = 2]. *)
Lemma ExecuteRequest_attempts_witness :
  neverSucceeds failing500 getItem getItemRequest 3 /\
  (ExecuteRequest failing500 getItem (Some idArgs)).2
    = [getItemRequest; getItemRequest; getItemRequest].
Proof.
  assert (Hnever : neverSucceeds failing500 getItem getItemRequest 3)
    by (intros n _; split; [exact I | reflexivity]).
  split; [exact Hnever|].
  apply (ExecuteRequest_attempts failing500 getItem (Some idArgs)
           getItemRequest 2);
    [reflexivity | lia | vm_compute; reflexivity | exact Hnever].
Defined.

(** C4 at a concrete call.  The last of the three attempts produced a
    response with status 500 and the body "oops"; the loop closed that
    body, so processing cannot read it and the call fails with a read
    error in which neither the status nor the body survives. *)
Lemma ExecuteRequest_last_response_unreadable :
  ExecuteRequest failing500 getItem (Some idArgs) =
    (Err ("failed to process response: failed to read response body: "
          +:+ "http: read on closed response body"),
     [getItemRequest; getItemRequest; getItemRequest]) /\
  processResponse (Some response500) getItem =
    OK {| api_StatusCode := 500; api_Headers := {[ "Content-Type" := "text/plain" ]};
          api_Body := "oops"; api_Data := VNil |}.
Proof. split; vm_compute; reflexivity. Qed.

Lemma buildRequest_GET_query_witness :
  isGET getItem = true /\
  buildRequest getItem (Some idArgs) = OK getItemRequest /\
  exists parsedURL (query : Values),
    url_Parse (url_String (withRawQuery parsedURL (url_Encode query)))
      = Val (req_URL getItemRequest) /\
    query !! "id" = Some ["42"] /\
    query !! "limit" = Some ["10"].
Proof.
  assert (Hbuild : buildRequest getItem (Some idArgs)
                   = OK getItemRequest) by (vm_compute; reflexivity).
  split; [reflexivity|]. split; [exact Hbuild|].
  destruct (buildRequest_GET_query getItem (Some idArgs)
              getItemRequest eq_refl Hbuild)
    as (parsedURL & query & _ & Hurl & Hdeclared & Hconfigured).
  exists parsedURL, query. split; [exact Hurl|]. split.
  - apply (Hdeclared idParam (VStr "42")); [by left | reflexivity].
  - destruct (Hconfigured "limit" "10" eq_refl) as (expanded & Hexp & Hq).
    vm_compute in Hexp. injection Hexp as <-. apply Hq.
    intros [(param & Hin & Hname) _].
    apply list_elem_of_singleton in Hin. subst param. discriminate Hname.
Defined.

Lemma buildRequest_body_cases_witness :
  exists req, buildRequest postNote None = OK req /\ req_Body req = Some "note".
Proof.
  assert (Hbuild : exists req, buildRequest postNote None = OK req)
    by (vm_compute; eexists; reflexivity).
  destruct Hbuild as [req Hbuild]. exists req. split; [exact Hbuild|].
  destruct (buildRequest_body_cases postNote None req Hbuild) as (Htemplate & _ & _).
  destruct Htemplate as (expanded & Hexp & Hbody); [discriminate | reflexivity |].
  vm_compute in Hexp. injection Hexp as <-. exact Hbody.
Defined.

Lemma undeclared_argument_witness :
  ~ declared postOrder "note" /\
  (validateParameters postOrder
     (Some (<["note" := VStr "x"]> countArgs))).2 = OK tt /\
  mget (validateParameters postOrder
          (Some (<["note" := VStr "x"]> countArgs))).1 "note"
    = Some (VStr "x").
Proof.
  assert (Hundecl : ~ declared postOrder "note").
  { intros (param & Hin & Hname).
    apply elem_of_cons in Hin as [->|Hin]; [discriminate Hname|].
    apply list_elem_of_singleton in Hin. subst param. discriminate Hname. }
  split; [exact Hundecl|]. split; [vm_compute; reflexivity|].
  destruct (undeclared_argument postOrder countArgs "note" (VStr "x")
              Hundecl) as (_ & Hkept & _).
  exact (Hkept _ _ (surjective_pairing _)).
Defined.

Lemma validateParameters_frame_witness :
  validateParameters postOrder (Some countArgs) =
    (Some (<["unit" := VStr "kg"]> countArgs), OK tt) /\
  (exists num, strconv_ParseFloat "3" = Val num) /\
  mget (Some (<["unit" := VStr "kg"]> countArgs)) "count"
    = Some (VStr "3").
Proof.
  assert (Hrun : validateParameters postOrder (Some countArgs) =
                 (Some (<["unit" := VStr "kg"]> countArgs), OK tt))
    by (vm_compute; reflexivity).
  split; [exact Hrun|].
  destruct (validateParameters_frame postOrder _ _ _ Hrun) as (_ & _ & Hnumeric).
  apply (Hnumeric countParam "3"); [by left | reflexivity | reflexivity | reflexivity].
Defined.

(** C5 at a concrete response: [post_order] requires the field "id",
    the upstream answers 200 with the plain text "hello"; there is no
    structured payload and processing succeeds. *)
Lemma processResponse_required_fields_counterexample :
  tool_Validation postOrder =
    Some {| val_Schema := ""; val_StatusCodes := []; val_RequiredFields := ["id"] |} /\
  processResponse (Some responsePlain) postOrder =
    OK {| api_StatusCode := 200; api_Headers := {[ "Content-Type" := "text/plain" ]};
          api_Body := "hello"; api_Data := VNil |} /\
  ~ objectWith ["id"] (VNil : Value Z).
Proof.
  split; [reflexivity|]. split; [vm_compute; reflexivity|].
  intros (m & Hm & _). discriminate Hm.
Qed.

Lemma processResponse_required_fields_witness :
  tool_Validation postOrder =
    Some {| val_Schema := ""; val_StatusCodes := []; val_RequiredFields := ["id"] |} /\
  isOK (processResponse (Some responsePlain) postOrder) = true.
Proof.
  split; [reflexivity|].
  destruct (processResponse_required_fields postOrder
              {| val_Schema := ""; val_StatusCodes := []; val_RequiredFields := ["id"] |}
              responsePlain eq_refl) as [_ Hnamed]; [discriminate|].
  exact (Hnamed "hello" eq_refl eq_refl).
Defined.

Lemma ServeHTTP_status_200_witness :
  fresh newResponseWriter /\
  ServeHTTP (handlerOver refusing) newResponseWriter
    {| http_Method := "GET"; http_Body := "" |} = (OK invalidRequestReply, []) /\
  forall response, response ∈ w_Body invalidRequestReply ->
    w_Status invalidRequestReply = Some 200%Z /\
    w_Body invalidRequestReply = [response] /\
    (isSuccessEnvelope response \/ exists code, isErrorEnvelope response code).
Proof.
  assert (Hfresh : fresh newResponseWriter) by (split; reflexivity).
  assert (Hrun : ServeHTTP (handlerOver refusing) newResponseWriter
                   {| http_Method := "GET"; http_Body := "" |}
                 = (OK invalidRequestReply, [])) by (vm_compute; reflexivity).
  split; [exact Hfresh|]. split; [exact Hrun|].
  exact (ServeHTTP_status_200 _ _ _ _ _ Hfresh Hrun).
Defined.

(** C1 at a concrete call: the request cannot be sent, the retries are
    exhausted, and the dispatcher answers with a JSON-RPC error object,
    not with a result. *)
Lemma toolsCall_failure_counterexample :
  handleToolsCall (handlerOver refusing) newResponseWriter
    (callTool "get_item" idArgs)
    = (OK refusedReply, [getItemRequest; getItemRequest; getItemRequest]) /\
  forall response, response ∈ w_Body refusedReply ->
    isErrorEnvelope response (-32000) /\ ~ isSuccessEnvelope response.
Proof.
  split; [vm_compute; reflexivity|].
  intros response Hin. apply list_elem_of_singleton in Hin. subst response.
  split; [split; [reflexivity | by eexists] | intros [Hnone _]; discriminate Hnone].
Qed.

Lemma toolsCall_failure_is_error_witness :
  ExecuteRequest refusing getItem (Some idArgs) =
    (Err "request failed after 3 attempts: dial tcp: connection refused",
     [getItemRequest; getItemRequest; getItemRequest]) /\
  handleToolsCall (handlerOver refusing) newResponseWriter
    (callTool "get_item" idArgs)
    = (OK (writeError newResponseWriter (VInt 1) (-32000) "Tool execution error"
             (VStr ("GET http://upstream.test/items failed: "
                    +:+ "request failed after 3 attempts: "
                    +:+ "dial tcp: connection refused"))),
       [getItemRequest; getItemRequest; getItemRequest]).
Proof.
  assert (Hexec : ExecuteRequest refusing getItem (Some idArgs) =
                  (Err "request failed after 3 attempts: dial tcp: connection refused",
                   [getItemRequest; getItemRequest; getItemRequest]))
    by (vm_compute; reflexivity).
  split; [exact Hexec|].
  apply (toolsCall_failure_is_error (handlerOver refusing) newResponseWriter
           (callTool "get_item" idArgs) "get_item"
           (Some idArgs) (Some idArgs) getItem
           _ _ _ eq_refl eq_refl eq_refl Hexec eq_refl).
Defined.

(** C2 at a concrete call: the required [id] is missing, nothing is
    sent, and the error carries the code -32000, not the invalid-params
    code -32602; the parameter is named in the data, not the message. *)
Lemma toolsCall_missing_required_counterexample :
  handleToolsCall (handlerOver refusing) newResponseWriter (callTool "get_item" ∅)
    = (OK missingIdReply, []) /\
  forall response, response ∈ w_Body missingIdReply ->
    isErrorEnvelope response (-32000) /\ ~ isErrorEnvelope response (-32602).
Proof.
  split; [vm_compute; reflexivity|].
  intros response Hin. apply list_elem_of_singleton in Hin. subst response.
  split; [split; [reflexivity | by eexists]|].
  intros (_ & e & He & Hcode). injection He as <-. discriminate Hcode.
Qed.

Lemma toolsCall_missing_required_witness :
  mget (Some (∅ : gmap string (Value Z))) (param_Name idParam) = None /\
  (handleToolsCall (handlerOver refusing) newResponseWriter (callTool "get_item" ∅)).2
    = [] /\
  (handleToolsCall (handlerOver refusing) newResponseWriter (callTool "get_item" ∅)).1
    = OK (writeError newResponseWriter (VInt 1) (-32000) "Tool execution error"
            (VStr ("Failed to execute tool 'get_item': "
                   +:+ "parameter validation failed: required parameter "
                   +:+ "id" +:+ " is missing"))).
Proof.
  split; [reflexivity|].
  destruct (toolsCall_missing_required (handlerOver refusing) newResponseWriter
              (callTool "get_item" ∅) "get_item" (Some ∅) getItem idParam)
    as (Hsent & _ & Hnamed);
    [reflexivity | reflexivity
    | apply NoDup_singleton | by left | reflexivity | reflexivity |].
  split; [exact Hsent|].
  exact (Hnamed [] [] (Some ∅) eq_refl eq_refl).
Defined.

(** ** Further properties of the handlers *)

Section Executor.
Context `{rt : GoRuntime}.

Local Abbreviation GoMap := (option (gmap string (Value float64))).

Lemma ExecuteRequest_loop_breaks upstream tool (params : GoMap) req resp :
  buildRequest tool params = OK req ->
  isSuccessStatusCode (resp_StatusCode resp) (tool_Validation tool) = true ->
  forall k n st,
    (k < n)%nat ->
    (forall i, (length (ls_sent st) <= i < length (ls_sent st) + k)%nat ->
               attemptFails upstream tool req i) ->
    upstream (length (ls_sent st) + k)%nat req = (Some resp, None) ->
    ExecuteRequest_loop n upstream tool params st =
      (OK {| ls_resp := Some resp; ls_lastErr := None;
             ls_sent := ls_sent st ++ replicate (S k) req |},
       ls_sent st ++ replicate (S k) req).
Proof.
  intros Hbuild Hsucc. induction k as [|k IH]; intros n st Hlt Hfail Hup.
  - destruct n as [|n]; [lia|]. cbn [ExecuteRequest_loop]. rewrite Hbuild. cbn [wrap].
    unfold ExecuteRequest_attempt. rewrite Nat.add_0_r in Hup. rewrite Hup, Hsucc.
    done.
  - destruct n as [|n]; [lia|]. cbn [ExecuteRequest_loop]. rewrite Hbuild. cbn [wrap].
    rewrite ExecuteRequest_attempt_fails by (apply Hfail; lia).
    set (st1 := {| ls_resp := _; ls_lastErr := _; ls_sent := _ |}).
    assert (Hlen : length (ls_sent st1) = S (length (ls_sent st))).
    { subst st1. simpl. rewrite length_app. simpl. lia. }
    rewrite (IH n st1).
    + subst st1. cbn [ls_sent]. rewrite <- !app_assoc. done.
    + lia.
    + intros i Hi. apply Hfail. lia.
    + rewrite Hlen. rewrite <- Hup. f_equal. lia.
Qed.

(** X1. The first response classified successful ends the call: after
    [k] unsuccessful sends ([k <= retries]) the call has sent the
    request [k + 1] times and returns the processing of that response,
    whose body has not been closed. *)
Theorem ExecuteRequest_first_success upstream tool (params : GoMap) req resp (k : nat) :
  buildRequest tool params = OK req ->
  (Z.of_nat k <= tool_Retries tool)%Z ->
  neverSucceeds upstream tool req k ->
  upstream k req = (Some resp, None) ->
  isSuccessStatusCode (resp_StatusCode resp) (tool_Validation tool) = true ->
  ExecuteRequest upstream tool params =
    (wrap "failed to process response: " (processResponse (Some resp) tool),
     replicate (S k) req).
Proof.
  intros Hbuild Hk Hnever Hup Hsucc. unfold ExecuteRequest.
  rewrite (ExecuteRequest_loop_breaks upstream tool params req resp Hbuild Hsucc k).
  - done.
  - lia.
  - intros i Hi. apply Hnever. simpl in Hi. lia.
  - done.
Qed.

(** X2. After [r + 1] unsuccessful sends the call fails with the
    attempt count and the last transport error when the last send
    failed in the transport; otherwise it returns the processing of
    the last response, body closed. *)
Theorem ExecuteRequest_after_exhaustion upstream tool (params : GoMap) req (r : Z) :
  tool_Retries tool = r ->
  (0 <= r)%Z ->
  buildRequest tool params = OK req ->
  neverSucceeds upstream tool req (Z.to_nat (r + 1)) ->
  ExecuteRequest upstream tool params =
    (match upstream (Z.to_nat r) req with
     | (_, Some lastErr) =>
         Err ("request failed after " +:+ fmt_d (r + 1) +:+ " attempts: " +:+ lastErr)
     | (resp, None) =>
         wrap "failed to process response: " (processResponse (resp_Close <$> resp) tool)
     end,
     replicate (Z.to_nat (r + 1)) req).
Proof.
  intros Hr Hpos Hbuild Hnever.
  rewrite (surjective_pairing (ExecuteRequest upstream tool params)). f_equal.
  - by apply ExecuteRequest_exhausted.
  - unfold ExecuteRequest. rewrite Hr.
    destruct (ExecuteRequest_loop_exhausts upstream tool params req Hbuild
                (Z.to_nat (r + 1))
                {| ls_resp := None; ls_lastErr := None; ls_sent := [] |})
      as (st' & Hloop & Hsent & _).
    { intros i Hi. apply Hnever. simpl in Hi. lia. }
    rewrite Hloop. simpl in Hsent. by destruct (ls_lastErr st').
Qed.

(** X3. A request that cannot be built is reported as such and nothing
    is sent, whatever the upstream. *)
Theorem ExecuteRequest_build_error upstream tool (params : GoMap) e :
  buildRequest tool params = Err e ->
  (0 <= tool_Retries tool)%Z ->
  ExecuteRequest upstream tool params = (Err ("failed to build request: " +:+ e), []).
Proof.
  intros Hbuild Hpos. unfold ExecuteRequest.
  destruct (Z.to_nat (tool_Retries tool + 1)) as [|n] eqn:Hn; [lia|].
  cbn [ExecuteRequest_loop]. by rewrite Hbuild.
Qed.

(** X4. With a negative retry count the loop body never runs: nothing
    is built or sent and the nil response is dereferenced. *)
Theorem ExecuteRequest_negative_retries upstream tool (params : GoMap) :
  (tool_Retries tool < 0)%Z ->
  ExecuteRequest upstream tool params =
    (Panic "invalid memory address or nil pointer dereference", []).
Proof.
  intros Hneg. unfold ExecuteRequest.
  replace (Z.to_nat (tool_Retries tool + 1)) with 0%nat by lia. done.
Qed.

End Executor.

Lemma ExecuteRequest_first_success_witness :
  ExecuteRequest flaky getItem (Some idArgs) =
    (OK {| api_StatusCode := 200;
           api_Headers := {[ "Content-Type" := "application/json" ]};
           api_Body := "{}"; api_Data := VObj ∅ |},
     [getItemRequest; getItemRequest; getItemRequest]).
Proof.
  rewrite (ExecuteRequest_first_success flaky getItem (Some idArgs) getItemRequest
             responseOK 2);
    [vm_compute; reflexivity | vm_compute; reflexivity | simpl; lia |
    | reflexivity | reflexivity].
  intros n Hn. split; [by destruct n as [|[|?]] | ].
  destruct n as [|[|n]]; [reflexivity | reflexivity | lia].
Defined.

Lemma ExecuteRequest_after_exhaustion_witness :
  ExecuteRequest refusing getItem (Some idArgs) =
    (Err "request failed after 3 attempts: dial tcp: connection refused",
     [getItemRequest; getItemRequest; getItemRequest]).
Proof.
  rewrite (ExecuteRequest_after_exhaustion refusing getItem (Some idArgs)
             getItemRequest 2);
    [reflexivity | reflexivity | lia | vm_compute; reflexivity |].
  intros n _. split; [exact I | reflexivity].
Defined.

Lemma ExecuteRequest_build_error_witness :
  ExecuteRequest healthy (withAuth getItem (bearerAuth "")) (Some idArgs) =
    (Err "failed to build request: failed to apply authentication: bearer token not found",
     []).
Proof.
  apply (ExecuteRequest_build_error healthy (withAuth getItem (bearerAuth ""))
           (Some idArgs)
           "failed to apply authentication: bearer token not found");
    [vm_compute; reflexivity | vm_compute; discriminate].
Defined.

Lemma ExecuteRequest_negative_retries_witness :
  ExecuteRequest healthy (withRetries getItem (-1)) (Some idArgs) =
    (Panic "invalid memory address or nil pointer dereference", []).
Proof.
  apply (ExecuteRequest_negative_retries healthy (withRetries getItem (-1))). reflexivity.
Defined.

Section Responses.
Context `{rt : GoRuntime}.

Local Abbreviation GoMap := (option (gmap string (Value float64))).

Lemma isSuccessStatusCode_allowed statusCode validation :
  isSuccessStatusCode statusCode (Some validation) = true ->
  statusAllowed validation statusCode = true.
Proof.
  unfold isSuccessStatusCode, statusAllowed.
  by destruct (val_StatusCodes validation).
Qed.

(** X5. The executor's success classification and the response
    validator agree on the status: a response that ends the retry loop
    never fails the status check.  If its body reads and no required
    fields are configured, processing succeeds and yields the status,
    the first value of each header, the body and the payload. *)
Theorem processResponse_classified_success resp tool bodyBytes :
  isSuccessStatusCode (resp_StatusCode resp) (tool_Validation tool) = true ->
  io_ReadAll (resp_Body resp) = OK bodyBytes ->
  (forall validation, tool_Validation tool = Some validation ->
                      val_RequiredFields validation = []) ->
  processResponse (Some resp) tool =
    OK {| api_StatusCode := resp_StatusCode resp;
          api_Headers := omap head (resp_Header resp);
          api_Body := bodyBytes;
          api_Data := processResponse_data
                        (header_Get (resp_Header resp) "Content-Type") bodyBytes |}.
Proof.
  intros Hsucc Hread Hfields. unfold processResponse. rewrite Hread.
  cbn [wrap mbind Res_bind].
  destruct (tool_Validation tool) as [validation|] eqn:Hval; [|done].
  apply isSuccessStatusCode_allowed in Hsucc.
  unfold validateResponse. rewrite (Hfields validation eq_refl).
  unfold statusAllowed in Hsucc. cbn [api_StatusCode].
  destruct (val_StatusCodes validation) as [|c cs]; [done|].
  by rewrite Hsucc.
Qed.

(** X6. Processing never alters what it read: whenever it succeeds,
    under any validation rules, the outcome carries the status of the
    response, the body as read, the first value of each header and the
    payload parsed from that body. *)
Theorem processResponse_faithful resp tool api :
  processResponse (Some resp) tool = OK api ->
  api_StatusCode api = resp_StatusCode resp /\
  io_ReadAll (resp_Body resp) = OK (api_Body api) /\
  (forall key, api_Headers api !! key = resp_Header resp !! key ≫= head) /\
  api_Data api =
    processResponse_data (header_Get (resp_Header resp) "Content-Type") (api_Body api).
Proof.
  unfold processResponse. intros Hrun.
  apply bind_OK in Hrun as (bodyBytes & Hread & Hrun).
  assert (Hread' : io_ReadAll (resp_Body resp) = OK bodyBytes).
  { by destruct (io_ReadAll (resp_Body resp)). }
  assert (Hapi : api = {| api_StatusCode := resp_StatusCode resp;
                          api_Headers := omap head (resp_Header resp);
                          api_Body := bodyBytes;
                          api_Data := processResponse_data
                            (header_Get (resp_Header resp) "Content-Type") bodyBytes |}).
  { destruct (tool_Validation tool) as [validation|].
    - apply bind_OK in Hrun as (u & _ & Hrun). by inversion Hrun.
    - by inversion Hrun. }
  subst api. cbn. repeat split; try done.
  intros key. apply lookup_omap.
Qed.

Lemma convertResponseToMCPResult_text response tool :
  exists text,
    convertResponseToMCPResult response tool =
      {| Content_ := [TextContentVal text];
         IsError := (400 <=? api_StatusCode response)%Z |}.
Proof.
  assert (Hdata : exists text,
            dataOrBody response = {| Content_ := [TextContentVal text];
                                     IsError := false |}).
  { unfold dataOrBody. destruct (notNil (api_Data response)); [|by eexists].
    destruct (json_MarshalIndent _); by eexists. }
  destruct Hdata as (text & Hdata).
  unfold convertResponseToMCPResult.
  destruct (400 <=? api_StatusCode response)%Z; [by eexists|].
  destruct (String.eqb (tool_ReturnType tool) "string"); [by eexists|].
  exists text. by destruct (_ || _).
Qed.

(** X7. The mapped result is always one text block, flagged as an
    error exactly when the status is 400 or more.  An error block
    reports status and body; otherwise the text is the raw body when
    the return type is [string] or there is no parsed payload. *)
Theorem convertResponseToMCPResult_shape response tool :
  exists text,
    convertResponseToMCPResult response tool =
      {| Content_ := [TextContentVal text];
         IsError := (400 <=? api_StatusCode response)%Z |} /\
    ((400 <= api_StatusCode response)%Z ->
       text = "HTTP Error " +:+ fmt_d (api_StatusCode response) +:+ ": "
              +:+ api_Body response) /\
    ((api_StatusCode response < 400)%Z ->
       tool_ReturnType tool = "string" \/ api_Data response = VNil ->
       text = api_Body response).
Proof.
  unfold convertResponseToMCPResult.
  destruct (400 <=? api_StatusCode response)%Z eqn:Hst.
  - eexists. split; [reflexivity|]. split; [done|]. intros Hlt.
    apply Z.leb_le in Hst. lia.
  - apply Z.leb_gt in Hst.
    assert (Hdata : exists text,
              dataOrBody response = {| Content_ := [TextContentVal text];
                                       IsError := false |} /\
              (api_Data response = VNil -> text = api_Body response)).
    { unfold dataOrBody. destruct (notNil (api_Data response)) eqn:Hnn.
      - destruct (json_MarshalIndent _); eexists; (split; [reflexivity|]);
          intros Hnil; rewrite Hnil in Hnn; done.
      - eexists. split; [reflexivity|done]. }
    destruct Hdata as (text & Hconv & Hnil).
    destruct (String.eqb (tool_ReturnType tool) "string") eqn:Hty.
    + eexists. split; [reflexivity|]. split; [lia|]. done.
    + exists text. split.
      * by destruct (_ || _).
      * split; [lia|]. intros _ [Hs|Hd]; [|by apply Hnil].
        apply String.eqb_eq in Hs. congruence.
Qed.

End Responses.

Lemma processResponse_classified_success_witness :
  processResponse (Some responseOK) getItem =
    OK {| api_StatusCode := 200;
          api_Headers := {[ "Content-Type" := "application/json" ]};
          api_Body := "{}"; api_Data := VObj ∅ |}.
Proof.
  rewrite (processResponse_classified_success responseOK getItem "{}");
    [vm_compute; reflexivity | reflexivity | reflexivity | discriminate].
Defined.

Lemma processResponse_faithful_witness :
  processResponse (Some responsePlain) postNote =
    OK {| api_StatusCode := 200; api_Headers := {[ "Content-Type" := "text/plain" ]};
          api_Body := "hello"; api_Data := VNil |} /\
  io_ReadAll (resp_Body responsePlain) = OK "hello".
Proof.
  assert (Hrun : processResponse (Some responsePlain) postNote =
                 OK {| api_StatusCode := 200;
                       api_Headers := {[ "Content-Type" := "text/plain" ]};
                       api_Body := "hello"; api_Data := VNil |})
    by (vm_compute; reflexivity).
  split; [exact Hrun|].
  exact (proj1 (proj2 (processResponse_faithful _ _ _ Hrun))).
Defined.

Lemma convertResponseToMCPResult_shape_witness :
  convertResponseToMCPResult
    {| api_StatusCode := 404; api_Headers := ∅; api_Body := "no such item";
       api_Data := VNil |} getItem =
  NewToolResultError "HTTP Error 404: no such item".
Proof.
  destruct (convertResponseToMCPResult_shape
              {| api_StatusCode := 404; api_Headers := ∅; api_Body := "no such item";
                 api_Data := VNil |} getItem) as (text & Hconv & Herr & _).
  rewrite Hconv, (Herr ltac:(simpl; lia)). reflexivity.
Defined.

Section Dispatcher.
Context `{rt : GoRuntime}.

Local Abbreviation GoMap := (option (gmap string (Value float64))).

(** X8. When the parameters validate and the execution ends in an
    outcome with a status below 400, the dispatcher writes a result
    whose [content] is the single text block of the mapped outcome, and
    the requests sent are those of the execution. *)
Theorem toolsCall_success h w req name (arguments arguments' : GoMap)
    tool response sent :
  toolsCall_decode req = Val (name, arguments) ->
  th_tools (jh_toolHandler h) !! name = Some tool ->
  validateParameters tool arguments = (arguments', OK tt) ->
  ExecuteRequest (th_upstream (jh_toolHandler h)) tool arguments' = (OK response, sent) ->
  (api_StatusCode response < 400)%Z ->
  exists text,
    convertResponseToMCPResult response tool = NewToolResultText text /\
    handleToolsCall h w req =
      (OK (writeSuccess w (rpc_ID req) (obj {[ "content" := VArr [textContent text] ]})),
       sent).
Proof.
  intros Hdec Htool Hvalid Hexec Hst.
  destruct (convertResponseToMCPResult_text response tool) as (text & Hconv).
  assert (Hflag : (400 <=? api_StatusCode response)%Z = false) by (apply Z.leb_gt; lia).
  rewrite Hflag in Hconv. exists text. split; [exact Hconv|].
  unfold handleToolsCall, ExecuteTool. rewrite Hdec, Htool, Hvalid, Hexec, Hconv. done.
Qed.

(** X9. A call of a tool that is not registered is answered with the
    JSON-RPC error -32000 "Tool execution error" naming the tool, and
    nothing is sent. *)
Theorem toolsCall_unknown_tool h w req name (arguments : GoMap) :
  toolsCall_decode req = Val (name, arguments) ->
  th_tools (jh_toolHandler h) !! name = None ->
  handleToolsCall h w req =
    (OK (writeError w (rpc_ID req) (-32000) "Tool execution error"
           (VStr ("Failed to execute tool '" +:+ name +:+ "': tool " +:+ name
                  +:+ " not found"))), []).
Proof.
  intros Hdec Htool. unfold handleToolsCall, ExecuteTool. by rewrite Hdec, Htool.
Qed.

Lemma ExecuteRequest_loop_sends upstream tool (params : GoMap) :
  forall n st,
    forall req, req ∈ (ExecuteRequest_loop n upstream tool params st).2 ->
      req ∈ ls_sent st \/ buildRequest tool params = OK req.
Proof.
  induction n as [|n IH]; intros st req Hin; [by left|].
  cbn [ExecuteRequest_loop] in Hin.
  destruct (buildRequest tool params) as [built|e|p] eqn:Hbuild; cbn [wrap] in Hin;
    [|by left ..].
  assert (Hone : forall r0, r0 ∈ ls_sent st ++ [built] ->
                   r0 ∈ ls_sent st \/ OK built = OK r0).
  { intros r0 Hr0. apply elem_of_app in Hr0 as [?|Hr0]; [by left|].
    apply list_elem_of_singleton in Hr0. subst. by right. }
  unfold ExecuteRequest_attempt in Hin.
  destruct (upstream (length (ls_sent st)) built) as [[resp|] [err|]]; simpl in Hin.
  - apply IH in Hin as [Hin|Hin]; [by apply Hone | by right].
  - destruct (isSuccessStatusCode _ _); simpl in Hin.
    + by apply Hone.
    + apply IH in Hin as [Hin|Hin]; [by apply Hone | by right].
  - apply IH in Hin as [Hin|Hin]; [by apply Hone | by right].
  - by apply Hone.
Qed.

(** X10. Nothing reaches the upstream but the request built for a
    registered tool from arguments that passed validation (defaults
    included): every request a [tools/call] sends is that request. *)
Theorem toolsCall_sends_only_validated h w req sent_req :
  sent_req ∈ (handleToolsCall h w req).2 ->
  exists name (arguments arguments' : GoMap) tool,
    toolsCall_decode req = Val (name, arguments) /\
    th_tools (jh_toolHandler h) !! name = Some tool /\
    validateParameters tool arguments = (arguments', OK tt) /\
    buildRequest tool arguments' = OK sent_req.
Proof.
  unfold handleToolsCall, ExecuteTool. intros Hin.
  destruct (toolsCall_decode req) as [[name arguments]|e];
    [|by apply elem_of_nil in Hin].
  destruct (th_tools (jh_toolHandler h) !! name) as [tool|] eqn:Htool;
    [|by apply elem_of_nil in Hin].
  destruct (validateParameters tool arguments) as [arguments' [[]|e|p]] eqn:Hvalid;
    [|by apply elem_of_nil in Hin ..].
  exists name, arguments, arguments', tool. repeat split; try done.
  assert (Hsent : sent_req ∈ (ExecuteRequest (th_upstream (jh_toolHandler h)) tool
                                arguments').2).
  { destruct (ExecuteRequest _ tool arguments') as [[response| |] sent]; simpl in *;
      [by destruct (IsError _) | done ..]. }
  clear Hin. unfold ExecuteRequest in Hsent.
  destruct (ExecuteRequest_loop _ _ _ _ _) as [res sent] eqn:Hloop.
  assert (Hin : sent_req ∈ sent).
  { destruct res as [st| |]; [by destruct (ls_lastErr st) | done ..]. }
  pose proof (ExecuteRequest_loop_sends (th_upstream (jh_toolHandler h)) tool arguments'
                (Z.to_nat (tool_Retries tool + 1))
                {| ls_resp := None; ls_lastErr := None; ls_sent := [] |} sent_req) as H.
  rewrite Hloop in H. destruct (H Hin) as [Hnil|Hbuilt]; [|done].
  by apply elem_of_nil in Hnil.
Qed.

(** How each method answers: with the request's id, and with which
    error codes. *)
Lemma handleToolsCall_answers h w req w' sent :
  handleToolsCall h w req = (OK w', sent) -> answers w req [-32602; -32000]%Z w'.
Proof.
  unfold handleToolsCall. intros H.
  destruct (toolsCall_decode req) as [[name arguments]|e].
  - destruct (ExecuteTool _ name arguments) as [[result| |] sent0].
    + destruct (IsError result); inversion H; subst.
      * right. eexists _, _, _. split; [done|]. by repeat constructor.
      * left. by eexists.
    + inversion H; subst. right. eexists _, _, _. split; [done|]. by repeat constructor.
    + inversion H.
  - inversion H; subst. right. eexists _, _, _. split; [done|]. by repeat constructor.
Qed.

Lemma dispatch_answers h w req w' sent :
  dispatch h w req = (OK w', sent) ->
  (rpc_Method req ∈ knownMethods /\ answers w req [-32602; -32000]%Z w') \/
  ((rpc_Method req ∉ knownMethods) /\
   w' = writeError w (rpc_ID req) (-32601) "Method not found"
          (VStr ("Unknown method: " +:+ rpc_Method req))).
Proof.
  unfold dispatch, knownMethods. intros H.
  repeat match type of H with
         | (if String.eqb ?m ?s then _ else _) = _ =>
             let E := fresh "E" in
             destruct (String.eqb m s) eqn:E;
             [apply String.eqb_eq in E | apply String.eqb_neq in E]
         end.
  all: try (left; split;
            [match goal with
             | Heq : rpc_Method _ = _ |- _ => rewrite Heq; by repeat constructor
             end|]).
  all: try (by eapply handleToolsCall_answers).
  all: try (inversion H; subst; left; by eexists).
  - inversion H; subst. unfold handlePromptsGet.
    destruct (if notNil (rpc_Params req) then _ else _) as [name arguments].
    destruct (find _ _); [left; by eexists|].
    right. eexists _, _, _. split; [done|]. by repeat constructor.
  - inversion H; subst. unfold handleResourcesRead.
    destruct (find _ _); [left; by eexists|].
    right. eexists _, _, _. split; [done|]. by repeat constructor.
  - right. split; [|by inversion H]. intros Hin.
    repeat (apply elem_of_cons in Hin as [?|Hin]; [congruence|]).
    by apply elem_of_nil in Hin.
Qed.

(** X11. Every envelope the routing writes echoes the id of the
    request and the protocol marker "2.0", for every method name,
    known or not. *)
Theorem dispatch_echoes_id h w req w' sent :
  fresh w ->
  dispatch h w req = (OK w', sent) ->
  exists response,
    w_Body w' = [response] /\
    rsp_ID response = rpc_ID req /\ rsp_JSONRPC response = "2.0".
Proof.
  intros Hfresh Hrun.
  destruct (dispatch_answers _ _ _ _ _ Hrun)
    as [[_ [(m & ->)|(code & message & data & -> & _)]]|[_ ->]].
  - destruct (writeSuccess_fresh w (rpc_ID req) (obj m) Hfresh) as [_ Hb].
    eexists. split; [exact Hb|done].
  - destruct (writeError_fresh w (rpc_ID req) code message data Hfresh) as [_ Hb].
    eexists. split; [exact Hb|done].
  - destruct (writeError_fresh w (rpc_ID req) (-32601) "Method not found"
                (VStr ("Unknown method: " +:+ rpc_Method req)) Hfresh) as [_ Hb].
    eexists. split; [exact Hb|done].
Qed.

(** X12. The code -32601 is the answer to exactly the unknown method
    names: a routed method answers with a result or with the code
    -32602 or -32000, an unrouted one with "Method not found" and the
    name in the data. *)
Theorem dispatch_method_not_found h w req w' sent :
  fresh w ->
  dispatch h w req = (OK w', sent) ->
  ((exists response, response ∈ w_Body w' /\ isErrorEnvelope response (-32601))
     <-> rpc_Method req ∉ knownMethods) /\
  (rpc_Method req ∉ knownMethods ->
     w' = writeError w (rpc_ID req) (-32601) "Method not found"
            (VStr ("Unknown method: " +:+ rpc_Method req)) /\ sent = []).
Proof.
  intros Hfresh Hrun.
  assert (Hcode : forall code message data response,
            response ∈ w_Body (writeError w (rpc_ID req) code message data) ->
            isErrorEnvelope response (-32601) -> code = (-32601)%Z).
  { intros code message data response Hin (_ & e & He & Hc).
    destruct (writeError_fresh w (rpc_ID req) code message data Hfresh) as [_ Hb].
    rewrite Hb in Hin. apply list_elem_of_singleton in Hin. subst response.
    simpl in He. by inversion He; subst. }
  destruct (dispatch_answers _ _ _ _ _ Hrun)
    as [[Hknown [(m & ->)|(code & message & data & -> & Hcodes)]]|[Hunknown ->]].
  - split; [|done]. split; [|done]. intros (response & Hin & (_ & e & He & _)).
    destruct (writeSuccess_fresh w (rpc_ID req) (obj m) Hfresh) as [_ Hb].
    rewrite Hb in Hin. apply list_elem_of_singleton in Hin. by subst response.
  - split; [|done]. split; [|done]. intros (response & Hin & Henv).
    rewrite (Hcode _ _ _ _ Hin Henv) in Hcodes.
    repeat (apply elem_of_cons in Hcodes as [?|Hcodes]; [done|]).
    by apply elem_of_nil in Hcodes.
  - split.
    + split; [done|]. intros _.
      destruct (writeError_body w (rpc_ID req) (-32601) "Method not found"
                  (VStr ("Unknown method: " +:+ rpc_Method req)))
        as (response & Hb & Henv).
      exists response. split; [|done]. rewrite Hb.
      destruct Hfresh as [_ ->]. by left.
    + intros _. split; [done|].
      unfold dispatch in Hrun.
      repeat match type of Hrun with
             | (if String.eqb ?m ?s then _ else _) = _ =>
                 let E := fresh "E" in
                 destruct (String.eqb m s) eqn:E;
                 [apply String.eqb_eq in E; exfalso; apply Hunknown;
                  rewrite E; unfold knownMethods; by repeat constructor |]
             end.
      by inversion Hrun.
Qed.

(** X13. The dispatcher sends upstream only for a POST whose body
    decodes to a [tools/call]: for any other verb, an undecodable body
    or any other method name, nothing is sent. *)
Theorem ServeHTTP_sends_only_for_tools_call h w r :
  (http_Method r <> "POST" \/
   forall jsonrpc id params,
     json_DecodeRequest (http_Body r) <> Val (jsonrpc, id, "tools/call", params)) ->
  (ServeHTTP h w r).2 = [].
Proof.
  unfold ServeHTTP. intros Hother.
  destruct (String.eqb (http_Method r) "OPTIONS"); [done|].
  destruct (String.eqb (http_Method r) "POST") eqn:Hpost; [|done].
  apply String.eqb_eq in Hpost. destruct Hother as [Hverb|Hbody]; [done|].
  simpl.
  destruct (json_DecodeRequest (http_Body r)) as [[[[jsonrpc id] method] params]|e];
    [|done].
  unfold dispatch. cbn [rpc_Method].
  repeat match goal with
         | |- context [if String.eqb method ?s then _ else _] =>
             let E := fresh "E" in
             destruct (String.eqb method s) eqn:E; try done
         end.
  apply String.eqb_eq in E2. subst method. by destruct (Hbody jsonrpc id params).
Qed.

End Dispatcher.

Lemma toolsCall_success_witness :
  exists text,
    convertResponseToMCPResult apiOK getItem = NewToolResultText text /\
    handleToolsCall (handlerOver healthy) newResponseWriter (callTool "get_item" idArgs) =
      (OK (writeSuccess newResponseWriter (VInt 1)
             (obj {[ "content" := VArr [textContent text] ]})),
       [getItemRequest]).
Proof.
  apply (toolsCall_success (handlerOver healthy) newResponseWriter
           (callTool "get_item" idArgs) "get_item" (Some idArgs) (Some idArgs)
           getItem apiOK [getItemRequest]);
    [reflexivity | reflexivity | reflexivity | vm_compute; reflexivity | simpl; lia].
Defined.

Lemma toolsCall_unknown_tool_witness :
  handleToolsCall (handlerOver healthy) newResponseWriter (callTool "get_user" ∅) =
    (OK (writeError newResponseWriter (VInt 1) (-32000) "Tool execution error"
           (VStr "Failed to execute tool 'get_user': tool get_user not found")), []).
Proof.
  apply (toolsCall_unknown_tool (handlerOver healthy) newResponseWriter
           (callTool "get_user" ∅) "get_user" (Some ∅)); reflexivity.
Defined.

Lemma toolsCall_sends_only_validated_witness :
  (handleToolsCall (handlerOver healthy) newResponseWriter
     (callTool "get_item" idArgs)).2 = [getItemRequest] /\
  exists name (arguments arguments' : option (gmap string (Value Z))) tool,
    toolsCall_decode (callTool "get_item" idArgs) = Val (name, arguments) /\
    th_tools (jh_toolHandler (handlerOver healthy)) !! name = Some tool /\
    validateParameters tool arguments = (arguments', OK tt) /\
    buildRequest tool arguments' = OK getItemRequest.
Proof.
  assert (Hsent : (handleToolsCall (handlerOver healthy) newResponseWriter
                     (callTool "get_item" idArgs)).2 = [getItemRequest])
    by (vm_compute; reflexivity).
  split; [exact Hsent|].
  apply (toolsCall_sends_only_validated (handlerOver healthy) newResponseWriter
           (callTool "get_item" idArgs) getItemRequest).
  rewrite Hsent. by left.
Defined.

Lemma dispatch_echoes_id_witness :
  fresh newResponseWriter /\
  exists response,
    w_Body (handlePing newResponseWriter pingRequest) = [response] /\
    rsp_ID response = VStr "abc" /\ rsp_JSONRPC response = "2.0".
Proof.
  assert (Hfresh : fresh newResponseWriter) by (split; reflexivity).
  split; [exact Hfresh|].
  exact (dispatch_echoes_id (handlerOver healthy) newResponseWriter pingRequest
           (handlePing newResponseWriter pingRequest) [] Hfresh eq_refl).
Defined.

Lemma dispatch_method_not_found_witness :
  (rpc_Method unroutedRequest ∉ knownMethods) /\
  exists response,
    response ∈ w_Body (writeError newResponseWriter (VInt 7) (-32601) "Method not found"
                         (VStr "Unknown method: tools/run")) /\
    isErrorEnvelope response (-32601).
Proof.
  assert (Hunknown : rpc_Method unroutedRequest ∉ knownMethods).
  { intros Hin.
    repeat (apply elem_of_cons in Hin as [Heq|Hin]; [discriminate Heq|]).
    by apply elem_of_nil in Hin. }
  split; [exact Hunknown|].
  destruct (dispatch_method_not_found (handlerOver healthy) newResponseWriter
              unroutedRequest
              (writeError newResponseWriter (VInt 7) (-32601) "Method not found"
                 (VStr "Unknown method: tools/run")) [])
    as [Hiff _]; [split; reflexivity | reflexivity |].
  apply Hiff. exact Hunknown.
Defined.

Lemma ServeHTTP_sends_only_for_tools_call_witness :
  (ServeHTTP (handlerOver healthy) newResponseWriter
     {| http_Method := "PUT"; http_Body := "" |}).2 = [].
Proof.
  apply (ServeHTTP_sends_only_for_tools_call (handlerOver healthy) newResponseWriter
           {| http_Method := "PUT"; http_Body := "" |}).
  left. discriminate.
Defined.

Section Validation.
Context `{rt : GoRuntime}.

Local Abbreviation value := (Value float64).
Local Abbreviation GoMap := (option (gmap string (Value float64))).

Lemma validateParameters_range_default (params : list ParameterConfig) :
  NoDup (param_Name <$> params) ->
  forall (arguments arguments' : GoMap) param,
    validateParameters_range params arguments = (arguments', OK tt) ->
    param ∈ params ->
    mget arguments (param_Name param) = None ->
    param_Required param = false ->
    notNil (param_Default param) = true ->
    mget arguments' (param_Name param) = Some (param_Default param).
Proof.
  induction params as [|param0 rest IH];
    intros Hnd arguments arguments' param Hrun Hin Habsent Hopt Hdef.
  - by apply elem_of_nil in Hin.
  - rewrite fmap_cons in Hnd. apply NoDup_cons in Hnd as [Hfresh Hnd].
    cbn [validateParameters_range] in Hrun.
    apply elem_of_cons in Hin as [->|Hin].
    + rewrite Habsent, Hopt, Hdef in Hrun.
      destruct arguments as [g|]; cbn [mset] in Hrun; [|by inversion Hrun].
      eapply validateParameters_range_keeps; [exact Hrun|].
      simpl. apply lookup_insert_eq.
    + assert (Hne : param_Name param0 <> param_Name param).
      { intros Heq. apply Hfresh. rewrite Heq. apply list_elem_of_fmap. eauto. }
      destruct (mget arguments (param_Name param0)) as [present|] eqn:Hget.
      * destruct (validateParameterValue param0 present) as [[]| |];
          [by eapply IH | inversion Hrun ..].
      * destruct (param_Required param0); [inversion Hrun|].
        destruct (notNil (param_Default param0)); [|by eapply IH].
        destruct arguments as [g|]; cbn [mset] in Hrun; [|by inversion Hrun].
        eapply (IH Hnd _ _ param Hrun); try done.
        by rewrite mget_mset_ne.
Qed.

(** X14. With distinct parameter names, after a successful validation
    every optional parameter that was absent and has a non-nil default
    is in the argument map with that default, so that templates and
    the default body see it. *)
Theorem validateParameters_defaults_visible tool (arguments arguments' : GoMap) param :
  NoDup (param_Name <$> tool_Parameters tool) ->
  validateParameters tool arguments = (arguments', OK tt) ->
  param ∈ tool_Parameters tool ->
  mget arguments (param_Name param) = None ->
  param_Required param = false ->
  notNil (param_Default param) = true ->
  mget arguments' (param_Name param) = Some (param_Default param).
Proof. intros Hnd Hrun. by eapply validateParameters_range_default. Qed.

Lemma validateParameters_range_required (params : list ParameterConfig) :
  forall (arguments arguments' : GoMap) param,
    validateParameters_range params arguments = (arguments', OK tt) ->
    param ∈ params -> param_Required param = true ->
    exists v, mget arguments' (param_Name param) = Some v.
Proof.
  induction params as [|param0 rest IH]; intros arguments arguments' param Hrun Hin Hreq.
  - by apply elem_of_nil in Hin.
  - cbn [validateParameters_range] in Hrun.
    destruct (mget arguments (param_Name param0)) as [present|] eqn:Hget.
    + destruct (validateParameterValue param0 present) as [[]| |];
        [|inversion Hrun ..].
      apply elem_of_cons in Hin as [->|Hin]; [|by eapply IH].
      exists present. by eapply validateParameters_range_keeps.
    + apply elem_of_cons in Hin as [->|Hin].
      * rewrite Hreq in Hrun. inversion Hrun.
      * destruct (param_Required param0); [inversion Hrun|].
        destruct (notNil (param_Default param0)); [|by eapply IH].
        destruct arguments as [g|]; cbn [mset] in Hrun; [|by inversion Hrun].
        by eapply IH.
Qed.

(** X15. After a successful validation the argument map holds a value
    for every required parameter, and every value the caller supplied
    for a declared parameter has passed that parameter's checks. *)
Theorem validateParameters_accepts tool (arguments arguments' : GoMap) :
  validateParameters tool arguments = (arguments', OK tt) ->
  (forall param, param ∈ tool_Parameters tool -> param_Required param = true ->
     exists v, mget arguments' (param_Name param) = Some v) /\
  (forall param v, param ∈ tool_Parameters tool ->
     mget arguments (param_Name param) = Some v ->
     validateParameterValue param v = OK tt).
Proof.
  intros Hrun. split.
  - intros param Hin Hreq. by eapply validateParameters_range_required.
  - intros param v Hin Hv. by eapply validateParameters_range_accepts.
Qed.

(** X16. A value accepted for a [string] parameter is a string within
    the configured length bounds, matching the configured pattern and
    listed in the configured enum. *)
Theorem validateParameterValue_string param (v : value) :
  param_Type param = "string" ->
  validateParameterValue param v = OK tt ->
  exists str, v = VStr str /\
    forall pv, param_Validation param = Some pv ->
      (forall n, MinLength pv = Some n -> (n <= Z.of_nat (String.length str))%Z) /\
      (forall n, MaxLength pv = Some n -> (Z.of_nat (String.length str) <= n)%Z) /\
      (forall pat, Pattern pv = Some pat -> regexp_MatchString pat str = Val true) /\
      (Enum pv <> [] -> str ∈ Enum pv).
Proof.
  intros Hty Hok. unfold validateParameterValue in Hok. rewrite Hty in Hok.
  simpl in Hok. destruct v as [| | | |str| |]; try done.
  exists str. split; [done|]. intros pv Hpv. rewrite Hpv in Hok.
  unfold validateString in Hok.
  apply bind_OK in Hok as ([] & Hmin & Hok).
  apply bind_OK in Hok as ([] & Hmax & Hok).
  apply bind_OK in Hok as ([] & Hpat & Henum).
  repeat split.
  - intros n Hn. rewrite Hn in Hmin. unfold failIf in Hmin.
    destruct (Z.ltb_spec (Z.of_nat (String.length str)) n); [done|lia].
  - intros n Hn. rewrite Hn in Hmax. unfold failIf in Hmax.
    destruct (Z.ltb_spec n (Z.of_nat (String.length str))); [done|lia].
  - intros pat Hp. rewrite Hp in Hpat.
    apply bind_OK in Hpat as (matched & Hm & Hpat). apply wrap_OK, call_OK in Hm.
    by destruct matched.
  - intros Hne. destruct (Enum pv) as [|e es] eqn:He; [done|].
    unfold failIf in Henum.
    destruct (existsb (String.eqb str) (e :: es)) eqn:Hex; [|done].
    apply existsb_exists in Hex as (x & Hx & Heq).
    apply String.eqb_eq in Heq. subst x. by apply list_elem_of_In.
Qed.

(** X17. A value accepted for a [number] parameter is a float, an int
    or a string that parses as a float, and the number it denotes is
    not below the configured minimum nor above the configured
    maximum. *)
Theorem validateParameterValue_number param (v : value) :
  param_Type param = "number" ->
  validateParameterValue param v = OK tt ->
  exists num,
    (v = VFloat num \/
     (exists z, v = VInt z /\ num = float64_of_int z) \/
     (exists s, v = VStr s /\ strconv_ParseFloat s = Val num)) /\
    forall pv, param_Validation param = Some pv ->
      (forall lo, MinValue pv = Some lo -> float64_lt num lo = false) /\
      (forall hi, MaxValue pv = Some hi -> float64_lt hi num = false).
Proof.
  intros Hty Hok. unfold validateParameterValue in Hok. rewrite Hty in Hok.
  simpl in Hok. apply bind_OK in Hok as (num & Hnum & Hok).
  exists num. split.
  - destruct v as [| |f|z|s| |]; try done.
    + left. by inversion Hnum.
    + right. left. exists z. by inversion Hnum.
    + right. right. exists s. split; [done|]. by apply wrap_OK, call_OK in Hnum.
  - intros pv Hpv. rewrite Hpv in Hok. unfold validateNumber in Hok.
    apply bind_OK in Hok as ([] & Hmin & Hmax). split.
    + intros lo Hlo. rewrite Hlo in Hmin. by destruct (float64_lt num lo).
    + intros hi Hhi. rewrite Hhi in Hmax. by destruct (float64_lt hi num).
Qed.

(** X18. For the other declared types acceptance is a test of the
    dynamic type alone, and a type name outside the five accepts every
    value, nil included. *)
Theorem validateParameterValue_kinds param (v : value) :
  (param_Type param = "boolean" ->
     (validateParameterValue param v = OK tt <-> exists b, v = VBool b)) /\
  (param_Type param = "object" ->
     (validateParameterValue param v = OK tt <-> exists m, v = VObj m)) /\
  (param_Type param = "array" ->
     (validateParameterValue param v = OK tt <-> exists l, v = VArr l)) /\
  (param_Type param ∉ ["string"; "number"; "boolean"; "object"; "array"] ->
     validateParameterValue param v = OK tt).
Proof.
  unfold validateParameterValue. split; [|split; [|split]].
  1-3: intros Hty; rewrite Hty; simpl; destruct v; split; try done;
       try (by eexists); try (by intros [? ?]).
  intros Hnot.
  repeat match goal with
         | |- context [String.eqb (param_Type param) ?s] =>
             let E := fresh "E" in
             destruct (String.eqb (param_Type param) s) eqn:E;
             [apply String.eqb_eq in E; exfalso; apply Hnot; rewrite E;
              by repeat constructor |]
         end.
  done.
Qed.


(** X20. The validator's [ValidateHTTPStatusCode] accepts a status for
    a list of expected codes exactly when the executor classifies it as
    successful under a validation block with that allow-list: any 2xx
    for the empty list, membership otherwise. *)
Theorem ValidateHTTPStatusCode_agrees (statusCode : Z) (validation : ValidationConfig) :
  isOK (ValidateHTTPStatusCode statusCode (val_StatusCodes validation))
    = isSuccessStatusCode statusCode (Some validation) /\
  isOK (ValidateHTTPStatusCode statusCode []) = isSuccessStatusCode statusCode None.
Proof.
  unfold ValidateHTTPStatusCode, isSuccessStatusCode. split.
  - destruct (val_StatusCodes validation) as [|c cs].
    + by destruct (_ && _).
    + by destruct (existsb _ _).
  - by destruct (_ && _).
Qed.

End Validation.

Lemma validateParameters_defaults_visible_witness :
  validateParameters postOrder (Some countArgs) =
    (Some (<["unit" := VStr "kg"]> countArgs), OK tt) /\
  mget (Some (<["unit" := VStr "kg"]> countArgs)) "unit" = Some (VStr "kg").
Proof.
  assert (Hrun : validateParameters postOrder (Some countArgs) =
                 (Some (<["unit" := VStr "kg"]> countArgs), OK tt))
    by (vm_compute; reflexivity).
  split; [exact Hrun|].
  apply (validateParameters_defaults_visible postOrder (Some countArgs) _ unitParam);
    [ | exact Hrun | by right; left | reflexivity | reflexivity | reflexivity].
  apply NoDup_cons. split; [|apply NoDup_singleton].
  intros Hin. apply list_elem_of_singleton in Hin. discriminate Hin.
Defined.

Lemma validateParameters_accepts_witness :
  validateParameters postOrder (Some countArgs) =
    (Some (<["unit" := VStr "kg"]> countArgs), OK tt) /\
  (exists v, mget (Some (<["unit" := VStr "kg"]> countArgs)) "count" = Some v) /\
  validateParameterValue countParam (VStr "3") = OK tt.
Proof.
  assert (Hrun : validateParameters postOrder (Some countArgs) =
                 (Some (<["unit" := VStr "kg"]> countArgs), OK tt))
    by (vm_compute; reflexivity).
  split; [exact Hrun|].
  destruct (validateParameters_accepts postOrder _ _ Hrun) as [Hreq Hacc].
  split.
  - apply (Hreq countParam); [by left | reflexivity].
  - apply (Hacc countParam (VStr "3")); [by left | reflexivity].
Defined.

(** A string parameter with length bounds and an enum, and a number
    parameter with bounds. *)
Lemma validateParameterValue_string_witness :
  validateParameterValue sizeParam (VStr "medium") = OK tt /\
  exists str, (VStr "medium" : Value Z) = VStr str /\
              str ∈ ["small"; "medium"; "large"].
Proof.
  assert (Hok : validateParameterValue sizeParam (VStr "medium") = OK tt)
    by (vm_compute; reflexivity).
  split; [exact Hok|].
  destruct (validateParameterValue_string sizeParam (VStr "medium") eq_refl Hok)
    as (str & Hstr & Hpv).
  exists str. split; [exact Hstr|].
  apply (Hpv _ eq_refl). discriminate.
Defined.

Lemma validateParameterValue_number_witness :
  validateParameterValue limitParam (VStr "7") = OK tt /\
  exists num : Z, (1 <=? num)%Z = true /\ (num <=? 10)%Z = true.
Proof.
  assert (Hok : validateParameterValue limitParam (VStr "7") = OK tt)
    by (vm_compute; reflexivity).
  split; [exact Hok|].
  destruct (validateParameterValue_number limitParam (VStr "7") eq_refl Hok)
    as (num & _ & Hpv).
  destruct (Hpv _ eq_refl) as [Hlo Hhi].
  exists num. split.
  - pose proof (Hlo 1%Z eq_refl) as H. simpl in H. apply Z.ltb_ge in H.
    by apply Z.leb_le.
  - pose proof (Hhi 10%Z eq_refl) as H. simpl in H. apply Z.ltb_ge in H.
    by apply Z.leb_le.
Defined.

Lemma validateParameterValue_kinds_witness :
  validateParameterValue flagParam (VBool true) = OK tt /\
  validateParameterValue flagParam (VStr "true")
    = Err "expected boolean, got string".
Proof.
  destruct (validateParameterValue_kinds flagParam (VBool true)) as [Hbool _].
  split; [|reflexivity].
  apply (Hbool eq_refl). by exists true.
Defined.


Section Builder.
Context `{rt : GoRuntime}.

Local Abbreviation GoMap := (option (gmap string (Value float64))).

(** The stages of a successful build: the request line, the default
    headers, the configured headers, the authentication. *)
Lemma buildRequest_stages tool (params : GoMap) req :
  buildRequest tool params = OK req ->
  exists u body reqH,
    let method := if String.eqb (strings_ToUpper (tool_Method tool)) "" then "GET"
                  else strings_ToUpper (tool_Method tool) in
    let req0 := {| req_Method := method; req_URL := u; req_Body := body;
                   req_Header := ∅ |} in
    let req1 := if negb (String.eqb (tool_ContentType tool) "")
                   && bool_decide (is_Some body)
                then header_Set req0 "Content-Type" (tool_ContentType tool)
                else req0 in
    let req2 := header_Set (header_Set req1 "User-Agent" "MCP-Server/1.0.0")
                  "Accept" "application/json, text/plain, */*" in
    http_validMethod method = true /\
    buildRequest_body tool params = OK body /\
    buildRequest_headers (range_map (tool_Headers tool)) params req2 = OK reqH /\
    match tool_Auth tool with
    | Some auth => applyAuthentication reqH auth = OK req
    | None => req = reqH
    end.
Proof.
  unfold buildRequest. intros H.
  apply bind_OK in H as (parsedURL & _ & H).
  apply bind_OK in H as (query & _ & H).
  apply bind_OK in H as (body & Hbody & H).
  apply bind_OK in H as (req0 & Hnew & H).
  apply bind_OK in H as (reqH & Hhdr & H).
  apply wrap_OK in Hnew. unfold http_NewRequestWithContext in Hnew.
  destruct (http_validMethod _) eqn:Hvalid; [|done]. simpl in Hnew.
  apply bind_OK in Hnew as (u & _ & Hnew). inversion Hnew; subst req0; clear Hnew.
  exists u, body, reqH. cbn zeta. split; [done|]. split; [done|]. split; [done|].
  destruct (tool_Auth tool); [by apply wrap_OK in H | by inversion H].
Qed.

(** X21. Authentication is applied last: in a built request of a tool
    with bearer authentication the Authorization header is the bearer
    token, taken from the environment variable when that is set and
    not empty and from the configuration otherwise, whatever the
    configured headers are; with basic authentication it is the
    encoded name and password. *)
Theorem buildRequest_authorization tool (params : GoMap) req auth :
  buildRequest tool params = OK req ->
  tool_Auth tool = Some auth ->
  (auth_Type auth = "bearer" ->
     envOverride auth (auth_Token auth) <> "" /\
     req_Header req !! http_CanonicalHeaderKey "Authorization"
       = Some ["Bearer " +:+ envOverride auth (auth_Token auth)]) /\
  (auth_Type auth = "basic" ->
     auth_Username auth <> "" /\ envOverride auth (auth_Password auth) <> "" /\
     req_Header req !! http_CanonicalHeaderKey "Authorization"
       = Some ["Basic " +:+ base64_EncodeToString
                 (auth_Username auth +:+ ":" +:+ envOverride auth (auth_Password auth))]).
Proof.
  intros Hbuild Hauth.
  apply buildRequest_stages in Hbuild as (u & body & reqH & _ & _ & _ & Hfin).
  rewrite Hauth in Hfin. unfold applyAuthentication in Hfin. split.
  - intros Hty. rewrite Hty in Hfin. simpl in Hfin.
    destruct (String.eqb (envOverride auth (auth_Token auth)) "") eqn:Htok; [done|].
    apply String.eqb_neq in Htok. split; [done|].
    inversion Hfin; subst req. simpl. apply lookup_insert_eq.
  - intros Hty. rewrite Hty in Hfin. simpl in Hfin.
    destruct (String.eqb (auth_Username auth) "") eqn:Hu; [done|].
    destruct (String.eqb (envOverride auth (auth_Password auth)) "") eqn:Hp; [done|].
    apply String.eqb_neq in Hu, Hp. split; [done|]. split; [done|].
    inversion Hfin; subst req. simpl. apply lookup_insert_eq.
Qed.

Lemma buildRequest_headers_other entries (params : GoMap) (c : string) :
  (forall key tmpl, (key, tmpl) ∈ entries -> http_CanonicalHeaderKey key <> c) ->
  forall r r', buildRequest_headers entries params r = OK r' ->
    req_Header r' !! c = req_Header r !! c.
Proof.
  induction entries as [|[key tmpl] rest IH]; intros Hother r r' H.
  - by inversion H.
  - simpl in H. apply bind_OK in H as (expanded & _ & H).
    rewrite (IH ltac:(intros k t Hin; eapply Hother; by right) _ _ H).
    simpl. apply lookup_insert_ne. eapply Hother. by left.
Qed.

Lemma buildRequest_headers_set entries (params : GoMap) key tmpl :
  NoDup entries.*1 ->
  (key, tmpl) ∈ entries ->
  (forall key' tmpl', (key', tmpl') ∈ entries ->
     http_CanonicalHeaderKey key' = http_CanonicalHeaderKey key -> key' = key) ->
  forall r r', buildRequest_headers entries params r = OK r' ->
    exists expanded, expandTemplate tmpl params = OK expanded /\
                     req_Header r' !! http_CanonicalHeaderKey key = Some [expanded].
Proof.
  induction entries as [|[key0 tmpl0] rest IH]; intros Hnd Hin Hinj r r' H.
  - by apply elem_of_nil in Hin.
  - simpl in H. apply bind_OK in H as (expanded0 & Hexp & H). apply wrap_OK in Hexp.
    simpl in Hnd. apply NoDup_cons in Hnd as [Hfresh Hnd].
    apply elem_of_cons in Hin as [Heq|Hin].
    + inversion Heq; subst key0 tmpl0. exists expanded0. split; [done|].
      rewrite (buildRequest_headers_other rest params _) with (r := header_Set r key expanded0)
        by (first [ intros k t Hk Hc; apply Hfresh;
                    rewrite <- (Hinj k t ltac:(by right) Hc);
                    apply list_elem_of_fmap; by exists (k, t)
                  | done ]).
      simpl. apply lookup_insert_eq.
    + apply (IH Hnd Hin) with (r := header_Set r key0 expanded0); [|done].
      intros k t Hk. apply (Hinj k t). by right.
Qed.

(** X22. Configured headers are applied after the defaults and so
    override them: without authentication, a configured header whose
    canonical name no other configured header shares is in the built
    request with its expanded template as only value, also when it is
    User-Agent, Accept or Content-Type; and the default Accept header
    is there when no configured header bears that name. *)
Theorem buildRequest_configured_headers tool (params : GoMap) req :
  buildRequest tool params = OK req ->
  tool_Auth tool = None ->
  (forall key tmpl,
     tool_Headers tool !! key = Some tmpl ->
     (forall key', is_Some (tool_Headers tool !! key') ->
        http_CanonicalHeaderKey key' = http_CanonicalHeaderKey key -> key' = key) ->
     exists expanded, expandTemplate tmpl params = OK expanded /\
                      req_Header req !! http_CanonicalHeaderKey key = Some [expanded]) /\
  ((forall key', is_Some (tool_Headers tool !! key') ->
      http_CanonicalHeaderKey key' <> http_CanonicalHeaderKey "Accept") ->
   req_Header req !! http_CanonicalHeaderKey "Accept"
     = Some ["application/json, text/plain, */*"]).
Proof.
  intros Hbuild Hauth.
  apply buildRequest_stages in Hbuild as (u & body & reqH & _ & _ & Hhdr & Hfin).
  rewrite Hauth in Hfin. subst reqH. cbn zeta in Hhdr. split.
  - intros key tmpl Hkey Hinj.
    eapply buildRequest_headers_set; [apply range_map_NoDup | | | exact Hhdr].
    + by apply range_map_elem.
    + intros key' tmpl' Hin. apply Hinj. apply range_map_elem in Hin. by eexists.
  - intros Hnone.
    rewrite (buildRequest_headers_other _ params _) with (r' := req) (r := header_Set _ "Accept" "application/json, text/plain, */*")
      by (first [ intros k t Hk; apply Hnone; apply range_map_elem in Hk; by eexists
                | exact Hhdr ]).
    simpl. apply lookup_insert_eq.
Qed.

(** X23. The method of a built request is the upper-cased configured
    method, a valid token, and GET when none is configured.  The body
    rule however tests the configured method: a tool without method
    and without body template, called with arguments, is sent as a GET
    carrying the JSON encoding of the arguments. *)
Theorem buildRequest_method tool (params : GoMap) req :
  buildRequest tool params = OK req ->
  req_Method req = (if String.eqb (strings_ToUpper (tool_Method tool)) "" then "GET"
                    else strings_ToUpper (tool_Method tool)) /\
  http_validMethod (req_Method req) = true /\
  (tool_Method tool = "" -> tool_BodyTemplate tool = "" -> (0 < mlen params)%nat ->
     req_Method req = "GET" /\
     exists jsonBody, json_Marshal params = Val jsonBody /\
                      req_Body req = Some jsonBody).
Proof.
  intros Hbuild.
  pose proof Hbuild as Hstages.
  apply buildRequest_stages in Hstages as (u & body & reqH & Hvalid & Hbody & Hhdr & Hfin).
  cbn zeta in *.
  assert (Hline : sameLine
            {| req_Method := if String.eqb (strings_ToUpper (tool_Method tool)) ""
                             then "GET" else strings_ToUpper (tool_Method tool);
               req_URL := u; req_Body := body; req_Header := ∅ |} req).
  { eapply sameLine_trans; [|eapply sameLine_trans].
    - instantiate (1 := header_Set (header_Set _ "User-Agent" "MCP-Server/1.0.0")
                          "Accept" "application/json, text/plain, */*").
      instantiate (1 := if negb (String.eqb (tool_ContentType tool) "")
                           && bool_decide (is_Some body)
                        then header_Set _ "Content-Type" (tool_ContentType tool)
                        else _).
      by destruct (negb _ && _).
    - by eapply buildRequest_headers_sameLine.
    - destruct (tool_Auth tool) as [auth|].
      + by eapply applyAuthentication_sameLine.
      + subst. apply sameLine_refl. }
  destruct Hline as (Hm & _ & Hb). simpl in Hm, Hb.
  split; [done|]. split; [by rewrite <- Hm|].
  intros Hnone Htmpl Hlen. split; [by rewrite <- Hm, Hnone|].
  destruct (buildRequest_body_OK tool params body Hbody) as (_ & Hjson & _).
  rewrite <- Hb. apply Hjson; [done| |done].
  unfold isGET. by rewrite Hnone.
Qed.

End Builder.

Section Loading.
Context `{rt : GoRuntime}.

Local Abbreviation GoMap := (option (gmap string (Value float64))).

Lemma default_string_idem (s d : string) :
  d <> "" ->
  (if String.eqb (if String.eqb s "" then d else s) "" then d
   else (if String.eqb s "" then d else s)) = (if String.eqb s "" then d else s).
Proof.
  intros Hd. destruct (String.eqb s "") eqn:Hs.
  - apply String.eqb_neq in Hd. by rewrite Hd.
  - by rewrite Hs.
Qed.

Lemma default_Z_idem (z d : Z) :
  d <> 0%Z ->
  (if ((if (z =? 0)%Z then d else z) =? 0)%Z then d else (if (z =? 0)%Z then d else z))
    = (if (z =? 0)%Z then d else z).
Proof.
  intros Hd. destruct (Z.eqb_spec z 0).
  - by destruct (Z.eqb_spec d 0).
  - by destruct (Z.eqb_spec z 0).
Qed.

Lemma setDefaults_param_idem param :
  setDefaults_param (setDefaults_param param) = setDefaults_param param.
Proof.
  unfold setDefaults_param. simpl. f_equal. by apply default_string_idem.
Qed.

Lemma setDefaults_tool_idem tool :
  setDefaults_tool (setDefaults_tool tool) = setDefaults_tool tool.
Proof.
  unfold setDefaults_tool. cbn [tool_Name tool_Description tool_Endpoint tool_Method
    tool_Headers tool_QueryParams tool_BodyTemplate tool_ContentType tool_Parameters
    tool_ReturnType tool_Timeout tool_Retries tool_Auth tool_Validation].
  rewrite (default_string_idem (tool_Method tool) "GET") by done.
  rewrite (default_Z_idem (tool_Timeout tool)) by done.
  rewrite (default_Z_idem (tool_Retries tool)) by done.
  f_equal.
  - set (method := if String.eqb (tool_Method tool) "" then "GET" else tool_Method tool).
    destruct (String.eqb (tool_ContentType tool) "") eqn:Hct; simpl.
    + destruct (String.eqb method "POST" || String.eqb method "PUT"
                || String.eqb method "PATCH") eqn:Hm; simpl; [done|].
      by rewrite Hct.
    + by rewrite Hct.
  - rewrite <- list_fmap_compose. apply list_fmap_ext. intros i param _. simpl.
    apply setDefaults_param_idem.
Qed.

(** X24. [setDefaults] is idempotent: applying the defaults to a
    configuration that already went through it changes nothing. *)
Theorem setDefaults_idempotent cfg : setDefaults (setDefaults cfg) = setDefaults cfg.
Proof.
  unfold setDefaults.
  cbn [full_Config full_Security full_Runtime cfg_Server cfg_Tools cfg_Prompts
       cfg_Resources server_Name server_Version sec_EnableCORS sec_AllowedOrigins
       sec_EnableRateLimit sec_RateLimit sec_EnableAuth sec_APIKeys sec_TLSCertPath
       sec_TLSKeyPath sec_OAuth run_MaxConcurrentRequests run_DefaultTimeout
       run_HealthCheckInterval run_MetricsEnabled run_LogLevel run_Environment].
  rewrite (default_string_idem (server_Version _) "1.0.0") by done.
  rewrite (default_Z_idem (sec_RateLimit _)) by done.
  rewrite (default_Z_idem (run_MaxConcurrentRequests _)) by done.
  rewrite (default_Z_idem (run_DefaultTimeout _)) by done.
  rewrite (default_Z_idem (run_HealthCheckInterval _)) by done.
  rewrite (default_string_idem (run_LogLevel _) "info") by done.
  rewrite (default_string_idem (run_Environment _) "development") by done.
  do 2 f_equal.
  rewrite <- list_fmap_compose. apply list_fmap_ext. intros i tool _. simpl.
  apply setDefaults_tool_idem.
Qed.

(** X25. After [setDefaults] every tool has a method, a timeout and a
    retry count that are not zero-valued and typed parameters, the
    tools keep their names and order, and a tool that already has all
    of these and a content type is left as it is. *)
Theorem setDefaults_tools cfg :
  Forall defaulted (cfg_Tools (full_Config (setDefaults cfg))) /\
  tool_Name <$> cfg_Tools (full_Config (setDefaults cfg))
    = tool_Name <$> cfg_Tools (full_Config cfg) /\
  (forall tool, defaulted tool -> tool_ContentType tool <> "" ->
                setDefaults_tool tool = tool).
Proof.
  split; [|split].
  - simpl. apply Forall_fmap, Forall_true. intros tool. unfold defaulted. simpl.
    repeat split.
    + by destruct (String.eqb_spec (tool_Method tool) "").
    + by destruct (Z.eqb_spec (tool_Timeout tool) 0).
    + by destruct (Z.eqb_spec (tool_Retries tool) 0).
    + apply Forall_fmap, Forall_true. intros param. simpl.
      by destruct (String.eqb_spec (param_Type param) "").
  - simpl. rewrite <- list_fmap_compose. by apply list_fmap_ext.
  - intros tool (Hm & Ht & Hr & Hp) Hct. destruct tool. simpl in *.
    unfold setDefaults_tool. simpl.
    apply String.eqb_neq in Hm, Hct. apply Z.eqb_neq in Ht, Hr.
    rewrite Hm, Hct, Ht, Hr. simpl. f_equal.
    induction Hp as [|param rest Hparam _ IH]; [done|].
    rewrite fmap_cons, IH. f_equal. destruct param. unfold setDefaults_param. simpl in *.
    apply String.eqb_neq in Hparam. by rewrite Hparam.
Qed.

(** X26. A retry count of zero does not survive loading: it is
    replaced by three, so that a tool configured without retries is
    sent four times to an upstream that never succeeds. *)
Theorem setDefaults_zero_retries upstream tool (params : GoMap) req :
  tool_Retries tool = 0%Z ->
  buildRequest (setDefaults_tool tool) params = OK req ->
  neverSucceeds upstream (setDefaults_tool tool) req 4 ->
  tool_Retries (setDefaults_tool tool) = 3%Z /\
  (ExecuteRequest upstream (setDefaults_tool tool) params).2 = [req; req; req; req].
Proof.
  intros Hzero Hbuild Hnever.
  assert (Hthree : tool_Retries (setDefaults_tool tool) = 3%Z).
  { simpl. by rewrite Hzero. }
  split; [done|]. unfold ExecuteRequest. rewrite Hthree.
  destruct (ExecuteRequest_loop_exhausts upstream (setDefaults_tool tool) params req
              Hbuild (Z.to_nat (3 + 1))
              {| ls_resp := None; ls_lastErr := None; ls_sent := [] |})
    as (st' & Hloop & Hsent & _).
  { intros i Hi. apply Hnever. simpl in Hi. lia. }
  rewrite Hloop. simpl in Hsent. by destruct (ls_lastErr st').
Qed.

Lemma checkUnique_OK what (names : list string) :
  forall seen : gset string,
    checkUnique what seen names = OK tt <->
    NoDup names /\ forall name, name ∈ names -> name ∉ seen.
Proof.
  induction names as [|name rest IH]; intros seen; simpl.
  - split; [|done]. intros _. split; [constructor|]. intros n Hn.
    by apply elem_of_nil in Hn.
  - case_bool_decide as Hseen.
    + split; [done|]. intros [_ Hfresh]. exfalso. apply (Hfresh name); [by left|done].
    + rewrite IH. split.
      * intros [Hnd Hfresh]. split.
        -- apply NoDup_cons. split; [|done]. intros Hin.
           apply (Hfresh name Hin). apply elem_of_union. left.
           by apply elem_of_singleton.
        -- intros n Hn. apply elem_of_cons in Hn as [->|Hn]; [done|].
           intros Hs. apply (Hfresh n Hn). apply elem_of_union. by right.
      * intros [Hnd Hfresh]. apply NoDup_cons in Hnd as [Hnotin Hnd].
        split; [done|]. intros n Hn Hs. apply elem_of_union in Hs as [Hs|Hs].
        -- apply elem_of_singleton in Hs. by subst n.
        -- apply (Hfresh n); [by right | done].
Qed.

Lemma validateBusinessRules_resources_OK (resources : list ResourceConfig) :
  forall seen : gset string,
    validateBusinessRules_resources seen resources = OK tt <->
    (NoDup (res_URI <$> resources) /\
     forall uri, uri ∈ res_URI <$> resources -> uri ∉ seen) /\
    Forall (fun resource => contentSources resource = 1%nat) resources.
Proof.
  induction resources as [|resource rest IH]; intros seen; simpl.
  - split; [|done]. intros _. split; [|constructor]. split; [constructor|].
    intros u Hu. by apply elem_of_nil in Hu.
  - case_bool_decide as Hseen.
    { split; [done|]. intros [[_ Hfresh] _]. exfalso.
      apply (Hfresh (res_URI resource)); [by left | done]. }
    destruct (Nat.eqb_spec (contentSources resource) 0) as [Hz|Hnz].
    { split; [done|]. intros [_ Hall]. apply Forall_cons in Hall as [H1 _]. lia. }
    destruct (Nat.ltb_spec 1 (contentSources resource)) as [Hmany|Hone].
    { split; [done|]. intros [_ Hall]. apply Forall_cons in Hall as [H1 _]. lia. }
    rewrite IH. split.
    + intros [[Hnd Hfresh] Hall]. split; [split|].
      * apply NoDup_cons. split; [|done]. intros Hin.
        apply (Hfresh _ Hin). apply elem_of_union. left. by apply elem_of_singleton.
      * intros u Hu. apply elem_of_cons in Hu as [->|Hu]; [done|].
        intros Hs. apply (Hfresh u Hu). apply elem_of_union. by right.
      * apply Forall_cons. split; [lia | done].
    + intros [[Hnd Hfresh] Hall]. apply NoDup_cons in Hnd as [Hnotin Hnd].
      apply Forall_cons in Hall as [_ Hall]. split; [split|]; try done.
      intros u Hu Hs. apply elem_of_union in Hs as [Hs|Hs].
      * apply elem_of_singleton in Hs. by subst u.
      * apply (Hfresh u); [by right | done].
Qed.

Lemma validateBusinessRules_auth_OK (tools : list ToolConfig) :
  validateBusinessRules_auth tools = OK tt <->
  Forall (fun tool => forall auth, tool_Auth tool = Some auth ->
                                   validateAuthConfig auth = OK tt) tools.
Proof.
  induction tools as [|tool rest IH]; simpl.
  - split; [constructor | done].
  - rewrite Forall_cons, <- IH. destruct (tool_Auth tool) as [auth|]; simpl.
    + destruct (validateAuthConfig auth) as [[]|e|p] eqn:Hv; simpl.
      * split; [|by intros [_ ?]]. intros Hrest. split; [|done].
        by intros a [= <-].
      * split; [done|]. intros [Hbad _]. specialize (Hbad auth eq_refl). congruence.
      * split; [done|]. intros [Hbad _]. specialize (Hbad auth eq_refl). congruence.
    + split; [|by intros [_ ?]]. intros Hrest. split; [|done]. by intros a.
Qed.

(** X27. [validateBusinessRules] accepts a configuration exactly when
    tool names, prompt names and resource URIs are each pairwise
    distinct, every resource has exactly one content source, and the
    authentication block of every tool passes [validateAuthConfig]. *)
Theorem validateBusinessRules_OK cfg :
  validateBusinessRules cfg = OK tt <->
  NoDup (tool_Name <$> cfg_Tools cfg) /\
  NoDup (prompt_Name <$> cfg_Prompts cfg) /\
  NoDup (res_URI <$> cfg_Resources cfg) /\
  Forall (fun resource => contentSources resource = 1%nat) (cfg_Resources cfg) /\
  Forall (fun tool => forall auth, tool_Auth tool = Some auth ->
                                   validateAuthConfig auth = OK tt) (cfg_Tools cfg).
Proof.
  unfold validateBusinessRules.
  pose proof (checkUnique_OK "tool name" (tool_Name <$> cfg_Tools cfg) ∅) as Htools.
  pose proof (checkUnique_OK "prompt name" (prompt_Name <$> cfg_Prompts cfg) ∅)
    as Hprompts.
  pose proof (validateBusinessRules_resources_OK (cfg_Resources cfg) ∅) as Hres.
  pose proof (validateBusinessRules_auth_OK (cfg_Tools cfg)) as Hauth.
  split.
  - intros H.
    apply bind_OK in H as ([] & H1 & H). apply bind_OK in H as ([] & H2 & H).
    apply bind_OK in H as ([] & H3 & H4).
    apply Htools in H1 as [? _]. apply Hprompts in H2 as [? _].
    apply Hres in H3 as [[? _] ?]. apply Hauth in H4. done.
  - intros (H1 & H2 & H3 & H4 & H5).
    assert (Hempty : forall (l : list string) x, x ∈ l -> x ∉ (∅ : gset string))
      by (intros l x _; apply not_elem_of_empty).
    rewrite (proj2 Htools (conj H1 (Hempty _))). simpl.
    rewrite (proj2 Hprompts (conj H2 (Hempty _))). simpl.
    rewrite (proj2 Hres (conj (conj H3 (Hempty _)) H4)). simpl.
    by apply Hauth.
Qed.

(** X28. An authentication block that passes [validateAuthConfig]
    authenticates every request, provided it names no environment
    variable or the variable it names is set and not empty: the one
    way a validated block fails at call time is an environment variable
    that is missing while the configured value is empty. *)
Theorem validateAuthConfig_authenticates auth req :
  validateAuthConfig auth = OK tt ->
  auth_EnvVar auth = "" \/ os_Getenv (auth_EnvVar auth) <> "" ->
  isOK (applyAuthentication req auth) = true.
Proof.
  unfold validateAuthConfig, applyAuthentication, envOverride, failIf.
  intros Hvalid Henv.
  assert (Hres : forall x, x <> "" \/ auth_EnvVar auth <> "" ->
            (if negb (String.eqb (auth_EnvVar auth) "")
             then if negb (String.eqb (os_Getenv (auth_EnvVar auth)) "")
                  then os_Getenv (auth_EnvVar auth) else x
             else x) <> "").
  { intros x Hx. destruct (String.eqb_spec (auth_EnvVar auth) "") as [He|He]; simpl.
    - destruct Hx; congruence.
    - destruct Henv as [?|Hset]; [done|].
      by destruct (String.eqb_spec (os_Getenv (auth_EnvVar auth)) ""). }
  destruct (String.eqb (auth_Type auth) "bearer").
  { destruct (String.eqb_spec (auth_Token auth) "") as [Ht|Ht];
      destruct (String.eqb_spec (auth_EnvVar auth) "") as [He|He]; simpl in Hvalid;
      try done;
      match goal with
      | |- context [String.eqb ?tok ""] =>
          destruct (String.eqb_spec tok "") as [Hbad|]; [|done]
      end; exfalso; revert Hbad; apply Hres; tauto. }
  destruct (String.eqb (auth_Type auth) "basic").
  { destruct (String.eqb_spec (auth_Username auth) "") as [Hu|Hu]; [done|].
    simpl in *.
    destruct (String.eqb_spec (auth_Password auth) "") as [Hp|Hp];
      destruct (String.eqb_spec (auth_EnvVar auth) "") as [He|He]; simpl in Hvalid;
      try done;
      match goal with
      | |- context [String.eqb ?pw ""] =>
          destruct (String.eqb_spec pw "") as [Hbad|]; [|done]
      end; exfalso; revert Hbad; apply Hres; tauto. }
  destruct (String.eqb (auth_Type auth) "api_key"); [done|].
  by destruct (String.eqb (auth_Type auth) "custom").
Qed.

(** X29. With OAuth enabled the [/mcp] endpoint turns away every
    request whose Authorization header does not start with "bearer "
    (in any letter case): status 401 with a WWW-Authenticate header, no
    envelope, nothing sent upstream.  Any request that has such a
    header is answered exactly as the dispatcher answers the request
    inside: the token itself is not looked at.  With OAuth disabled
    every request goes to the dispatcher. *)
Theorem mcpEndpoint_gate cfg toolHandler port w r :
  fresh w ->
  let jsonrpcHandler :=
    {| jh_config := full_Config cfg; jh_toolHandler := toolHandler |} in
  (oauth_Enabled (sec_OAuth (full_Security cfg)) = true -> hasBearer r = false ->
     exists w',
       mcpEndpoint cfg toolHandler port w r = (OK w', []) /\
       w_Status w' = Some 401%Z /\ w_Body w' = [] /\
       is_Some (w_Header w' !! http_CanonicalHeaderKey "WWW-Authenticate")) /\
  (oauth_Enabled (sec_OAuth (full_Security cfg)) = false \/ hasBearer r = true ->
     mcpEndpoint cfg toolHandler port w r = ServeHTTP jsonrpcHandler w (in_Request r)).
Proof.
  intros [Hs Hb] jsonrpcHandler. unfold mcpEndpoint, wrapWithAuth, hasBearer. split.
  - intros -> Hno.
    assert (Hcond : String.eqb (in_Authorization r) ""
                    || negb (String.prefix "bearer " (strings_ToLower (in_Authorization r)))
                    = true).
    { destruct (String.eqb (in_Authorization r) ""); [done|]. simpl in *.
      by rewrite Hno. }
    rewrite Hcond. eexists. split; [reflexivity|].
    unfold w_WriteHeader, writeWWWAuthenticate, w_HeaderSet. simpl. rewrite Hs. simpl.
    split; [done|]. split; [done|]. rewrite lookup_insert_eq. by eexists.
  - intros [->|Hyes]; [done|].
    destruct (oauth_Enabled _); [|done].
    destruct (String.eqb (in_Authorization r) ""); [done|]. simpl in *.
    by rewrite Hyes.
Qed.

End Loading.

Section Resources.
Context `{rt : GoRuntime}.

(** X30. [resources/read] answers for the first configured resource
    with the requested URI and never opens a file or a URL: the text is
    the inline content when there is one, and otherwise a fixed
    placeholder for a file-backed or URL-backed resource.  An unknown
    URI is the error -32602 naming it. *)
Theorem handleResourcesRead_content h w req :
  let uri := if notNil (rpc_Params req)
             then json_DecodeResourcesReadParams (rpc_Params req) else "" in
  (forall resource,
     find (fun r => String.eqb (res_URI r) uri) (cfg_Resources (jh_config h))
       = Some resource ->
     exists text,
       handleResourcesRead h w req =
         writeSuccess w (rpc_ID req)
           (obj {[ "contents" :=
                     VArr [obj (<["uri" := VStr (res_URI resource)]>
                                (<["mimeType" := VStr (res_MimeType resource)]>
                                 {[ "text" := VStr text ]}))] ]}) /\
       res_URI resource = uri /\
       (res_Content resource <> "" -> text = res_Content resource) /\
       (res_Content resource = "" -> res_FilePath resource <> "" ->
          text = "File content would be loaded here") /\
       (res_Content resource = "" -> res_FilePath resource = "" ->
          res_URL resource <> "" -> text = "URL content would be fetched here")) /\
  ((forall resource, resource ∈ cfg_Resources (jh_config h) -> res_URI resource <> uri) ->
   handleResourcesRead h w req =
     writeError w (rpc_ID req) (-32602) "Invalid params"
       (VStr ("Resource '" +:+ uri +:+ "' not found"))).
Proof.
  intros uri. unfold handleResourcesRead. fold uri. split.
  - intros resource Hfind. rewrite Hfind. eexists. split; [reflexivity|].
    apply find_some in Hfind as [_ Huri]. apply String.eqb_eq in Huri.
    split; [done|].
    destruct (String.eqb_spec (res_Content resource) "") as [Hc|Hc]; simpl.
    + destruct (String.eqb_spec (res_FilePath resource) "") as [Hf|Hf]; simpl.
      * rewrite Hc. simpl.
        destruct (String.eqb_spec (res_URL resource) "") as [Hu|Hu]; simpl;
          repeat split; done.
      * repeat split; done.
    + apply String.eqb_neq in Hc. rewrite Hc. simpl. apply String.eqb_neq in Hc.
      repeat split; done.
  - intros Hnone.
    destruct (find _ _) as [resource|] eqn:Hfind; [|done].
    apply find_some in Hfind as [Hin Huri]. apply String.eqb_eq in Huri.
    apply list_elem_of_In in Hin. by destruct (Hnone resource Hin).
Qed.

End Resources.

Lemma buildRequest_authorization_witness :
  exists req,
    buildRequest (withAuth (withHeaders getItem {[ "Authorization" := "Basic abc" ]})
                    (bearerAuth "s3cret")) (Some idArgs) = OK req /\
    req_Header req !! "Authorization" = Some ["Bearer s3cret"].
Proof.
  assert (Hbuild : exists req,
            buildRequest (withAuth (withHeaders getItem {[ "Authorization" := "Basic abc" ]})
                            (bearerAuth "s3cret")) (Some idArgs) = OK req)
    by (vm_compute; eexists; reflexivity).
  destruct Hbuild as [req Hbuild]. exists req. split; [exact Hbuild|].
  destruct (buildRequest_authorization _ _ req (bearerAuth "s3cret") Hbuild eq_refl)
    as [Hbearer _].
  exact (proj2 (Hbearer eq_refl)).
Defined.

Lemma buildRequest_configured_headers_witness :
  exists req,
    buildRequest (withHeaders getItem {[ "User-Agent" := "custom/1.0" ]}) (Some idArgs)
      = OK req /\
    req_Header req !! "User-Agent" = Some ["custom/1.0"] /\
    req_Header req !! "Accept" = Some ["application/json, text/plain, */*"].
Proof.
  assert (Hbuild : exists req,
            buildRequest (withHeaders getItem {[ "User-Agent" := "custom/1.0" ]})
              (Some idArgs) = OK req)
    by (vm_compute; eexists; reflexivity).
  destruct Hbuild as [req Hbuild]. exists req. split; [exact Hbuild|].
  destruct (buildRequest_configured_headers _ _ req Hbuild eq_refl) as [Hset Hdefault].
  split.
  - destruct (Hset "User-Agent" "custom/1.0" eq_refl) as (expanded & Hexp & Hhdr).
    + intros key' [v Hv] Heq. exact Heq.
    + vm_compute in Hexp. injection Hexp as <-. exact Hhdr.
  - apply Hdefault. intros key' [v Hv] Heq. simpl in Heq. subst key'.
    vm_compute in Hv. discriminate Hv.
Defined.

Lemma buildRequest_method_witness :
  exists req jsonBody,
    buildRequest (withMethod postOrder "") (Some countArgs) = OK req /\
    req_Method req = "GET" /\ req_Body req = Some jsonBody.
Proof.
  assert (Hbuild : exists req,
            buildRequest (withMethod postOrder "") (Some countArgs) = OK req)
    by (vm_compute; eexists; reflexivity).
  destruct Hbuild as [req Hbuild].
  destruct (buildRequest_method _ _ req Hbuild) as (_ & _ & Hquirk).
  destruct Hquirk as (Hget & jsonBody & _ & Hbody);
    [reflexivity | reflexivity | vm_compute; lia |].
  exists req, jsonBody. split; [exact Hbuild|]. split; [exact Hget | exact Hbody].
Defined.

Lemma setDefaults_tools_witness :
  setDefaults_tool (setDefaults_tool postOrder) = setDefaults_tool postOrder.
Proof.
  destruct (setDefaults_tools
              {| full_Config := demoConfig; full_Security := demoSecurity true;
                 full_Runtime := demoRuntimeConfig |}) as (_ & _ & Hfixed).
  apply Hfixed; [|discriminate].
  split; [discriminate|]. split; [discriminate|]. split; [discriminate|].
  simpl. repeat (apply Forall_cons; split; [discriminate|]). apply Forall_nil_2.
Defined.

Lemma setDefaults_zero_retries_witness :
  tool_Retries (setDefaults_tool (withRetries getItem 0)) = 3%Z /\
  (ExecuteRequest failing500 (setDefaults_tool (withRetries getItem 0)) (Some idArgs)).2
    = [getItemRequest; getItemRequest; getItemRequest; getItemRequest].
Proof.
  apply (setDefaults_zero_retries failing500 (withRetries getItem 0) (Some idArgs)
           getItemRequest);
    [reflexivity | vm_compute; reflexivity |].
  intros n _. split; [exact I | reflexivity].
Defined.

Lemma validateBusinessRules_OK_witness :
  validateBusinessRules demoConfig = OK tt /\
  NoDup (tool_Name <$> cfg_Tools demoConfig).
Proof.
  assert (Hok : validateBusinessRules demoConfig = OK tt) by (vm_compute; reflexivity).
  split; [exact Hok|].
  exact (proj1 (proj1 (validateBusinessRules_OK demoConfig) Hok)).
Defined.

Lemma validateAuthConfig_authenticates_witness :
  validateAuthConfig tokenAuth = OK tt /\
  isOK (applyAuthentication getItemRequest tokenAuth) = true.
Proof.
  split; [reflexivity|].
  apply (validateAuthConfig_authenticates tokenAuth getItemRequest);
    [reflexivity | by left].
Defined.

Lemma mcpEndpoint_gate_witness :
  hasBearer anonymousRequest = false /\
  exists w',
    mcpEndpoint {| full_Config := demoConfig; full_Security := demoSecurity true;
                   full_Runtime := demoRuntimeConfig |}
      {| th_tools := demoTools; th_upstream := healthy |} 8080 newResponseWriter
      anonymousRequest = (OK w', []) /\
    w_Status w' = Some 401%Z /\ w_Body w' = [].
Proof.
  split; [reflexivity|].
  destruct (mcpEndpoint_gate
              {| full_Config := demoConfig; full_Security := demoSecurity true;
                 full_Runtime := demoRuntimeConfig |}
              {| th_tools := demoTools; th_upstream := healthy |} 8080
              newResponseWriter anonymousRequest) as [Hdeny _]; [split; reflexivity|].
  destruct (Hdeny eq_refl eq_refl) as (w' & Hrun & Hstatus & Hbody & _).
  exists w'. split; [exact Hrun|]. split; [exact Hstatus | exact Hbody].
Defined.

Lemma handleResourcesRead_content_witness :
  handleResourcesRead
    {| jh_config := {| cfg_Server := cfg_Server demoConfig; cfg_Tools := [];
                       cfg_Prompts := []; cfg_Resources := [manualResource] |};
       jh_toolHandler := {| th_tools := ∅; th_upstream := healthy |} |}
    newResponseWriter readManual =
  writeSuccess newResponseWriter (VInt 2)
    (obj {[ "contents" :=
              VArr [obj (<["uri" := VStr "file:///manual"]>
                         (<["mimeType" := VStr "text/plain"]>
                          {[ "text" := VStr "File content would be loaded here" ]}))] ]}).
Proof.
  destruct (handleResourcesRead_content
              {| jh_config := {| cfg_Server := cfg_Server demoConfig; cfg_Tools := [];
                                 cfg_Prompts := []; cfg_Resources := [manualResource] |};
                 jh_toolHandler := {| th_tools := ∅; th_upstream := healthy |} |}
              newResponseWriter readManual) as [Hfound _].
  destruct (Hfound manualResource eq_refl) as (text & Hrun & _ & _ & Hfile & _).
  rewrite Hrun, (Hfile eq_refl ltac:(discriminate)). reflexivity.
Defined.
